(** * Proxy-origin fingerprinter: a shallow embedding of the detector

    The Go service probes an Anthropic-compatible endpoint, extracts a
    [Fingerprint] per probe, and scores the fingerprints into a verdict.
    This development embeds the dialer guard, the response parser, the
    classifier ([analyze]), the rate-limit verifier and the multi-model
    scan, and proves the properties the specification states about them.

    Conventions.
    - Go [int] is the 64-bit two's-complement integer; it is embedded as
      [Z] with every addition and subtraction wrapped by [GoInt.wrap].
    - Go strings are byte strings: [string] of the standard library.
    - The network is not code: DNS answers, HTTP responses and deadline
      expiry enter as explicit arguments (Section variables). *)

From Stdlib Require Import ZArith List String Ascii Bool Lia DecimalString.
From Stdlib Require Import Floats Uint63.
From stdpp Require Import base gmap strings list.

Local Set Warnings "-register-all".
Local Open Scope string_scope.
Local Open Scope list_scope.
Local Open Scope Z_scope.

(** ** Go [int] *)

Module GoInt.

Definition min_int : Z := - 2 ^ 63.
Definition max_int : Z := 2 ^ 63 - 1.

Definition in_range (z : Z) : Prop := min_int <= z <= max_int.

(** Two's-complement wrap-around of a mathematical integer. *)
Definition wrap (z : Z) : Z := (z + 2 ^ 63) mod 2 ^ 64 - 2 ^ 63.

Definition add (a b : Z) : Z := wrap (a + b).
Definition sub (a b : Z) : Z := wrap (a - b).

End GoInt.

(** ** Errors *)

Inductive result (A : Type) : Type :=
| Ok (a : A)
| Err (msg : string).
Arguments Ok {A} a.
Arguments Err {A} msg.

(** ** Package [strings] *)

Module Strings.

(** [strings.HasPrefix s prefix] *)
Definition HasPrefix (s pre : string) : bool := String.prefix pre s.

(** [strings.Contains s substr] *)
Fixpoint Contains (s sub : string) : bool :=
  HasPrefix s sub ||
  match s with
  | EmptyString => false
  | String _ s' => Contains s' sub
  end.

Definition lower_ascii (c : ascii) : ascii :=
  let n := nat_of_ascii c in
  if ((65 <=? n) && (n <=? 90))%nat then ascii_of_nat (n + 32) else c.

(** [strings.ToLower] on the ASCII range, which is all that header keys
    and the keywords searched for contain. *)
Fixpoint ToLower (s : string) : string :=
  match s with
  | EmptyString => EmptyString
  | String c s' => String (lower_ascii c) (ToLower s')
  end.

(** [strings.Join elems sep] *)
Fixpoint Join (elems : list string) (sep : string) : string :=
  match elems with
  | [] => ""
  | [x] => x
  | x :: rest => x +:+ sep +:+ Join rest sep
  end.

Definition isSpace (c : ascii) : bool :=
  match nat_of_ascii c with
  | 9%nat | 10%nat | 11%nat | 12%nat | 13%nat | 32%nat => true
  | _ => false
  end.

Fixpoint trimLeft (s : string) : string :=
  match s with
  | String c s' => if isSpace c then trimLeft s' else s
  | EmptyString => EmptyString
  end.

Fixpoint trimRight (s : string) : string :=
  match s with
  | EmptyString => EmptyString
  | String c s' =>
      match trimRight s' with
      | EmptyString => if isSpace c then EmptyString else String c EmptyString
      | t => String c t
      end
  end.

(** [strings.TrimSpace], for ASCII white space. *)
Definition TrimSpace (s : string) : string := trimRight (trimLeft s).

(** [strings.Split s sep] for a one-byte separator: never empty. *)
Fixpoint Split (s : string) (sep : ascii) : list string :=
  match s with
  | EmptyString => [""]
  | String c s' =>
      let r := Split s' sep in
      if Ascii.eqb c sep then "" :: r
      else match r with
           | x :: xs => String c x :: xs
           | [] => [String c ""]
           end
  end.

Fixpoint trimRightChar (s : string) (c : ascii) : string :=
  match s with
  | EmptyString => EmptyString
  | String x s' =>
      match trimRightChar s' c with
      | EmptyString => if Ascii.eqb x c then EmptyString else String x EmptyString
      | t => String x t
      end
  end.

(** [len(s)] as a Go [int]. *)
Definition len (s : string) : Z := Z.of_nat (String.length s).

End Strings.

(** ** Package [strconv] *)

Module Strconv.

Definition digitValue (c : ascii) : option Z :=
  let n := nat_of_ascii c in
  if ((48 <=? n) && (n <=? 57))%nat then Some (Z.of_nat n - 48) else None.

Fixpoint parseDigits (s : string) (acc : Z) : option Z :=
  match s with
  | EmptyString => Some acc
  | String c s' =>
      match digitValue c with
      | Some d => parseDigits s' (10 * acc + d)
      | None => None
      end
  end.

(** [strconv.Atoi]: an optional sign, then at least one decimal digit and
    nothing else; [None] stands for a non-nil error (syntax or range). *)
Definition Atoi (s : string) : option Z :=
  let '(neg, digits) :=
    match s with
    | String "-"%char r => (true, r)
    | String "+"%char r => (false, r)
    | _ => (false, s)
    end in
  match digits with
  | EmptyString => None
  | _ =>
      match parseDigits digits 0 with
      | Some n =>
          let v := if neg : bool then - n else n in
          if (GoInt.min_int <=? v) && (v <=? GoInt.max_int) then Some v else None
      | None => None
      end
  end.

(** [fmt.Sprintf("%d", n)] *)
Definition Itoa (z : Z) : string := NilZero.string_of_int (Z.to_int z).

End Strconv.

(** ** Package [net]: IP addresses

    Transcribed from the Go standard library ([net/ip.go]).  An [IP] is a
    byte slice of length 4 or 16; each octet is a [Z] in [0, 255]. *)

Module Net.

Definition IP : Type := list Z.

Definition IPv4len : nat := 4.
Definition IPv6len : nat := 16.

Definition v4InV6Prefix : list Z := [0; 0; 0; 0; 0; 0; 0; 0; 0; 0; 255; 255].

(** [net.IPv4 a b c d]: the 16-byte form of an IPv4 address. *)
Definition IPv4 (a b c d : Z) : IP := v4InV6Prefix ++ [a; b; c; d].

Definition IPv4zero : IP := IPv4 0 0 0 0.
Definition IPv6unspecified : IP := [0; 0; 0; 0; 0; 0; 0; 0; 0; 0; 0; 0; 0; 0; 0; 0].
Definition IPv6loopback : IP := [0; 0; 0; 0; 0; 0; 0; 0; 0; 0; 0; 0; 0; 0; 0; 1].

(** [bytealg.Equal] *)
Fixpoint bytesEqual (a b : list Z) : bool :=
  match a, b with
  | [], [] => true
  | x :: a', y :: b' => (x =? y) && bytesEqual a' b'
  | _, _ => false
  end.

Definition isZeros (p : list Z) : bool := forallb (Z.eqb 0) p.

(** Octet [i] of a slice the caller has checked to be long enough. *)
Definition octet (ip : IP) (i : nat) : Z := nth i ip 0.

(** [ip.To4()]: [None] is Go's [nil]. *)
Definition To4 (ip : IP) : option IP :=
  if (length ip =? IPv4len)%nat then Some ip
  else if (length ip =? IPv6len)%nat && isZeros (take 10 ip)
          && (octet ip 10 =? 255) && (octet ip 11 =? 255)
       then Some (drop 12 ip)
       else None.

(** [ip.Equal(x)] *)
Definition Equal (ip x : IP) : bool :=
  if (length ip =? length x)%nat then bytesEqual ip x
  else if (length ip =? IPv4len)%nat && (length x =? IPv6len)%nat
       then bytesEqual (take 12 x) v4InV6Prefix && bytesEqual ip (drop 12 x)
  else if (length ip =? IPv6len)%nat && (length x =? IPv4len)%nat
       then bytesEqual (take 12 ip) v4InV6Prefix && bytesEqual (drop 12 ip) x
  else false.

Definition IsUnspecified (ip : IP) : bool :=
  Equal ip IPv4zero || Equal ip IPv6unspecified.

Definition IsLoopback (ip : IP) : bool :=
  match To4 ip with
  | Some ip4 => octet ip4 0 =? 127
  | None => Equal ip IPv6loopback
  end.

Definition IsPrivate (ip : IP) : bool :=
  match To4 ip with
  | Some ip4 =>
      (octet ip4 0 =? 10)
      || ((octet ip4 0 =? 172) && (Z.land (octet ip4 1) 240 =? 16))
      || ((octet ip4 0 =? 192) && (octet ip4 1 =? 168))
  | None => (length ip =? IPv6len)%nat && (Z.land (octet ip 0) 254 =? 252)
  end.

Definition IsLinkLocalUnicast (ip : IP) : bool :=
  match To4 ip with
  | Some ip4 => (octet ip4 0 =? 169) && (octet ip4 1 =? 254)
  | None =>
      (length ip =? IPv6len)%nat && (octet ip 0 =? 254)
      && (Z.land (octet ip 1) 192 =? 128)
  end.

Definition IsLinkLocalMulticast (ip : IP) : bool :=
  match To4 ip with
  | Some ip4 => (octet ip4 0 =? 224) && (octet ip4 1 =? 0) && (octet ip4 2 =? 0)
  | None =>
      (length ip =? IPv6len)%nat && (octet ip 0 =? 255)
      && (Z.land (octet ip 1) 15 =? 2)
  end.

(** [net.JoinHostPort] *)
Definition JoinHostPort (host port : string) : string :=
  if Strings.Contains host ":" then "[" +:+ host +:+ "]:" +:+ port
  else host +:+ ":" +:+ port.

End Net.

(** ** SafeDialer *)

(** What a [DialContext] function does: either it hands the call to the
    underlying [net.Dialer] (a connection is attempted to [hostport]), or
    it returns an error without touching the network. *)
Inductive DialOutcome : Type :=
| DialAttempt (network hostport : string)
| DialRefused (msg : string).

(** [net.ParseIP("169.254.169.254")] *)
Definition metadataIP : Net.IP := Net.IPv4 169 254 169 254.

Definition privateIPBlocked : string := "connection to private IP blocked".
Definition metadataBlocked : string := "connection to metadata endpoint blocked".

(** The guard inside the loop over the resolved addresses. *)
Definition isInternal (ip : Net.IP) : bool :=
  Net.IsLoopback ip || Net.IsPrivate ip || Net.IsLinkLocalUnicast ip
  || Net.IsLinkLocalMulticast ip || Net.IsUnspecified ip.

(** The [for _, ipAddr := range ips] loop of [safeDialer]: the first
    offending address ends the dial with its error. *)
Fixpoint checkIPs (ips : list Net.IP) : option string :=
  match ips with
  | [] => None
  | ip :: rest =>
      if isInternal ip then Some privateIPBlocked
      else if Net.Equal ip metadataIP then Some metadataBlocked
      else checkIPs rest
  end.

Section Dialer.

(** The Go runtime and the network, as seen by the dialer. *)
Variable SplitHostPort : string -> result (string * string).
Variable LookupIPAddr : string -> result (list Net.IP).

Definition safeDialer (network addr : string) : DialOutcome :=
  match SplitHostPort addr with
  | Err e => DialRefused ("invalid address: " +:+ e)
  | Ok (host, port) =>
      match LookupIPAddr host with
      | Err e => DialRefused ("DNS lookup failed: " +:+ e)
      | Ok ips =>
          match checkIPs ips with
          | Some msg => DialRefused msg
          | None => DialAttempt network (Net.JoinHostPort host port)
          end
      end
  end.

(** The dial function of the HTTP client the detector builds:
    [newUnsafeHTTPClient] keeps the default transport, [newSafeHTTPClient]
    installs [safeDialer]. *)
Definition clientDial (skipSSRFCheck : bool) (network addr : string) : DialOutcome :=
  if skipSSRFCheck then DialAttempt network addr else safeDialer network addr.

End Dialer.

(** ** Decoded JSON and HTTP responses *)

(** A value decoded into Go's [any]: [map[string]any] is an association
    list with one binding per key, [[]any] a list.  A number keeps its
    literal; the detector never computes with one. *)
Inductive JSON : Type :=
| JNull
| JBool (b : bool)
| JNumber (literal : string)
| JString (s : string)
| JArray (items : list JSON)
| JObject (fields : list (string * JSON)).

(** [m[k]] with the [ok] flag: the binding of [k], if any. *)
Fixpoint field (k : string) (m : list (string * JSON)) : option JSON :=
  match m with
  | [] => None
  | (k', v) :: rest => if String.eqb k k' then Some v else field k rest
  end.

(** [v, _ := x.(string)] *)
Definition asString (x : option JSON) : string :=
  match x with
  | Some (JString s) => s
  | _ => ""
  end.

(** [x == "lit"] for [x] of type [any] *)
Definition isString (x : option JSON) (lit : string) : bool :=
  match x with
  | Some (JString s) => String.eqb s lit
  | _ => false
  end.

(** [http.Header]: canonical key to values, listed in the order in which
    [range] happens to visit the keys. *)
Definition Header : Type := list (string * list string).

(** [h.Get(key)] for a key given in canonical form. *)
Fixpoint Header_Get (h : Header) (key : string) : string :=
  match h with
  | [] => ""
  | (k, vals) :: rest =>
      if String.eqb k key then match vals with v :: _ => v | [] => "" end
      else Header_Get rest key
  end.

Record Response : Type := {
  StatusCode : Z;
  RespHeader : Header;
  (** the bytes of the body that arrive *)
  BodyBytes : string;
  (** whether reading the body ends in an error rather than end of file *)
  BodyReadFails : bool
}.

(** What happens to one request of [probeOnce] or [CheckModelAvailable]. *)
Inductive Exchange : Type :=
| MarshalFailed
| NewRequestFailed
(** [client.Do] returned an error; the flag is [ctx.Err() != nil] *)
| TransportError (ctxExpired : bool)
(** a response arrived after [latency] milliseconds *)
| Responded (latency : Z) (resp : Response).

(** ** Fingerprint constants *)

Definition anthropicToolPrefix : string := "toolu_".
Definition bedrockToolPrefix : string := "tooluse_".
Definition anthropicMsgPrefix : string := "msg_".
Definition kiroModelPrefix : string := "kiro-".
Definition bedrockModelPrefix : string := "anthropic.".
Definition thinkingSigShortThreshold : Z := 100.

Definition awsHeaderKeywords : list string := ["x-amzn"; "x-amz-"; "bedrock"].
Definition anthropicHeaderKeywords : list string :=
  ["anthropic-ratelimit"; "x-ratelimit"; "retry-after"].

(** *** The three regular expressions *)

Definition isDigit (c : ascii) : bool :=
  let n := nat_of_ascii c in ((48 <=? n) && (n <=? 57))%nat.

(** [[0-9a-f]] under the [(?i)] flag *)
Definition isHex (c : ascii) : bool :=
  let n := nat_of_ascii c in
  isDigit c || ((97 <=? n) && (n <=? 102))%nat || ((65 <=? n) && (n <=? 70))%nat.

(** Consume [[0-9a-f]{n}]. *)
Fixpoint eatHex (n : nat) (s : string) : option string :=
  match n with
  | O => Some s
  | S n' =>
      match s with
      | String c s' => if isHex c then eatHex n' s' else None
      | EmptyString => None
      end
  end.

(** Consume one ['-']. *)
Definition eatDash (s : string) : option string :=
  match s with
  | String "-"%char s' => Some s'
  | _ => None
  end.

Definition andThen {A B : Type} (x : option A) (f : A -> option B) : option B :=
  match x with
  | Some a => f a
  | None => None
  end.

(** [msgIDUUIDPattern], [(?i)^msg_[0-9a-f]{8}-[0-9a-f]{4}-], on a string
    that starts with [msg_] (the only strings it is applied to). *)
Definition msgIDUUIDPattern (s : string) : bool :=
  Strings.HasPrefix s "msg_" &&
  match andThen (andThen (andThen (eatHex 8 (String.substring 4 (String.length s - 4) s))
                                  eatDash) (eatHex 4)) eatDash with
  | Some _ => true
  | None => false
  end.

Fixpoint allDigits (s : string) : bool :=
  match s with
  | EmptyString => true
  | String c s' => isDigit c && allDigits s'
  end.

(** [toolNPattern], [^tool_\d+$] *)
Definition toolNPattern (s : string) : bool :=
  Strings.HasPrefix s "tool_" &&
  let rest := String.substring 5 (String.length s - 5) s in
  negb (String.eqb rest "") && allDigits rest.

(** [uuidPattern],
    [(?i)^[0-9a-f]{8}-[0-9a-f]{4}-[0-9a-f]{4}-[0-9a-f]{4}-[0-9a-f]{12}$] *)
Definition uuidPattern (s : string) : bool :=
  match andThen (andThen (andThen (andThen (andThen (andThen (andThen (andThen
          (eatHex 8 s) eatDash) (eatHex 4)) eatDash) (eatHex 4)) eatDash)
          (eatHex 4)) eatDash) (eatHex 12) with
  | Some EmptyString => true
  | _ => false
  end.

(** ** Fingerprint *)

Record Fingerprint : Type := {
  ToolID : string;
  ToolIDSource : string;
  MsgID : string;
  MsgIDSource : string;
  MsgIDFormat : string;
  Model : string;
  ModelRequested : string;
  ModelSource : string;
  UsageStyle : string;
  HasServiceTier : bool;
  ServiceTier : string;
  HasInferenceGeo : bool;
  InferenceGeo : string;
  HasCacheCreation : bool;
  HasAWSHeaders : bool;
  HasAnthropicHdrs : bool;
  ThinkingSigClass : string;
  ThinkingSigLen : Z;
  ProbeType : string;
  LatencyMs : Z;
  StopReason : string;
  ProxyPlatform : string;
  PlatformClues : list string;
  Error : string;
  RatelimitInputLimit : Z;
  RatelimitInputRemaining : Z;
  RatelimitInputReset : string
}.

(** [Fingerprint{ProbeType: probeType, ModelRequested: model}] *)
Definition newFingerprint (probeType model : string) : Fingerprint := {|
  ToolID := ""; ToolIDSource := ""; MsgID := ""; MsgIDSource := "";
  MsgIDFormat := ""; Model := ""; ModelRequested := model; ModelSource := "";
  UsageStyle := ""; HasServiceTier := false; ServiceTier := "";
  HasInferenceGeo := false; InferenceGeo := ""; HasCacheCreation := false;
  HasAWSHeaders := false; HasAnthropicHdrs := false; ThinkingSigClass := "";
  ThinkingSigLen := 0; ProbeType := probeType; LatencyMs := 0;
  StopReason := ""; ProxyPlatform := ""; PlatformClues := []; Error := "";
  RatelimitInputLimit := 0; RatelimitInputRemaining := 0;
  RatelimitInputReset := ""
|}.

(** [classifyMsgID]: source and format of a message id. *)
Definition classifyMsgID (msgID : string) : string * string :=
  if String.eqb msgID "" then ("unknown", "")
  else if Strings.HasPrefix msgID "req_vrtx_" then ("vertex", "req_vrtx")
  else if Strings.HasPrefix msgID anthropicMsgPrefix then
    if msgIDUUIDPattern msgID then ("antigravity", "msg_uuid")
    else ("anthropic", "base62")
  else if uuidPattern msgID then ("rewritten", "uuid")
  else ("rewritten", "other").

(** [classifyThinkingSig] *)
Definition classifyThinkingSig (sig : string) : string :=
  if String.eqb sig "" then "none"
  else if Strings.len sig <? thinkingSigShortThreshold then "short"
  else if Strings.HasPrefix sig "claude#" then "vertex"
  else "normal".

(** ** ResponseParser *)

(** The CORS loop of [detectProxyPlatform]: collect the parts that name
    [accounthub] or [pool], stopping once five clues are held. *)
Fixpoint corsClues (parts clues : list string) : list string :=
  match parts with
  | [] => clues
  | part :: rest =>
      let part := Strings.TrimSpace part in
      let pl := Strings.ToLower part in
      if Strings.Contains pl "accounthub" || Strings.Contains pl "pool" then
        let clues := clues ++ [part] in
        if (5 <=? length clues)%nat then clues else corsClues rest clues
      else corsClues rest clues
  end.

(** [detectProxyPlatform] *)
Definition detectProxyPlatform (headers : Header) : string * list string :=
  let '(platform, clues) :=
    fold_left (fun (acc : string * list string) (kv : string * list string) =>
      let kl := Strings.ToLower (fst kv) in
      let acc :=
        if Strings.Contains kl "aidistri"
        then ("Aidistri", snd acc ++ ["X-Aidistri-Request-Id"]) else acc in
      if Strings.Contains kl "one-api" || Strings.Contains kl "new-api"
      then ("OneAPI/NewAPI", snd acc ++ ["OneAPI header detected"]) else acc)
      headers ("", []) in
  let cors := Header_Get headers "Access-Control-Allow-Headers" in
  let '(platform, clues) :=
    if Strings.Contains (Strings.ToLower cors) "accounthub" then
      (if String.eqb platform "" then "AccountHub" else platform,
       corsClues (Strings.Split cors ","%char) clues)
    else (platform, clues) in
  let '(platform, clues) :=
    fold_left (fun (acc : string * list string) (kv : string * list string) =>
      let kl := Strings.ToLower (fst kv) in
      fold_left (fun (acc : string * list string) (v : string) =>
        if Strings.Contains kl "openrouter"
           || Strings.Contains (Strings.ToLower v) "openrouter"
        then ("OpenRouter", snd acc ++ ["OpenRouter header detected"]) else acc)
        (snd kv) acc)
      headers (platform, clues) in
  let clues :=
    if String.eqb (Strings.ToLower (Header_Get headers "Server")) "cloudflare" then
      let cfRay := Header_Get headers "Cf-Ray" in
      if negb (String.eqb cfRay "") then clues ++ ["CF-Ray: " +:+ cfRay] else clues
    else clues in
  (platform, clues).

(** The key scan of [probeOnce]: does some header key contain a keyword? *)
Definition headerKeyHas (kws : list string) (headers : Header) : bool :=
  existsb (fun kv => existsb (Strings.Contains (Strings.ToLower (fst kv))) kws) headers.

(** The three rate-limit fields, as [probeOnce] reads them off the
    headers: (limit, remaining, reset). *)
Definition ratelimitHeaders (headers : Header) : Z * Z * string :=
  fold_left (fun (acc : Z * Z * string) (kv : string * list string) =>
    let '(limit, remaining, reset) := acc in
    let kl := Strings.ToLower (fst kv) in
    match snd kv with
    | [] => acc
    | v0 :: _ =>
        if String.eqb kl "anthropic-ratelimit-input-tokens-limit" then
          match Strconv.Atoi v0 with
          | Some n => (n, remaining, reset)
          | None => acc
          end
        else if String.eqb kl "anthropic-ratelimit-input-tokens-remaining" then
          match Strconv.Atoi v0 with
          | Some n => (limit, n, reset)
          | None => acc
          end
        else if String.eqb kl "anthropic-ratelimit-input-tokens-reset" then
          (limit, remaining, v0)
        else acc
    end) headers (0, 0, "").

(** The [tool_use] branch: the source tag of a tool id; an empty id that
    matches nothing leaves the tag as it was. *)
Definition classifyToolID (previous toolID : string) : string :=
  if Strings.HasPrefix toolID bedrockToolPrefix then "bedrock"
  else if Strings.HasPrefix toolID anthropicToolPrefix then "anthropic"
  else if toolNPattern toolID then "vertex"
  else if negb (String.eqb toolID "") then "rewritten"
  else previous.

(** The fields the content blocks decide. *)
Record BlockFields : Type := {
  bToolID : string;
  bToolIDSource : string;
  bThinkingSigLen : Z;
  bThinkingSigClass : string
}.

Definition noBlockFields : BlockFields :=
  {| bToolID := ""; bToolIDSource := ""; bThinkingSigLen := 0; bThinkingSigClass := "" |}.

(** One iteration of [for _, block := range content]. *)
Definition scanBlock (st : BlockFields) (block : JSON) : BlockFields :=
  match block with
  | JObject bm =>
      let st :=
        if isString (field "type" bm) "tool_use" then
          let id := asString (field "id" bm) in
          {| bToolID := id;
             bToolIDSource := classifyToolID (bToolIDSource st) id;
             bThinkingSigLen := bThinkingSigLen st;
             bThinkingSigClass := bThinkingSigClass st |}
        else st in
      if isString (field "type" bm) "thinking" then
        let sig := asString (field "signature" bm) in
        {| bToolID := bToolID st;
           bToolIDSource := bToolIDSource st;
           bThinkingSigLen := Strings.len sig;
           bThinkingSigClass := classifyThinkingSig sig |}
      else st
  | _ => st
  end.

(** [if content, ok := body["content"].([]any); ok { ... }] *)
Definition scanContent (body : list (string * JSON)) : BlockFields :=
  match field "content" body with
  | Some (JArray content) => fold_left scanBlock content noBlockFields
  | _ => noBlockFields
  end.

(** The model tag. *)
Definition classifyModel (model : string) : string :=
  if Strings.HasPrefix model kiroModelPrefix then "kiro"
  else if Strings.HasPrefix model bedrockModelPrefix then "bedrock"
  else if negb (String.eqb model "") then "anthropic"
  else "".

(** [body["usage"].(map[string]any)] *)
Definition usageOf (body : list (string * JSON)) : option (list (string * JSON)) :=
  match field "usage" body with
  | Some (JObject usage) => Some usage
  | _ => None
  end.

Definition usageStyle (usage : list (string * JSON)) : string :=
  match field "inputTokens" usage with
  | Some _ => "camelCase"
  | None =>
      match field "input_tokens" usage with
      | Some _ => "snake_case"
      | None => ""
      end
  end.

Definition isSome {A : Type} (x : option A) : bool :=
  match x with Some _ => true | None => false end.

Definition isObject (x : option JSON) : bool :=
  match x with Some (JObject _) => true | _ => false end.

Section Probe.

(** [common.Unmarshal(bodyBytes, &body)] into a [map[string]any]:
    [None] is a decoding error. *)
Variable Unmarshal : string -> option (list (string * JSON)).
(** [fmt.Sprintf("%v", x)] *)
Variable SprintV : JSON -> string.

Definition sprintField (k : string) (usage : list (string * JSON)) : string :=
  match field k usage with
  | Some v => SprintV v
  | None => ""
  end.

(** [probeOnce], from the moment the request is built: the fingerprint
    extracted from what happened to the request. *)
Definition probeOnce (x : Exchange) (model probeType : string) : Fingerprint :=
  let failed (latency : Z) (e : string) : Fingerprint := {|
    ToolID := ""; ToolIDSource := ""; MsgID := ""; MsgIDSource := "";
    MsgIDFormat := ""; Model := ""; ModelRequested := model; ModelSource := "";
    UsageStyle := ""; HasServiceTier := false; ServiceTier := "";
    HasInferenceGeo := false; InferenceGeo := ""; HasCacheCreation := false;
    HasAWSHeaders := false; HasAnthropicHdrs := false; ThinkingSigClass := "";
    ThinkingSigLen := 0; ProbeType := probeType; LatencyMs := latency;
    StopReason := ""; ProxyPlatform := ""; PlatformClues := []; Error := e;
    RatelimitInputLimit := 0; RatelimitInputRemaining := 0;
    RatelimitInputReset := "" |} in
  match x with
  | MarshalFailed => failed 0 "failed to build request"
  | NewRequestFailed => failed 0 "failed to create request"
  | TransportError ctxExpired =>
      failed 0 (if ctxExpired then "detection timed out" else "request failed")
  | Responded latency resp =>
      if negb (StatusCode resp =? 200) then
        failed latency ("HTTP " +:+ Strconv.Itoa (StatusCode resp) +:+ ": "
                        +:+ String.substring 0 200 (BodyBytes resp))
      else
        let headers := RespHeader resp in
        let hasAWS := headerKeyHas awsHeaderKeywords headers in
        let hasAnthropic := headerKeyHas anthropicHeaderKeywords headers in
        let '(platform, clues) := detectProxyPlatform headers in
        let '(limit, remaining, reset) := ratelimitHeaders headers in
        let afterHeaders (e : string) : Fingerprint := {|
          ToolID := ""; ToolIDSource := ""; MsgID := ""; MsgIDSource := "";
          MsgIDFormat := ""; Model := ""; ModelRequested := model; ModelSource := "";
          UsageStyle := ""; HasServiceTier := false; ServiceTier := "";
          HasInferenceGeo := false; InferenceGeo := ""; HasCacheCreation := false;
          HasAWSHeaders := hasAWS; HasAnthropicHdrs := hasAnthropic;
          ThinkingSigClass := ""; ThinkingSigLen := 0; ProbeType := probeType;
          LatencyMs := latency; StopReason := ""; ProxyPlatform := platform;
          PlatformClues := clues; Error := e; RatelimitInputLimit := limit;
          RatelimitInputRemaining := remaining; RatelimitInputReset := reset |} in
        if BodyReadFails resp then afterHeaders "failed to read response"
        else
          match Unmarshal (BodyBytes resp) with
          | None => afterHeaders "response body not JSON"
          | Some body =>
              let blocks := scanContent body in
              let msgID := asString (field "id" body) in
              let returned := asString (field "model" body) in
              let usage := usageOf body in
              let inUsage {A : Type} (f : list (string * JSON) -> A) (d : A) : A :=
                match usage with Some u => f u | None => d end in
              {| ToolID := bToolID blocks;
                 ToolIDSource := bToolIDSource blocks;
                 MsgID := msgID;
                 MsgIDSource := fst (classifyMsgID msgID);
                 MsgIDFormat := snd (classifyMsgID msgID);
                 Model := returned;
                 ModelRequested := model;
                 ModelSource := classifyModel returned;
                 UsageStyle := inUsage usageStyle "";
                 HasServiceTier := inUsage (fun u => isSome (field "service_tier" u)) false;
                 ServiceTier := inUsage (sprintField "service_tier") "";
                 HasInferenceGeo := inUsage (fun u => isSome (field "inference_geo" u)) false;
                 InferenceGeo := inUsage (sprintField "inference_geo") "";
                 HasCacheCreation := inUsage (fun u => isObject (field "cache_creation" u)) false;
                 HasAWSHeaders := hasAWS;
                 HasAnthropicHdrs := hasAnthropic;
                 ThinkingSigClass := bThinkingSigClass blocks;
                 ThinkingSigLen := bThinkingSigLen blocks;
                 ProbeType := probeType;
                 LatencyMs := latency;
                 StopReason := asString (field "stop_reason" body);
                 ProxyPlatform := platform;
                 PlatformClues := clues;
                 Error := "";
                 RatelimitInputLimit := limit;
                 RatelimitInputRemaining := remaining;
                 RatelimitInputReset := reset |}
          end
  end.

End Probe.

(** ** Package [math] and conversions to [float64] *)

Module GoFloat.

(** [float64(n)] for a Go [int]: the nearest binary64 value. *)
Definition ofInt (z : Z) : float :=
  if z =? GoInt.min_int then (- 0x1p63)%float
  else if z <? 0 then PrimFloat.opp (PrimFloat.of_uint63 (Uint63.of_Z (- z)))
  else PrimFloat.of_uint63 (Uint63.of_Z z).

(** [math.Round] on the sign, mantissa and exponent of a number: the
    nearest integer, halves away from zero.  A finite number with a
    non-negative exponent is an integer already; zeros, infinities and NaN
    are returned unchanged, and a result of magnitude zero keeps the sign
    of the argument. *)
Definition roundSF (x : spec_float) : spec_float :=
  match x with
  | S754_finite s m e =>
      if 0 <=? e then x
      else
        let unit := 2 ^ (- e) in
        let k := Zpos m / unit in
        let k := if unit <=? 2 * (Zpos m mod unit) then k + 1 else k in
        binary_normalize prec emax (if s then - k else k) 0 s
  | _ => x
  end.

(** [math.Round] *)
Definition Round (x : float) : float := SF2Prim (roundSF (Prim2SF x)).

End GoFloat.

(** ** Classifier *)

(** [map[string]int{"anthropic": 0, "bedrock": 0, "antigravity": 0}]: the
    map is created with these three keys and [analyze] only ever reads and
    assigns them, so it is a record with one field per key. *)
Record Scores : Type := {
  anthropic : Z;
  bedrock : Z;
  antigravity : Z
}.

Definition zeroScores : Scores := {| anthropic := 0; bedrock := 0; antigravity := 0 |}.

Inductive Bucket : Type := Anthropic | Bedrock | Antigravity.

(** [scores[k]] *)
Definition score (s : Scores) (k : Bucket) : Z :=
  match k with
  | Anthropic => anthropic s
  | Bedrock => bedrock s
  | Antigravity => antigravity s
  end.

(** [scores[k] = v] *)
Definition setScore (s : Scores) (k : Bucket) (v : Z) : Scores :=
  match k with
  | Anthropic => {| anthropic := v; bedrock := bedrock s; antigravity := antigravity s |}
  | Bedrock => {| anthropic := anthropic s; bedrock := v; antigravity := antigravity s |}
  | Antigravity => {| anthropic := anthropic s; bedrock := bedrock s; antigravity := v |}
  end.

Definition bucketKey (k : Bucket) : string :=
  match k with
  | Anthropic => "anthropic"
  | Bedrock => "bedrock"
  | Antigravity => "antigravity"
  end.

(** The two accumulators of [analyze]: [scores] and [evidence]. *)
Record Tally : Type := {
  scores : Scores;
  evidence : list string
}.

(** [evidence = append(evidence, line)] *)
Definition note (line : string) (t : Tally) : Tally :=
  {| scores := scores t; evidence := evidence t ++ [line] |}.

(** [scores[k] += n] followed by an evidence line *)
Definition credit (k : Bucket) (n : Z) (line : string) (t : Tally) : Tally :=
  {| scores := setScore (scores t) k (GoInt.add (score (scores t) k) n);
     evidence := evidence t ++ [line] |}.

(** [scores[k] -= n] followed by an evidence line *)
Definition debit (k : Bucket) (n : Z) (line : string) (t : Tally) : Tally :=
  {| scores := setScore (scores t) k (GoInt.sub (score (scores t) k) n);
     evidence := evidence t ++ [line] |}.

(** [truncStr] *)
Definition truncStr (s : string) (maxLen : nat) : string :=
  if (String.length s <=? maxLen)%nat then s
  else String.substring 0 maxLen s +:+ "...".

Definition verdictTextMap : gmap string string :=
  <["anthropic" := "Anthropic 官方 API"]>
  (<["bedrock" := "AWS Bedrock (Kiro)"]>
  (<["antigravity" := "Google Vertex AI (Antigravity)"]>
  (<["suspicious" := "疑似伪装 Anthropic"]>
  (<["unknown" := "无法确定"]> ∅)))).

(** [verdictTextMap[v]]: the empty string for a missing key. *)
Definition verdictText (v : string) : string := default "" (verdictTextMap !! v).

(** The samples and the decision of the rate-limit verifier. *)
Record RatelimitSample : Type := {
  Remaining : Z;
  Reset : string
}.

Record RatelimitVerdict : Type := {
  rlVerdict : string;
  rlSamples : list RatelimitSample;
  rlDetail : string
}.

Module DetectResult.
Record t : Type := {
  Verdict : string;
  VerdictText : string;
  Confidence : float;
  Scores : Scores;
  Evidence : list string;
  Fingerprints : list Fingerprint;
  Model : string;
  AvgLatencyMs : Z;
  ProxyPlatform : string;
  PlatformClues : list string;
  RatelimitVerify : option RatelimitVerdict
}.
End DetectResult.

(** The fingerprints without [Error]. *)
Definition validFingerprints (fingerprints : list Fingerprint) : list Fingerprint :=
  List.filter (fun fp => String.eqb (Error fp) "") fingerprints.

(** [totalLatency / int64(len(validFPs))], for a non-empty list *)
Definition avgLatency (validFPs : list Fingerprint) : Z :=
  Z.quot (fold_left (fun acc fp => GoInt.add acc (LatencyMs fp)) validFPs 0)
         (Z.of_nat (length validFPs)).

(** The first fingerprint with a non-empty platform, with its clues. *)
Fixpoint firstPlatform (validFPs : list Fingerprint) : string * list string :=
  match validFPs with
  | [] => ("", [])
  | fp :: rest =>
      if negb (String.eqb (ProxyPlatform fp) "")
      then (ProxyPlatform fp, PlatformClues fp)
      else firstPlatform rest
  end.

(** *** Pass A: additive scoring *)

(** The body of the loop [for i, fp := range validFPs], one definition
    per numbered step; [tag] is ["[R<i+1>]"]. *)

(** 1. tool_use id (weight 5) *)
Definition toolIDSignal (tag : string) (fp : Fingerprint) (t : Tally) : Tally :=
  if String.eqb (ToolIDSource fp) "bedrock" then
    credit Bedrock 5 (tag +:+ " tool_use id: " +:+ truncStr (ToolID fp) 28
                      +:+ " -> tooluse_ (Bedrock/AG)") t
  else if String.eqb (ToolIDSource fp) "anthropic" then
    credit Anthropic 5 (tag +:+ " tool_use id: " +:+ truncStr (ToolID fp) 28
                        +:+ " -> toolu_ (Anthropic)") t
  else if String.eqb (ToolIDSource fp) "vertex" then
    credit Antigravity 5 (tag +:+ " tool_use id: " +:+ truncStr (ToolID fp) 28
                          +:+ " -> tool_N (Vertex AI)") t
  else if String.eqb (ToolIDSource fp) "rewritten" then
    if negb (String.eqb (ToolID fp) "") then
      note (tag +:+ " tool_use id: " +:+ truncStr (ToolID fp) 28 +:+ " -> 被改写") t
    else t
  else t.

(** 2. thinking signature *)
Definition thinkingSignal (tag : string) (fp : Fingerprint) (t : Tally) : Tally :=
  if String.eqb (ThinkingSigClass fp) "short" then
    note (tag +:+ " thinking sig: (len=" +:+ Strconv.Itoa (ThinkingSigLen fp)
          +:+ ") -> 签名截断") t
  else if String.eqb (ThinkingSigClass fp) "vertex" then
    credit Antigravity 5 (tag +:+ " thinking sig: (len=" +:+ Strconv.Itoa (ThinkingSigLen fp)
                          +:+ ") -> claude# 前缀 (Vertex AI)") t
  else if String.eqb (ThinkingSigClass fp) "normal" then
    note (tag +:+ " thinking sig: (len=" +:+ Strconv.Itoa (ThinkingSigLen fp)
          +:+ ") -> 正常签名") t
  else if String.eqb (ThinkingSigClass fp) "none" then
    if String.eqb (ProbeType fp) "thinking" then
      note (tag +:+ " thinking sig: 无签名") t
    else t
  else t.

(** 3. message id *)
Definition msgIDSignal (tag : string) (fp : Fingerprint) (t : Tally) : Tally :=
  if String.eqb (MsgIDSource fp) "anthropic" then
    credit Anthropic 2 (tag +:+ " message id: " +:+ truncStr (MsgID fp) 28
                        +:+ " -> msg_<base62> (Anthropic)") t
  else if String.eqb (MsgIDSource fp) "antigravity" then
    note (tag +:+ " message id: " +:+ truncStr (MsgID fp) 28
          +:+ " -> msg_<UUID> (非原生)") t
  else if String.eqb (MsgIDSource fp) "vertex" then
    credit Antigravity 6 (tag +:+ " message id: " +:+ truncStr (MsgID fp) 28
                          +:+ " -> req_vrtx_ (Vertex AI)") t
  else if String.eqb (MsgIDSource fp) "rewritten" then
    note (tag +:+ " message id: " +:+ truncStr (MsgID fp) 28 +:+ " -> 被改写") t
  else t.

(** 4. model format *)
Definition modelSignal (tag : string) (fp : Fingerprint) (t : Tally) : Tally :=
  if String.eqb (ModelSource fp) "kiro" then
    credit Bedrock 8 (tag +:+ " model: " +:+ Model fp +:+ " -> kiro-* (Kiro 逆向铁证)") t
  else if String.eqb (ModelSource fp) "bedrock" then
    credit Bedrock 3 (tag +:+ " model: " +:+ Model fp +:+ " -> anthropic.* (Bedrock)") t
  else t.

(** 5. service_tier / inference_geo / cache_creation *)
Definition serviceTierSignal (tag : string) (fp : Fingerprint) (t : Tally) : Tally :=
  if HasServiceTier fp then
    credit Anthropic 3 (tag +:+ " service_tier: " +:+ ServiceTier fp +:+ " -> Anthropic 独有") t
  else t.

Definition inferenceGeoSignal (tag : string) (fp : Fingerprint) (t : Tally) : Tally :=
  if HasInferenceGeo fp then
    credit Anthropic 2 (tag +:+ " inference_geo: " +:+ InferenceGeo fp +:+ " -> Anthropic 独有") t
  else t.

Definition cacheCreationSignal (tag : string) (fp : Fingerprint) (t : Tally) : Tally :=
  if HasCacheCreation fp then
    credit Anthropic 1 (tag +:+ " cache_creation: 嵌套对象 -> Anthropic 新格式") t
  else t.

(** 6. usage style *)
Definition usageSignal (tag : string) (fp : Fingerprint) (t : Tally) : Tally :=
  if String.eqb (UsageStyle fp) "camelCase" then
    credit Bedrock 2 (tag +:+ " usage: camelCase (Bedrock)") t
  else t.

(** 7. AWS headers *)
Definition awsHeaderSignal (tag : string) (fp : Fingerprint) (t : Tally) : Tally :=
  if HasAWSHeaders fp then credit Bedrock 3 (tag +:+ " AWS headers detected") t
  else t.

(** 8. Anthropic rate-limit headers *)
Definition anthropicHeaderSignal (tag : string) (fp : Fingerprint) (t : Tally) : Tally :=
  if HasAnthropicHdrs fp then
    credit Anthropic 2 (tag +:+ " Anthropic rate-limit headers detected") t
  else t.

Definition scoreFingerprint (i : nat) (fp : Fingerprint) (t : Tally) : Tally :=
  let tag := "[R" +:+ Strconv.Itoa (Z.of_nat i + 1) +:+ "]" in
  anthropicHeaderSignal tag fp
    (awsHeaderSignal tag fp
      (usageSignal tag fp
        (cacheCreationSignal tag fp
          (inferenceGeoSignal tag fp
            (serviceTierSignal tag fp
              (modelSignal tag fp
                (msgIDSignal tag fp
                  (thinkingSignal tag fp
                    (toolIDSignal tag fp t))))))))).

(** The whole loop, [i] being the index of the head of [validFPs]. *)
Fixpoint scoreAll (i : nat) (validFPs : list Fingerprint) (t : Tally) : Tally :=
  match validFPs with
  | [] => t
  | fp :: rest => scoreAll (S i) rest (scoreFingerprint i fp t)
  end.

(** *** Pass B: attribution of [tooluse_] ids *)

Definition hasKiroModel (validFPs : list Fingerprint) : bool :=
  existsb (fun fp => String.eqb (ModelSource fp) "kiro") validFPs.

(** [toolusePoints]: 5 for every fingerprint whose tool id is tagged
    [bedrock]. *)
Definition toolusePoints (validFPs : list Fingerprint) : Z :=
  fold_left (fun acc fp =>
    if String.eqb (ToolIDSource fp) "bedrock" then GoInt.add acc 5 else acc)
    validFPs 0.

Definition correctionLine (points : Z) : string :=
  "[修正] tooluse_ 分数 " +:+ Strconv.Itoa points +:+ " 从 Bedrock 转移到 Antigravity".

(** The block [if !hasKiroModel && scores["antigravity"] > 0 &&
    scores["bedrock"] > 0 { ... }]. *)
Definition attributionCorrection (validFPs : list Fingerprint) (t : Tally) : Tally :=
  if negb (hasKiroModel validFPs) && (0 <? antigravity (scores t))
     && (0 <? bedrock (scores t)) then
    let points := toolusePoints validFPs in
    if 4 <=? antigravity (scores t) then
      {| scores :=
           {| anthropic := anthropic (scores t);
              bedrock := GoInt.sub (bedrock (scores t)) points;
              antigravity := GoInt.add (antigravity (scores t)) points |};
         evidence := evidence t ++ [correctionLine points] |}
    else t
  else t.

Definition msgUUIDCount (validFPs : list Fingerprint) : Z :=
  fold_left (fun acc fp =>
    if String.eqb (MsgIDSource fp) "antigravity" then GoInt.add acc 1 else acc)
    validFPs 0.

(** The block [if hasKiroModel { ... }]: evidence only. *)
Definition kiroRewriteNote (validFPs : list Fingerprint) (t : Tally) : Tally :=
  if hasKiroModel validFPs then
    let n := msgUUIDCount validFPs in
    if 0 <? n then
      note ("[修正] msg_<UUID> x" +:+ Strconv.Itoa n
            +:+ " 归属 Kiro 中转改写 (非 Antigravity)") t
    else t
  else t.

(** *** Pass C: negative evidence *)

Definition hasThinkingProbe (validFPs : list Fingerprint) : bool :=
  existsb (fun fp => String.eqb (ProbeType fp) "thinking") validFPs.

Definition anyInferenceGeo (validFPs : list Fingerprint) : bool :=
  existsb HasInferenceGeo validFPs.

Definition anyCacheObj (validFPs : list Fingerprint) : bool :=
  existsb HasCacheCreation validFPs.

Definition anyThinkingSig (validFPs : list Fingerprint) : bool :=
  existsb (fun fp => String.eqb (ProbeType fp) "thinking" && (0 <? ThinkingSigLen fp))
          validFPs.

(** [analyze] between Pass C and the verdict: the tally and
    [missingFlags]. *)
Record Findings : Type := {
  tally : Tally;
  missingFlags : list string
}.

(** [missingFlags = append(missingFlags, flag); scores["anthropic"] -= n]
    and the evidence line. *)
Definition raise (flag : string) (n : Z) (line : string) (f : Findings) : Findings :=
  {| tally := debit Anthropic n line (tally f);
     missingFlags := missingFlags f ++ [flag] |}.

Definition negativeEvidence (validFPs : list Fingerprint) (t : Tally) : Findings :=
  let f := {| tally := t; missingFlags := [] |} in
  if (0 <? anthropic (scores t)) && (bedrock (scores t) =? 0)
     && (antigravity (scores t) =? 0) then
    let f :=
      if negb (anyInferenceGeo validFPs) then
        raise "inference_geo" 3 "[缺失] inference_geo 未出现 (Anthropic 官方必有字段)" f
      else f in
    let f :=
      if negb (anyCacheObj validFPs) then
        raise "cache_creation_obj" 2 "[缺失] cache_creation 嵌套对象未出现" f
      else f in
    if hasThinkingProbe validFPs then
      if negb (anyThinkingSig validFPs) then
        raise "thinking_signature" 3
              "[缺失] thinking signature 为空 (真 Anthropic thinking 轮应有 len 200+ 签名)" f
      else f
    else f
  else f.

(** [for k := range scores { if scores[k] < 0 { scores[k] = 0 } }] *)
Definition clamp (s : Scores) : Scores :=
  {| anthropic := if anthropic s <? 0 then 0 else anthropic s;
     bedrock := if bedrock s <? 0 then 0 else bedrock s;
     antigravity := if antigravity s <? 0 then 0 else antigravity s |}.

(** *** Pass D: verdict *)

(** [total := scores["anthropic"] + scores["bedrock"] + scores["antigravity"]] *)
Definition totalScore (s : Scores) : Z :=
  GoInt.add (GoInt.add (anthropic s) (bedrock s)) (antigravity s).

(** The loop over [{"bedrock", "antigravity"}] started from the anthropic
    entry: the winner and its score. *)
Definition pickWinner (s : Scores) : Bucket * Z :=
  fold_left (fun (acc : Bucket * Z) (k : Bucket) =>
    if snd acc <? score s k then (k, score s k) else acc)
    [Bedrock; Antigravity] (Anthropic, anthropic s).

(** [math.Round(float64(maxScore)/float64(total)*100) / 100] *)
Definition confidenceOf (maxScore total : Z) : float :=
  (GoFloat.Round (GoFloat.ofInt maxScore / GoFloat.ofInt total * 100) / 100)%float.

(** What the verdict block decides. *)
Record Decision : Type := {
  dVerdict : string;
  dConfidence : float;
  dSuspicious : bool;
  dEvidence : list string
}.

Definition decide_verdict (s : Scores) (missing evidence : list string) : Decision :=
  let total := totalScore s in
  if total =? 0 then
    if (0 <? length missing)%nat then
      {| dVerdict := "anthropic"; dConfidence := 0%float; dSuspicious := true;
         dEvidence := evidence ++ ["[!] 正面分数被缺失扣分抵消，高度可疑伪装 Anthropic"] |}
    else
      {| dVerdict := "unknown"; dConfidence := 0%float; dSuspicious := false;
         dEvidence := evidence ++ ["未获取到有效指纹信号"] |}
  else
    let '(winner, maxScore) := pickWinner s in
    {| dVerdict := bucketKey winner;
       dConfidence := confidenceOf maxScore total;
       dSuspicious :=
         match winner with
         | Anthropic => (2 <=? length missing)%nat
         | _ => false
         end;
       dEvidence := evidence |}.

(** The [if suspicious { ... }] block. *)
Definition markSuspicious (missing : list string) (d : Decision) : Decision :=
  if dSuspicious d then
    {| dVerdict := "suspicious";
       dConfidence := dConfidence d;
       dSuspicious := true;
       dEvidence := dEvidence d ++
         ["[!!] 疑似伪装 Anthropic: " +:+ Strconv.Itoa (Z.of_nat (length missing))
          +:+ " 个必有字段缺失 (" +:+ Strings.Join missing ", " +:+ ")";
          "[!!] 中转站可能重写了 tool_id 前缀并注入 service_tier，但无法伪造 inference_geo 和 cache_creation 嵌套对象"] |}
  else d.

(** *** [analyze] *)

(** The accumulators when the scoring loop ends. *)
Definition afterScoring (validFPs : list Fingerprint) : Tally :=
  let platform := fst (firstPlatform validFPs) in
  scoreAll 0 validFPs
    {| scores := zeroScores;
       evidence := if negb (String.eqb platform "") then ["中转平台: " +:+ platform] else [] |}.

(** ... when the second pass ends. *)
Definition afterCorrection (validFPs : list Fingerprint) : Tally :=
  kiroRewriteNote validFPs (attributionCorrection validFPs (afterScoring validFPs)).

(** ... when the third pass ends, before the clamp. *)
Definition beforeClamp (validFPs : list Fingerprint) : Findings :=
  negativeEvidence validFPs (afterCorrection validFPs).

(** The scores and missing flags [analyze] holds after the clamp, for a
    non-empty [validFPs]. *)
Definition findings (validFPs : list Fingerprint) : Findings :=
  let f := beforeClamp validFPs in
  {| tally := {| scores := clamp (scores (tally f)); evidence := evidence (tally f) |};
     missingFlags := missingFlags f |}.

Definition analyze (fingerprints : list Fingerprint) (model : string) : DetectResult.t :=
  let validFPs := validFingerprints fingerprints in
  match validFPs with
  | [] =>
      {| DetectResult.Verdict := "unknown";
         DetectResult.VerdictText := verdictText "unknown";
         DetectResult.Confidence := 0%float;
         DetectResult.Scores := zeroScores;
         DetectResult.Evidence := ["所有探测均失败"];
         DetectResult.Fingerprints := fingerprints;
         DetectResult.Model := model;
         DetectResult.AvgLatencyMs := 0;
         DetectResult.ProxyPlatform := "";
         DetectResult.PlatformClues := [];
         DetectResult.RatelimitVerify := None |}
  | _ :: _ =>
      let f := findings validFPs in
      let d := markSuspicious (missingFlags f)
                 (decide_verdict (scores (tally f)) (missingFlags f) (evidence (tally f))) in
      {| DetectResult.Verdict := dVerdict d;
         DetectResult.VerdictText :=
           if String.eqb (verdictText (dVerdict d)) "" then dVerdict d
           else verdictText (dVerdict d);
         DetectResult.Confidence := dConfidence d;
         DetectResult.Scores := scores (tally f);
         DetectResult.Evidence := dEvidence d;
         DetectResult.Fingerprints := fingerprints;
         DetectResult.Model := model;
         DetectResult.AvgLatencyMs := avgLatency validFPs;
         DetectResult.ProxyPlatform := fst (firstPlatform validFPs);
         DetectResult.PlatformClues := snd (firstPlatform validFPs);
         DetectResult.RatelimitVerify := None |}
  end.

(** ** RatelimitVerifier: the decision *)

(** [samples[0]] and [samples[len(samples)-1]] of a non-empty slice *)
Definition firstRemaining (samples : list RatelimitSample) : Z :=
  match samples with
  | s :: _ => Remaining s
  | [] => 0
  end.

Definition lastRemaining (samples : list RatelimitSample) : Z :=
  match last samples with
  | Some s => Remaining s
  | None => 0
  end.

(** The [allSame] loop: every later sample equals the first. *)
Definition allSame (samples : list RatelimitSample) : bool :=
  forallb (fun s => Remaining s =? firstRemaining samples) (tail samples).

(** The [monotoneDec] loop: no sample is smaller than its successor. *)
Fixpoint monotoneDec (samples : list RatelimitSample) : bool :=
  match samples with
  | a :: ((b :: _) as rest) =>
      if Remaining a <? Remaining b then false else monotoneDec rest
  | _ => true
  end.

(** The part of [verifyRatelimitDynamic] after the probes. *)
Definition ratelimitDecision (samples : list RatelimitSample) : RatelimitVerdict :=
  if (length samples <? 2)%nat then
    {| rlVerdict := "unavailable"; rlSamples := samples;
       rlDetail := "ratelimit header 不可用（样本不足）" |}
  else
    let first := firstRemaining samples in
    let final := lastRemaining samples in
    let totalDrop := GoInt.sub first final in
    if allSame samples then
      {| rlVerdict := "static"; rlSamples := samples;
         rlDetail := "remaining 固定为 " +:+ Strconv.Itoa first +:+ "，疑似伪造" |}
    else if monotoneDec samples && (0 <? totalDrop) then
      {| rlVerdict := "dynamic"; rlSamples := samples;
         rlDetail := "remaining 单调递减 " +:+ Strconv.Itoa first +:+ " → "
                     +:+ Strconv.Itoa final +:+ " (drop=" +:+ Strconv.Itoa totalDrop
                     +:+ ")，真实 ratelimit" |}
    else
      {| rlVerdict := "dynamic"; rlSamples := samples;
         rlDetail := "remaining 有变化但非单调 (" +:+ Strconv.Itoa first +:+ " → "
                     +:+ Strconv.Itoa final +:+ ")，可能真实" |}.

(** ** DetectionCoordinator *)

Definition DefaultScanModels : list string :=
  ["claude-opus-4-6-thinking"; "claude-opus-4-6-20250918";
   "claude-sonnet-4-5-20250929"; "claude-haiku-4-5-20251001";
   "claude-3-5-sonnet-20241022"; "claude-3-haiku-20240307"].

Module ScanResult.
Record t : Type := {
  BaseURL : string;
  ProxyPlatform : string;
  ModelResults : list DetectResult.t;
  Summary : gmap string string;
  IsMixed : bool
}.
End ScanResult.

(** How far a run has got: the number of HTTP requests issued and the
    number of times a context was asked for its error. *)
Record Progress : Type := {
  issued : nat;
  polled : nat
}.

Definition start : Progress := {| issued := 0; polled := 0 |}.

(** [verdictSet] of [ScanMultipleModels], built by ranging over the
    summary. *)
Definition verdictSet (summary : gmap string string) : gset string :=
  foldr (fun (kv : string * string) (acc : gset string) =>
           if String.eqb (snd kv) "unavailable" then acc else {[ snd kv ]} ∪ acc)
        ∅ (map_to_list summary).

(** The result appended for a model whose availability check fails. *)
Definition unavailableResult (model : string) : DetectResult.t :=
  {| DetectResult.Verdict := "unavailable";
     DetectResult.VerdictText := "不可用";
     DetectResult.Confidence := 0%float;
     DetectResult.Scores := zeroScores;
     DetectResult.Evidence := [];
     DetectResult.Fingerprints := [];
     DetectResult.Model := model;
     DetectResult.AvgLatencyMs := 0;
     DetectResult.ProxyPlatform := "";
     DetectResult.PlatformClues := [];
     DetectResult.RatelimitVerify := None |}.

(** Evidence appended to a result by the outcome of the verification. *)
Definition withRatelimit (r : DetectResult.t) (v : RatelimitVerdict) : DetectResult.t :=
  let line :=
    if String.eqb (rlVerdict v) "static" then
      ["[!!] ratelimit remaining 值固定不变，疑似伪造的 ratelimit header"]
    else if String.eqb (rlVerdict v) "dynamic" then
      ["[✓] ratelimit remaining 正常递减，真实 Anthropic ratelimit header"]
    else if String.eqb (rlVerdict v) "unavailable" then
      ["[i] ratelimit header 不可用，无法进行动态验证"]
    else [] in
  {| DetectResult.Verdict := DetectResult.Verdict r;
     DetectResult.VerdictText := DetectResult.VerdictText r;
     DetectResult.Confidence := DetectResult.Confidence r;
     DetectResult.Scores := DetectResult.Scores r;
     DetectResult.Evidence := DetectResult.Evidence r ++ line;
     DetectResult.Fingerprints := DetectResult.Fingerprints r;
     DetectResult.Model := DetectResult.Model r;
     DetectResult.AvgLatencyMs := DetectResult.AvgLatencyMs r;
     DetectResult.ProxyPlatform := DetectResult.ProxyPlatform r;
     DetectResult.PlatformClues := DetectResult.PlatformClues r;
     DetectResult.RatelimitVerify := Some v |}.

Section Coordinator.

Variable Unmarshal : string -> option (list (string * JSON)).
Variable SprintV : JSON -> string.
(** What happens to the [n]-th HTTP request of the run. *)
Variable respond : nat -> Exchange.
(** Whether the [n]-th look at a context finds it cancelled or past its
    deadline ([ctx.Err() != nil]). *)
Variable deadlinePassed : nat -> bool.

(** [ctx.Err() != nil] *)
Definition ctxErr (p : Progress) : bool * Progress :=
  (deadlinePassed (polled p), {| issued := issued p; polled := S (polled p) |}).

(** One call of [probeOnce]. *)
Definition probe (model probeType : string) (p : Progress) : Fingerprint * Progress :=
  (probeOnce Unmarshal SprintV (respond (issued p)) model probeType,
   {| issued := S (issued p); polled := polled p |}).

(** The sample loop of [verifyRatelimitDynamic], [n] iterations left. *)
Fixpoint collectSamples (n : nat) (model : string) (samples : list RatelimitSample)
    (p : Progress) : list RatelimitSample * Progress :=
  match n with
  | O => (samples, p)
  | S n' =>
      let '(expired, p) := ctxErr p in
      if expired then (samples, p)
      else
        let '(fp, p) := probe model "simple" p in
        let samples :=
          if String.eqb (Error fp) "" && (0 <? RatelimitInputRemaining fp) then
            samples ++ [{| Remaining := RatelimitInputRemaining fp;
                           Reset := RatelimitInputReset fp |}]
          else samples in
        collectSamples n' model samples p
  end.

Definition verifyRatelimitDynamic (model : string) (shots : Z) (p : Progress)
    : RatelimitVerdict * Progress :=
  let shots := if shots <=? 0 then 4 else shots in
  let '(samples, p) := collectSamples (Z.to_nat shots) model [] p in
  (ratelimitDecision samples, p).

(** The tool-probe loop of [DetectSingleModel], [n] rounds left. *)
Fixpoint toolProbes (n : nat) (model : string) (fingerprints : list Fingerprint)
    (p : Progress) : list Fingerprint * Progress :=
  match n with
  | O => (fingerprints, p)
  | S n' =>
      let '(expired, p) := ctxErr p in
      if expired then (fingerprints, p)
      else
        let '(fp, p) := probe model "tool" p in
        toolProbes n' model (fingerprints ++ [fp]) p
  end.

Definition DetectSingleModel (model : string) (rounds : Z) (verifyRatelimit : bool)
    (p : Progress) : DetectResult.t * Progress :=
  let '(fingerprints, p) := toolProbes (Z.to_nat rounds) model [] p in
  let '(expired, p) := ctxErr p in
  let '(fingerprints, p) :=
    if expired then (fingerprints, p)
    else let '(fp, p) := probe model "thinking" p in (fingerprints ++ [fp], p) in
  let result := analyze fingerprints model in
  if verifyRatelimit then
    let '(expired, p) := ctxErr p in
    if expired then (result, p)
    else
      let '(v, p) := verifyRatelimitDynamic model 4 p in
      (withRatelimit result v, p)
  else (result, p).

(** [CheckModelAvailable] *)
Definition CheckModelAvailable (p : Progress) : bool * Progress :=
  (match respond (issued p) with
   | Responded _ resp => StatusCode resp =? 200
   | _ => false
   end,
   {| issued := S (issued p); polled := polled p |}).

(** The loop [for _, model := range models] of [ScanMultipleModels]. *)
Fixpoint scanModels (models : list string) (rounds : Z) (scan : ScanResult.t)
    (p : Progress) : ScanResult.t * Progress :=
  match models with
  | [] => (scan, p)
  | model :: rest =>
      let '(expired, p) := ctxErr p in
      if expired then (scan, p)
      else
        let '(available, p) := CheckModelAvailable p in
        if negb available then
          scanModels rest rounds
            {| ScanResult.BaseURL := ScanResult.BaseURL scan;
               ScanResult.ProxyPlatform := ScanResult.ProxyPlatform scan;
               ScanResult.ModelResults :=
                 ScanResult.ModelResults scan ++ [unavailableResult model];
               ScanResult.Summary := <[model := "unavailable"]> (ScanResult.Summary scan);
               ScanResult.IsMixed := ScanResult.IsMixed scan |} p
        else
          let '(result, p) := DetectSingleModel model rounds false p in
          scanModels rest rounds
            {| ScanResult.BaseURL := ScanResult.BaseURL scan;
               ScanResult.ProxyPlatform :=
                 if negb (String.eqb (DetectResult.ProxyPlatform result) "")
                    && String.eqb (ScanResult.ProxyPlatform scan) ""
                 then DetectResult.ProxyPlatform result
                 else ScanResult.ProxyPlatform scan;
               ScanResult.ModelResults := ScanResult.ModelResults scan ++ [result];
               ScanResult.Summary :=
                 <[model := DetectResult.Verdict result]> (ScanResult.Summary scan);
               ScanResult.IsMixed := ScanResult.IsMixed scan |} p
  end.

Definition ScanMultipleModels (baseURL : string) (models : list string) (rounds : Z)
    (p : Progress) : ScanResult.t * Progress :=
  let models := match models with [] => DefaultScanModels | _ => models end in
  let '(scan, p) :=
    scanModels models rounds
      {| ScanResult.BaseURL := baseURL; ScanResult.ProxyPlatform := "";
         ScanResult.ModelResults := []; ScanResult.Summary := ∅;
         ScanResult.IsMixed := false |} p in
  ({| ScanResult.BaseURL := ScanResult.BaseURL scan;
      ScanResult.ProxyPlatform := ScanResult.ProxyPlatform scan;
      ScanResult.ModelResults := ScanResult.ModelResults scan;
      ScanResult.Summary := ScanResult.Summary scan;
      ScanResult.IsMixed := (1 <? size (verdictSet (ScanResult.Summary scan)))%nat |}, p).

(** *** The controller's detect operation *)

Record ProxyDetectRequest : Type := {
  ReqBaseURL : string;
  APIKey : string;
  Models : list string;
  Rounds : Z;
  VerifyRatelimit : bool
}.

(** What the handler sends back: a failure message or the scan. *)
Inductive Reply : Type :=
| Failure (message : string)
| Success (scan : ScanResult.t).

(** [ProxyDetect], for a request that bound; [resolved] is what
    [resolveProxyDetectBaseURL] returns for it: the base URL, the admin
    flag and an error message. *)
Definition ProxyDetect (req : ProxyDetectRequest) (resolved : string * bool * string)
    (p : Progress) : Reply * Progress :=
  if String.eqb (APIKey req) "" then (Failure "API Key 不能为空", p)
  else if (length (Models req) =? 0)%nat then (Failure "请选择要检测的模型", p)
  else
    let models := if (6 <? length (Models req))%nat then take 6 (Models req) else Models req in
    let rounds := if Rounds req <=? 0 then 2 else Rounds req in
    let rounds := if 3 <? rounds then 3 else rounds in
    let '(baseURL, isAdmin, errMsg) := resolved in
    if negb (String.eqb errMsg "") then (Failure errMsg, p)
    else
      match models with
      | [model] =>
          let '(detectResult, p) :=
            DetectSingleModel model rounds (VerifyRatelimit req) p in
          (Success {| ScanResult.BaseURL := baseURL;
                      ScanResult.ProxyPlatform := DetectResult.ProxyPlatform detectResult;
                      ScanResult.ModelResults := [detectResult];
                      ScanResult.Summary :=
                        {[ DetectResult.Model detectResult := DetectResult.Verdict detectResult ]};
                      ScanResult.IsMixed := false |}, p)
      | _ =>
          let '(result, p) := ScanMultipleModels baseURL models rounds p in
          (Success result, p)
      end.

End Coordinator.

(** * Vocabulary of the statements *)

(** More fingerprints than this do not fit in the address space of the
    process; below it no score of [analyze] leaves the range of [int], and
    every score and total converts to [float64] exactly. *)
Definition fingerprintLimit : Z := 2 ^ 46.

(** Every entry of the scores map lies between [lo] and [hi]. *)
Definition ranged (lo hi : Z) (s : Scores) : Prop :=
  lo <= anthropic s <= hi /\ lo <= bedrock s <= hi /\ lo <= antigravity s <= hi.

(** The number of fingerprints whose tool id is tagged [bedrock]. *)
Definition tooluseCount (validFPs : list Fingerprint) : Z :=
  Z.of_nat (length (List.filter (fun fp => String.eqb (ToolIDSource fp) "bedrock") validFPs)).

(** The signature of a content block of type [thinking] (empty when the
    block has none or it is not a string); [None] for any other block. *)
Definition thinkingSignature (block : JSON) : option string :=
  match block with
  | JObject bm =>
      if isString (field "type" bm) "thinking"
      then Some (asString (field "signature" bm)) else None
  | _ => None
  end.

(** The signatures of the thinking blocks of a decoded body, in order. *)
Definition thinkingSignatures (body : list (string * JSON)) : list string :=
  match field "content" body with
  | Some (JArray content) => omap thinkingSignature content
  | _ => []
  end.

(** Whether the response to a request carries the header
    [anthropic-ratelimit-input-tokens-remaining]. *)
Definition carriesRemaining (x : Exchange) : bool :=
  match x with
  | Responded _ resp =>
      existsb (fun kv : string * list string =>
                 String.eqb (Strings.ToLower (fst kv))
                            "anthropic-ratelimit-input-tokens-remaining"
                 && negb (length (snd kv) =? 0)%nat)
              (RespHeader resp)
  | _ => false
  end.

(** The sample the verifier takes from a fingerprint: one only for a
    probe without error whose remaining count is positive. *)
Definition sampleOf (fp : Fingerprint) : option RatelimitSample :=
  if String.eqb (Error fp) "" && (0 <? RatelimitInputRemaining fp)
  then Some {| Remaining := RatelimitInputRemaining fp; Reset := RatelimitInputReset fp |}
  else None.

(** How many of the next [n] looks at the context, starting with look
    number [from], come before the first that finds it done. *)
Fixpoint looksBeforeExpiry (deadlinePassed : nat -> bool) (from n : nat) : nat :=
  match n with
  | O => O
  | S n' =>
      if deadlinePassed from then O
      else S (looksBeforeExpiry deadlinePassed (S from) n')
  end.

(** All values of a sequence are equal. *)
Definition allEqual (rs : list Z) : Prop :=
  forall a b, In a rs -> In b rs -> a = b.

(** No value of a sequence is smaller than its successor. *)
Definition nonIncreasing (rs : list Z) : Prop :=
  forall (i : nat) (a b : Z), rs !! i = Some a -> rs !! S i = Some b -> b <= a.

(** First value minus last value. *)
Definition totalDrop (rs : list Z) : Z := default 0 (head rs) - default 0 (last rs).

(** The distinct verdicts over a list of results, [unavailable] left
    out. *)
Definition distinctVerdicts (results : list DetectResult.t) : gset string :=
  list_to_set
    (List.filter (fun v => negb (String.eqb v "unavailable"))
                 (map DetectResult.Verdict results)).

(** The verdict of the last result for model [m], if there is one. *)
Definition lastVerdictOf (results : list DetectResult.t) (m : string) : option string :=
  DetectResult.Verdict
    <$> last (List.filter (fun r => String.eqb (DetectResult.Model r) m) results).

(** The distinct verdicts when each model name counts once, with the
    verdict of its last result; [unavailable] left out. *)
Definition finalVerdicts (results : list DetectResult.t) : gset string :=
  list_to_set
    (List.filter (fun v => negb (String.eqb v "unavailable"))
                 (omap (fun r => lastVerdictOf results (DetectResult.Model r)) results)).

(** *** Binary64 *)

(** [r1] is [r0] shifted right by [n] bits: the mantissa is divided by
    [2 ^ n], and the location is exact exactly when it was and no bit set
    was shifted out. *)
Definition shifted (n : Z) (r0 r1 : shr_record) : Prop :=
  shr_m r1 = shr_m r0 / 2 ^ n
  /\ (loc_of_shr_record r1 = loc_Exact <->
      loc_of_shr_record r0 = loc_Exact /\ shr_m r0 mod 2 ^ n = 0).

(** [x] is a non-negative finite number of value at most [K * 2 ^ E],
    written with an exponent of [E] or more. *)
Definition atMost (x : spec_float) (K E : Z) : Prop :=
  x = S754_zero false
  \/ exists m e, x = S754_finite false m e /\ E <= e /\ Zpos m * 2 ^ (e - E) <= K.

(** [x] is a non-negative finite number of value at most the integer
    [c], written with a negative exponent. *)
Definition atMostInt (x : spec_float) (c : Z) : Prop :=
  x = S754_zero false
  \/ exists m e, x = S754_finite false m e /\ e <= 0 /\ Zpos m <= c * 2 ^ (- e).

(** [x] is the integer [a], written with a mantissa of 53 bits. *)
Definition isInt (x : spec_float) (a : Z) : Prop :=
  exists m e, x = S754_finite false m e /\ e <= 0 /\ Zpos m = a * 2 ^ (- e).

(** * Sample inputs *)

(** A disguised relay seen by one probe: only the message id looks like
    Anthropic's, and neither [inference_geo] nor a nested
    [cache_creation] is present. *)
Definition bareMessageID : Fingerprint := {|
  ToolID := ""; ToolIDSource := ""; MsgID := "msg_01AbCdEf"; MsgIDSource := "anthropic";
  MsgIDFormat := "base62"; Model := ""; ModelRequested := "claude-3-haiku-20240307";
  ModelSource := ""; UsageStyle := ""; HasServiceTier := false; ServiceTier := "";
  HasInferenceGeo := false; InferenceGeo := ""; HasCacheCreation := false;
  HasAWSHeaders := false; HasAnthropicHdrs := false; ThinkingSigClass := "";
  ThinkingSigLen := 0; ProbeType := "tool"; LatencyMs := 120; StopReason := "end_turn";
  ProxyPlatform := ""; PlatformClues := []; Error := "";
  RatelimitInputLimit := 0; RatelimitInputRemaining := 0; RatelimitInputReset := ""
|}.


(** A relay that rewrites tool and message ids to Anthropic's shapes and
    injects [service_tier], seen by one tool probe and one thinking probe:
    no [inference_geo], no nested [cache_creation], empty signature. *)
Definition disguisedAnthropic : list Fingerprint := [
  {| ToolID := "toolu_01XyZ"; ToolIDSource := "anthropic"; MsgID := "msg_01AbCdEf";
     MsgIDSource := "anthropic"; MsgIDFormat := "base62";
     Model := "claude-sonnet-4-5-20250929"; ModelRequested := "claude-sonnet-4-5-20250929";
     ModelSource := "anthropic"; UsageStyle := "snake_case"; HasServiceTier := true;
     ServiceTier := "standard"; HasInferenceGeo := false; InferenceGeo := "";
     HasCacheCreation := false; HasAWSHeaders := false; HasAnthropicHdrs := false;
     ThinkingSigClass := ""; ThinkingSigLen := 0; ProbeType := "tool"; LatencyMs := 840;
     StopReason := "tool_use"; ProxyPlatform := ""; PlatformClues := []; Error := "";
     RatelimitInputLimit := 0; RatelimitInputRemaining := 0; RatelimitInputReset := "" |};
  {| ToolID := ""; ToolIDSource := ""; MsgID := "msg_01GhIjKl";
     MsgIDSource := "anthropic"; MsgIDFormat := "base62";
     Model := "claude-sonnet-4-5-20250929"; ModelRequested := "claude-sonnet-4-5-20250929";
     ModelSource := "anthropic"; UsageStyle := "snake_case"; HasServiceTier := true;
     ServiceTier := "standard"; HasInferenceGeo := false; InferenceGeo := "";
     HasCacheCreation := false; HasAWSHeaders := false; HasAnthropicHdrs := false;
     ThinkingSigClass := "none"; ThinkingSigLen := 0; ProbeType := "thinking";
     LatencyMs := 1310; StopReason := "end_turn"; ProxyPlatform := ""; PlatformClues := [];
     Error := ""; RatelimitInputLimit := 0; RatelimitInputRemaining := 0;
     RatelimitInputReset := "" |} ].

(** A Vertex backend behind a relay that emits [tooluse_] ids: two tool
    probes, the second with a [req_vrtx_] message id, then a probe that
    failed. *)
Definition vertexBehindTooluse : list Fingerprint := [
  {| ToolID := "tooluse_Kq3"; ToolIDSource := "bedrock"; MsgID := "a1b2c3";
     MsgIDSource := "rewritten"; MsgIDFormat := "other";
     Model := "claude-sonnet-4-5-20250929"; ModelRequested := "claude-sonnet-4-5-20250929";
     ModelSource := "anthropic"; UsageStyle := "snake_case"; HasServiceTier := false;
     ServiceTier := ""; HasInferenceGeo := false; InferenceGeo := "";
     HasCacheCreation := false; HasAWSHeaders := false; HasAnthropicHdrs := false;
     ThinkingSigClass := ""; ThinkingSigLen := 0; ProbeType := "tool"; LatencyMs := 900;
     StopReason := "tool_use"; ProxyPlatform := ""; PlatformClues := []; Error := "";
     RatelimitInputLimit := 0; RatelimitInputRemaining := 0; RatelimitInputReset := "" |};
  {| ToolID := "tooluse_Zp9"; ToolIDSource := "bedrock"; MsgID := "req_vrtx_011CUa";
     MsgIDSource := "vertex"; MsgIDFormat := "req_vrtx";
     Model := "claude-sonnet-4-5-20250929"; ModelRequested := "claude-sonnet-4-5-20250929";
     ModelSource := "anthropic"; UsageStyle := "snake_case"; HasServiceTier := false;
     ServiceTier := ""; HasInferenceGeo := false; InferenceGeo := "";
     HasCacheCreation := false; HasAWSHeaders := false; HasAnthropicHdrs := false;
     ThinkingSigClass := ""; ThinkingSigLen := 0; ProbeType := "tool"; LatencyMs := 700;
     StopReason := "tool_use"; ProxyPlatform := ""; PlatformClues := []; Error := "";
     RatelimitInputLimit := 0; RatelimitInputRemaining := 0; RatelimitInputReset := "" |};
  {| ToolID := ""; ToolIDSource := ""; MsgID := ""; MsgIDSource := ""; MsgIDFormat := "";
     Model := ""; ModelRequested := "claude-sonnet-4-5-20250929"; ModelSource := "";
     UsageStyle := ""; HasServiceTier := false; ServiceTier := "";
     HasInferenceGeo := false; InferenceGeo := ""; HasCacheCreation := false;
     HasAWSHeaders := false; HasAnthropicHdrs := false; ThinkingSigClass := "";
     ThinkingSigLen := 0; ProbeType := "thinking"; LatencyMs := 0; StopReason := "";
     ProxyPlatform := ""; PlatformClues := []; Error := "request failed";
     RatelimitInputLimit := 0; RatelimitInputRemaining := 0; RatelimitInputReset := "" |} ].

(** One probe whose evidence is split evenly: a [kiro-] model behind AWS
    headers (8 + 3 for bedrock) with a [tool_N] id and a [req_vrtx_]
    message id (5 + 6 for antigravity). *)
Definition tiedRelay : list Fingerprint := [
  {| ToolID := "tool_0"; ToolIDSource := "vertex"; MsgID := "req_vrtx_011CUb";
     MsgIDSource := "vertex"; MsgIDFormat := "req_vrtx";
     Model := "kiro-sonnet-4"; ModelRequested := "claude-sonnet-4-5-20250929";
     ModelSource := "kiro"; UsageStyle := "snake_case"; HasServiceTier := false;
     ServiceTier := ""; HasInferenceGeo := false; InferenceGeo := "";
     HasCacheCreation := false; HasAWSHeaders := true; HasAnthropicHdrs := false;
     ThinkingSigClass := ""; ThinkingSigLen := 0; ProbeType := "tool"; LatencyMs := 650;
     StopReason := "tool_use"; ProxyPlatform := ""; PlatformClues := []; Error := "";
     RatelimitInputLimit := 0; RatelimitInputRemaining := 0; RatelimitInputReset := "" |} ].

(** A 200 response with no header of interest; the decoded body is given
    separately. *)
Definition plainResponse : Response :=
  {| StatusCode := 200;
     RespHeader := [("Content-Type", ["application/json"])];
     BodyBytes := "{...}";
     BodyReadFails := false |}.

(** A thinking-probe body whose signature carries the Vertex prefix but
    is shorter than the threshold. *)
Definition shortVertexBody : list (string * JSON) :=
  [("id", JString "req_vrtx_011CUc");
   ("model", JString "claude-sonnet-4-5-20250929");
   ("content",
    JArray [JObject [("type", JString "thinking");
                     ("thinking", JString "2 + 3 = 5");
                     ("signature", JString "claude#dGhpbmtpbmc")];
            JObject [("type", JString "text"); ("text", JString "5")]]);
   ("stop_reason", JString "end_turn");
   ("usage", JObject [("input_tokens", JNumber "12"); ("output_tokens", JNumber "40")])].

(** A body with text only. *)
Definition textOnlyBody : list (string * JSON) :=
  [("id", JString "msg_01AbCdEf");
   ("model", JString "claude-sonnet-4-5-20250929");
   ("content", JArray [JObject [("type", JString "text"); ("text", JString "OK")]]);
   ("stop_reason", JString "end_turn");
   ("usage", JObject [("input_tokens", JNumber "9"); ("output_tokens", JNumber "1")])].

(** [fmt.Sprintf("%v", x)] on the values the samples contain. *)
Definition sprintSample (x : JSON) : string :=
  match x with
  | JString s => s
  | JNumber literal => literal
  | JBool true => "true"
  | JBool false => "false"
  | JNull => "<nil>"
  | _ => ""
  end.

(** A relay that forges the rate-limit header with a counter that reads
    zero on every response. *)
Definition exhaustedResponse : Response :=
  {| StatusCode := 200;
     RespHeader := [("Content-Type", ["application/json"]);
                    ("Anthropic-Ratelimit-Input-Tokens-Remaining", ["0"]);
                    ("Anthropic-Ratelimit-Input-Tokens-Reset", ["2026-01-01T00:00:00Z"])];
     BodyBytes := "{...}";
     BodyReadFails := false |}.

(** A response whose remaining counter reads [n]. *)
Definition countedResponse (n : Z) : Response :=
  {| StatusCode := 200;
     RespHeader := [("Anthropic-Ratelimit-Input-Tokens-Remaining", [Strconv.Itoa n])];
     BodyBytes := "{...}";
     BodyReadFails := false |}.

(** The decoder and the network of the sample runs: every body decodes to
    [textOnlyBody]; every request is answered by [exhaustedResponse],
    respectively by a counter that stays at 50000; no deadline passes. *)
Definition decodeSample (bodyBytes : string) : option (list (string * JSON)) :=
  Some textOnlyBody.

Definition exhaustedRelay (n : nat) : Exchange := Responded 250 exhaustedResponse.

Definition frozenRelay (n : nat) : Exchange := Responded 250 (countedResponse 50000).

Definition noDeadline (n : nat) : bool := false.

(** The fingerprint of the short Vertex signature. *)
Definition shortVertexProbe : Fingerprint :=
  probeOnce (fun _ => Some shortVertexBody) sprintSample
            (Responded 910 plainResponse) "claude-sonnet-4-5-20250929" "thinking".

(** Bodies of a tool probe answered by Anthropic and by Bedrock. *)
Definition anthropicToolBody : list (string * JSON) :=
  [("id", JString "msg_01AbCdEf");
   ("model", JString "claude-3-haiku-20240307");
   ("content",
    JArray [JObject [("type", JString "tool_use"); ("id", JString "toolu_01XyZ");
                     ("name", JString "probe");
                     ("input", JObject [("q", JString "test")])]]);
   ("stop_reason", JString "tool_use");
   ("usage",
    JObject [("input_tokens", JNumber "350"); ("output_tokens", JNumber "33");
             ("service_tier", JString "standard"); ("inference_geo", JString "us");
             ("cache_creation",
              JObject [("ephemeral_5m_input_tokens", JNumber "0")])])].

Definition bedrockToolBody : list (string * JSON) :=
  [("id", JString "0f9a2c4e");
   ("model", JString "anthropic.claude-3-haiku-20240307-v1:0");
   ("content",
    JArray [JObject [("type", JString "tool_use"); ("id", JString "tooluse_Kq3");
                     ("name", JString "probe");
                     ("input", JObject [("q", JString "test")])]]);
   ("stop_reason", JString "tool_use");
   ("usage", JObject [("inputTokens", JNumber "350"); ("outputTokens", JNumber "33")])].

(** A relay that answers the first three requests from Anthropic and
    every later one from Bedrock; the decoder tells the two bodies apart
    by their bytes. *)
Definition bodyResponse (bodyBytes : string) : Response :=
  {| StatusCode := 200; RespHeader := [("Content-Type", ["application/json"])];
     BodyBytes := bodyBytes; BodyReadFails := false |}.

Definition decodeTwo (bodyBytes : string) : option (list (string * JSON)) :=
  if String.eqb bodyBytes "anthropic" then Some anthropicToolBody
  else if String.eqb bodyBytes "bedrock" then Some bedrockToolBody
  else None.

Definition switchingRelay (n : nat) : Exchange :=
  if (n <? 3)%nat then Responded 500 (bodyResponse "anthropic")
  else Responded 500 (bodyResponse "bedrock").

(** A detect request that names the same model twice. *)
Definition repeatedModelRequest : ProxyDetectRequest :=
  {| ReqBaseURL := "https://relay.example"; APIKey := "sk-test";
     Models := ["claude-3-haiku-20240307"; "claude-3-haiku-20240307"];
     Rounds := 1; VerifyRatelimit := false |}.

(** The scan of a reply, if the request got that far. *)
Definition scanOf (reply : Reply) : option ScanResult.t :=
  match reply with
  | Success scan => Some scan
  | Failure _ => None
  end.

(** What [resolveProxyDetectBaseURL] returns for an administrator who
    names the relay. *)
Definition resolvedForAdmin : string * bool * string :=
  ("https://relay.example", true, "").

Definition repeatedModelScan : ScanResult.t :=
  fst (ScanMultipleModels decodeTwo sprintSample switchingRelay noDeadline
         "https://relay.example" (Models repeatedModelRequest) 1 start).

(** A detect request for two different models. *)
Definition twoModelRequest : ProxyDetectRequest :=
  {| ReqBaseURL := "https://relay.example"; APIKey := "sk-test";
     Models := ["claude-3-haiku-20240307"; "claude-3-5-sonnet-20241022"];
     Rounds := 1; VerifyRatelimit := false |}.

Definition twoModelScan : ScanResult.t :=
  fst (ScanMultipleModels decodeTwo sprintSample switchingRelay noDeadline
         "https://relay.example" (Models twoModelRequest) 1 start).

(** * The rest of the service and its callers *)

(** ** The target address *)

(** The two parts of a parsed [url.URL] the validation reads:
    [parsed.Scheme] and [parsed.Hostname()]. *)
Record URL : Type := {
  Scheme : string;
  Hostname : string
}.

Section Target.

(** [url.Parse] *)
Variable urlParse : string -> result URL.
(** [system_setting.ServerAddress] and [common.RoleAdminUser] *)
Variable ServerAddress : string.
Variable RoleAdminUser : Z.

(** [ValidateProxyDetectURL]: [None] is a nil error. *)
Definition ValidateProxyDetectURL (rawURL : string) : option string :=
  match urlParse rawURL with
  | Err _ => Some "invalid URL format"
  | Ok parsed =>
      if negb (String.eqb (Scheme parsed) "http")
         && negb (String.eqb (Scheme parsed) "https")
      then Some "only http/https URLs are allowed"
      else if String.eqb (Hostname parsed) "" then Some "URL must have a hostname"
      else None
  end.

(** [resolveProxyDetectBaseURL], [role] being [c.GetInt("role")]: the
    base URL, the admin flag and an error message. *)
Definition resolveProxyDetectBaseURL (role : Z) (baseURL : string)
    : string * bool * string :=
  let isAdmin := RoleAdminUser <=? role in
  let baseURL := if negb isAdmin then ServerAddress else baseURL in
  let baseURL := if String.eqb baseURL "" then ServerAddress else baseURL in
  match ValidateProxyDetectURL baseURL with
  | Some _ => ("", isAdmin, "无效的目标地址")
  | None => (baseURL, isAdmin, "")
  end.

End Target.

(** ** Finding a model that works *)

Definition probeModels : list string :=
  ["claude-sonnet-4-5-20250929"; "claude-haiku-4-5-20251001";
   "claude-3-5-sonnet-20241022"; "claude-3-haiku-20240307"].

Section Discovery.

Variable respond : nat -> Exchange.
Variable deadlinePassed : nat -> bool.

(** The loop [for _, model := range probeModels] of [FindWorkingModel]:
    the first model whose check succeeds, if the loop returns one. *)
Fixpoint firstWorking (models : list string) (p : Progress) : option string * Progress :=
  match models with
  | [] => (None, p)
  | model :: rest =>
      let '(expired, p) := ctxErr deadlinePassed p in
      if expired then (None, p)
      else
        let '(available, p) := CheckModelAvailable respond p in
        if available then (Some model, p) else firstWorking rest p
  end.

(** [FindWorkingModel] *)
Definition FindWorkingModel (p : Progress) : string * Progress :=
  let '(found, p) := firstWorking probeModels p in
  (match found with
   | Some model => model
   | None => nth 0 probeModels ""
   end, p).

End Discovery.

(** ** Groups *)

(** The value under ["ratio"]: a number, or a text. *)
Inductive GroupRatio : Type :=
| RatioNumber (ratio : float)
| RatioText (text : string).

(** [map[string]interface{}{"ratio": ..., "desc": ...}] *)
Record UsableGroup : Type := {
  ugRatio : GroupRatio;
  ugDesc : string
}.

Section Groups.

(** [ratio_setting.GetGroupRatioCopy()] *)
Variable groupRatio : gmap string float.
(** [service.GetUserUsableGroups(userGroup)] *)
Variable userUsableGroups : gmap string string.
(** [service.GetUserGroupRatio(userGroup, groupName)] *)
Variable GetUserGroupRatio : string -> float.
(** [setting.GetUsableGroupDescription("auto")] *)
Variable autoDescription : string.

(** [GetGroups]: the names under ["data"], in the order in which the map
    is visited. *)
Definition GetGroups : list string :=
  map_fold (fun groupName _ groupNames => groupNames ++ [groupName]) [] groupRatio.

(** [GetUserGroups]: the map under ["data"]. *)
Definition GetUserGroups : gmap string UsableGroup :=
  let usableGroups :=
    map_fold (fun groupName _ (usableGroups : gmap string UsableGroup) =>
      match userUsableGroups !! groupName with
      | Some desc =>
          <[groupName := {| ugRatio := RatioNumber (GetUserGroupRatio groupName);
                            ugDesc := desc |}]> usableGroups
      | None => usableGroups
      end) ∅ groupRatio in
  match userUsableGroups !! "auto" with
  | Some _ =>
      <["auto" := {| ugRatio := RatioText "自动"; ugDesc := autoDescription |}]> usableGroups
  | None => usableGroups
  end.

End Groups.

(** [sort.Strings]: the strings in increasing order, compared byte by
    byte as Go's [<] on strings does. *)
Fixpoint insertSorted (s : string) (sorted : list string) : list string :=
  match sorted with
  | [] => [s]
  | x :: rest => if String.leb s x then s :: sorted else x :: insertSorted s rest
  end.

Definition sortStrings (l : list string) : list string :=
  fold_right insertSorted [] l.

Record GroupInfo : Type := {
  ModelCount : Z;
  GroupModels : list string
}.

(** [GetGroupPreview]: the map under ["data"], for the group models and
    the group ratios the two settings return.  A group without models gets
    the empty list. *)
Definition GetGroupPreview (groupModels : gmap string (list string))
    (groupRatios : gmap string float) : gmap string GroupInfo :=
  map_fold (fun groupName _ (groups : gmap string GroupInfo) =>
    let models := default [] (groupModels !! groupName) in
    let models := sortStrings models in
    <[groupName := {| ModelCount := Z.of_nat (length models);
                      GroupModels := models |}]> groups) ∅ groupRatios.

(** ** The detector page ([web/src/pages/ProxyDetector/index.jsx]) *)

Module Page.

Record VerdictConfig : Type := {
  color : string;
  label : string
}.

(** The own properties of [VERDICT_CONFIG]. *)
Definition VERDICT_CONFIG : gmap string VerdictConfig :=
  <["anthropic" := {| color := "green"; label := "Anthropic 官方 API" |}]>
  (<["bedrock" := {| color := "blue"; label := "AWS Bedrock (Kiro)" |}]>
  (<["antigravity" := {| color := "purple"; label := "Google Vertex AI (Antigravity)" |}]>
  (<["suspicious" := {| color := "orange"; label := "疑似伪装 Anthropic" |}]>
  (<["unknown" := {| color := "grey"; label := "无法确定" |}]>
  (<["unavailable" := {| color := "white"; label := "不可用" |}]> ∅))))).

(** The names an object literal inherits from [Object.prototype]: looking
    one of them up gives a function or an object, which is truthy and has
    neither a [color] nor a [label]. *)
Definition objectPrototypeNames : list string :=
  ["constructor"; "hasOwnProperty"; "isPrototypeOf"; "propertyIsEnumerable";
   "toLocaleString"; "toString"; "valueOf"; "__proto__"; "__defineGetter__";
   "__defineSetter__"; "__lookupGetter__"; "__lookupSetter__"].

(** [renderVerdictTag]: the colour and the text of the tag, [None] for
    [undefined]. *)
Definition renderVerdictTag (verdict : string) : option string * option string :=
  match VERDICT_CONFIG !! verdict with
  | Some config => (Some (color config), Some (label config))
  | None =>
      if existsb (String.eqb verdict) objectPrototypeNames then (None, None)
      else (Some "grey", Some "无法确定")
  end.

(** The state of the page [handleDetect] reads. *)
Record State : Type := {
  admin : bool;
  serverAddress : string;
  baseURL : string;
  apiKey : string;
  selectedModels : list string;
  rounds : Z;
  verifyRatelimit : bool
}.

(** [admin ? (baseURL || serverAddress) : serverAddress] *)
Definition effectiveBaseURL (st : State) : string :=
  if admin st then (if String.eqb (baseURL st) "" then serverAddress st else baseURL st)
  else serverAddress st.

(** [handleDetect] up to the request: the message shown, or the body
    posted to the detect endpoint. *)
Definition handleDetect (st : State) : result ProxyDetectRequest :=
  if String.eqb (apiKey st) "" then Err "请输入 API Key"
  else if (length (selectedModels st) =? 0)%nat then Err "请选择要检测的模型"
  else
    Ok {| ReqBaseURL := effectiveBaseURL st;
          APIKey := apiKey st;
          Models := take 6 (selectedModels st);
          Rounds := rounds st;
          VerifyRatelimit :=
            if (length (selectedModels st) =? 1)%nat then verifyRatelimit st else false |}.

End Page.

(** [Math.round]: the nearest integer, a half going towards plus
    infinity; a result of magnitude zero keeps the sign of the argument. *)
Module JsMath.

Definition roundSF (x : spec_float) : spec_float :=
  match x with
  | S754_finite s m e =>
      if 0 <=? e then x
      else
        let unit := 2 ^ (- e) in
        let k := Zpos m / unit in
        let twice := 2 * (Zpos m mod unit) in
        let k := if (s : bool) then (if unit <? twice then k + 1 else k)
                 else (if unit <=? twice then k + 1 else k) in
        binary_normalize prec emax (if s then - k else k) 0 s
  | _ => x
  end.

Definition round (x : float) : float := SF2Prim (roundSF (Prim2SF x)).

End JsMath.

Module PageConfidence.

(** [renderConfidence]: the colour and the number shown before the
    percent sign. *)
Definition renderConfidence (confidence : float) : string * float :=
  let pct := JsMath.round (confidence * 100) in
  let color := "var(--semi-color-success)" in
  let color := if (pct <? 60)%float then "var(--semi-color-warning)" else color in
  let color := if (pct <? 30)%float then "var(--semi-color-danger)" else color in
  (color, pct).

End PageConfidence.

(** * Further vocabulary *)

(** The 16-byte form of a 4-byte address ([ip.To16()]); an address of any
    other length is left as it is. *)
Definition mappedForm (ip : Net.IP) : Net.IP :=
  match ip with
  | [a; b; c; d] => Net.IPv4 a b c d
  | _ => ip
  end.

(** The id of a content block of type [tool_use] (empty when the block has
    none or it is not a string); [None] for any other block. *)
Definition toolUseID (block : JSON) : option string :=
  match block with
  | JObject bm =>
      if isString (field "type" bm) "tool_use" then Some (asString (field "id" bm))
      else None
  | _ => None
  end.

(** The ids of the [tool_use] blocks of a body, in order. *)
Definition toolUseIDs (body : list (string * JSON)) : list string :=
  match field "content" body with
  | Some (JArray content) => omap toolUseID content
  | _ => []
  end.


(** [id != ""] *)
Definition nonEmpty (s : string) : bool := negb (String.eqb s "").

(** The five verdicts of [analyze]. *)
Definition analyzeVerdicts : list string :=
  ["anthropic"; "bedrock"; "antigravity"; "suspicious"; "unknown"].




(** A context that has expired stays expired. *)
Definition deadlineMonotone (deadlinePassed : nat -> bool) : Prop :=
  forall n m, (n <= m)%nat -> deadlinePassed n = true -> deadlinePassed m = true.

(** The three verdicts of the rate-limit verifier. *)
Definition ratelimitVerdicts : list string := ["static"; "dynamic"; "unavailable"].

(** The evidence line [DetectSingleModel] adds for a verdict of the
    verifier. *)
Definition ratelimitLine (verdict : string) : string :=
  if String.eqb verdict "static" then
    "[!!] ratelimit remaining 值固定不变，疑似伪造的 ratelimit header"
  else if String.eqb verdict "dynamic" then
    "[✓] ratelimit remaining 正常递减，真实 Anthropic ratelimit header"
  else "[i] ratelimit header 不可用，无法进行动态验证".

(** The first non-empty string of a list, or the empty string. *)
Definition firstNonEmpty (l : list string) : string :=
  default "" (head (List.filter nonEmpty l)).

(** [rounds] as [ProxyDetect] passes it on: 2 for a value of 0 or less,
    at most 3. *)
Definition effectiveRounds (req : ProxyDetectRequest) : Z :=
  let rounds := if Rounds req <=? 0 then 2 else Rounds req in
  if 3 <? rounds then 3 else rounds.

(** One entry of [model_results]: the stub of an unavailable model, or
    the analysis of the fingerprints of at most [rounds] tool probes and
    one thinking probe for that model, without rate-limit verification. *)
Definition scannedResult (rounds : Z) (r : DetectResult.t) : Prop :=
  r = unavailableResult (DetectResult.Model r)
  \/ exists k fps,
       (k <= Z.to_nat rounds)%nat
       /\ (map ProbeType fps = repeat "tool" k
           \/ map ProbeType fps = repeat "tool" k ++ ["thinking"])
       /\ r = analyze fps (DetectResult.Model r).

(** Whether an exchange is a response with status 200. *)
Definition answersOK (x : Exchange) : bool :=
  match x with
  | Responded _ resp => StatusCode resp =? 200
  | _ => false
  end.

(** The index of the first of [n] requests, counted from request [from],
    that is answered with status 200. *)
Fixpoint firstOK (respond : nat -> Exchange) (from n : nat) : option nat :=
  match n with
  | O => None
  | S n' =>
      if answersOK (respond from) then Some 0%nat
      else S <$> firstOK respond (S from) n'
  end.

(** No string of the list is greater than its successor. *)
Fixpoint increasing (l : list string) : bool :=
  match l with
  | a :: ((b :: _) as rest) => String.leb a b && increasing rest
  | _ => true
  end.

(** The tag of the evidence lines of the valid fingerprint at index [i]:
    [fmt.Sprintf("[R%d]", i+1)]. *)
Definition roundTag (i : nat) : string :=
  "[R" +:+ Strconv.Itoa (Z.of_nat i + 1) +:+ "]".

(** [g] appends at most [bound] evidence lines, each starting with
    [tag], to the tally it is given. *)
Definition appendsLines (tag : string) (bound : nat) (g : Tally -> Tally) : Prop :=
  forall t, exists new,
    evidence (g t) = evidence t ++ new
    /\ Forall (fun line => Strings.HasPrefix line tag = true) new
    /\ (length new <= bound)%nat.

(** * Further sample inputs *)

(** A tool probe answered with two [tool_use] blocks, the second without
    an id. *)
Definition staleToolBody : list (string * JSON) :=
  [("id", JString "msg_01AbCdEf");
   ("content",
    JArray [JObject [("type", JString "tool_use"); ("id", JString "toolu_01XyZ")];
            JObject [("type", JString "tool_use"); ("name", JString "probe")]])].

(** * Properties *)

(** ** Go [int] arithmetic *)

Lemma wrap_in_range z : GoInt.in_range (GoInt.wrap z).
Proof.
  unfold GoInt.in_range, GoInt.wrap, GoInt.min_int, GoInt.max_int.
  pose proof (Z.mod_pos_bound (z + 2 ^ 63) (2 ^ 64) ltac:(lia)). lia.
Qed.

Lemma wrap_id z : GoInt.in_range z -> GoInt.wrap z = z.
Proof.
  unfold GoInt.in_range, GoInt.wrap, GoInt.min_int, GoInt.max_int. intros H.
  rewrite Z.mod_small by lia. lia.
Qed.

Lemma add_exact a b : GoInt.in_range (a + b) -> GoInt.add a b = a + b.
Proof. apply wrap_id. Qed.

Lemma sub_exact a b : GoInt.in_range (a - b) -> GoInt.sub a b = a - b.
Proof. apply wrap_id. Qed.

(** ** SafeDialer *)

Lemma bytesEqual_eq a : forall b, Net.bytesEqual a b = true -> a = b.
Proof.
  induction a as [|x a IH]; intros [|y b] H; simpl in H; try discriminate; auto.
  apply andb_true_iff in H as [Hxy Hab].
  apply Z.eqb_eq in Hxy. f_equal; auto.
Qed.

(** Every address that [Equal] identifies with 169.254.169.254, in the
    4-byte or the 16-byte form, is link-local unicast. *)
Lemma metadata_is_link_local ip :
  Net.Equal ip metadataIP = true -> Net.IsLinkLocalUnicast ip = true.
Proof.
  unfold Net.Equal. change (length metadataIP) with 16%nat.
  destruct (length ip =? 16)%nat eqn:H16.
  - intros H. apply bytesEqual_eq in H. subst ip. reflexivity.
  - destruct (length ip =? Net.IPv4len)%nat eqn:H4; simpl.
    + intros H. apply bytesEqual_eq in H. subst ip. reflexivity.
    + rewrite andb_false_r. discriminate.
Qed.

Lemma checkIPs_message ips msg : checkIPs ips = Some msg -> msg = privateIPBlocked.
Proof.
  induction ips as [|ip rest IH]; simpl; [discriminate|].
  destruct (isInternal ip) eqn:Hint; [congruence|].
  destruct (Net.Equal ip metadataIP) eqn:Heq; [|exact IH].
  apply metadata_is_link_local in Heq.
  unfold isInternal in Hint. rewrite Heq in Hint.
  rewrite !orb_true_r in Hint. discriminate.
Qed.

Lemma checkIPs_refuses ips :
  Exists (fun ip => isInternal ip = true \/ Net.Equal ip metadataIP = true) ips ->
  exists msg, checkIPs ips = Some msg.
Proof.
  induction 1 as [ip rest [H|H]|ip rest _ IH]; simpl.
  - rewrite H. eauto.
  - destruct (isInternal ip); [eauto|]. rewrite H. eauto.
  - destruct (isInternal ip); [eauto|].
    destruct (Net.Equal ip metadataIP); [eauto|]. exact IH.
Qed.

(** C1. A dial through the client of a caller whose SSRF check is not
    skipped, for which DNS returns at least one address that is loopback,
    private, link-local unicast or multicast, unspecified or equal to
    169.254.169.254, is refused before any connection is attempted, and
    the error message contains "private IP" or "metadata". *)
Theorem safe_dial_refuses_internal_addresses
    (SplitHostPort : string -> result (string * string))
    (LookupIPAddr : string -> result (list Net.IP))
    (network addr host port : string) (ips : list Net.IP) :
  SplitHostPort addr = Ok (host, port) ->
  LookupIPAddr host = Ok ips ->
  Exists (fun ip =>
            Net.IsLoopback ip = true \/ Net.IsPrivate ip = true
            \/ Net.IsLinkLocalUnicast ip = true \/ Net.IsLinkLocalMulticast ip = true
            \/ Net.IsUnspecified ip = true \/ Net.Equal ip metadataIP = true) ips ->
  exists msg,
    clientDial SplitHostPort LookupIPAddr false network addr = DialRefused msg
    /\ (Strings.Contains msg "private IP" = true
        \/ Strings.Contains msg "metadata" = true).
Proof.
  intros Hsplit Hdns Hbad.
  assert (Hex : exists msg, checkIPs ips = Some msg).
  { apply checkIPs_refuses. eapply Exists_impl; [exact Hbad|].
    intros ip Hip. unfold isInternal.
    destruct Hip as [H|[H|[H|[H|[H|H]]]]]; [left|left|left|left|left|right];
      try rewrite H; rewrite ?orb_true_r; auto. }
  destruct Hex as [msg Hmsg]. exists msg. split.
  - unfold clientDial, safeDialer. rewrite Hsplit, Hdns, Hmsg. reflexivity.
  - apply checkIPs_message in Hmsg. subst msg. left. reflexivity.
Qed.

Lemma safe_dial_refuses_internal_addresses_witness :
  exists msg,
    clientDial (fun _ => Ok ("metadata.example", "80"))
               (fun _ => Ok [[93; 184; 216; 34]; [169; 254; 169; 254]])
               false "tcp" "metadata.example:80" = DialRefused msg
    /\ (Strings.Contains msg "private IP" = true
        \/ Strings.Contains msg "metadata" = true).
Proof.
  apply (safe_dial_refuses_internal_addresses
           (fun _ => Ok ("metadata.example", "80"))
           (fun _ => Ok [[93; 184; 216; 34]; [169; 254; 169; 254]])
           "tcp" "metadata.example:80" "metadata.example" "80"
           [[93; 184; 216; 34]; [169; 254; 169; 254]]).
  - reflexivity.
  - reflexivity.
  - apply Exists_cons_tl, Exists_cons_hd.
    right. right. left. reflexivity.
Defined.

(** C10. The "metadata endpoint" error of the dialer is dead code: an
    address equal to 169.254.169.254 (4-byte or IPv4-mapped form) is
    link-local unicast, so the first check of the loop has already
    refused it; the dialer never returns that message, and once the
    address splits and resolves, every refusal carries exactly
    "connection to private IP blocked". *)
Theorem metadata_error_unreachable
    (SplitHostPort : string -> result (string * string))
    (LookupIPAddr : string -> result (list Net.IP))
    (network addr : string) :
  (forall ip, Net.Equal ip metadataIP = true -> Net.IsLinkLocalUnicast ip = true)
  /\ safeDialer SplitHostPort LookupIPAddr network addr <> DialRefused metadataBlocked
  /\ (forall host port ips msg,
        SplitHostPort addr = Ok (host, port) ->
        LookupIPAddr host = Ok ips ->
        safeDialer SplitHostPort LookupIPAddr network addr = DialRefused msg ->
        msg = privateIPBlocked).
Proof.
  split; [exact metadata_is_link_local|]. split.
  - unfold safeDialer.
    destruct (SplitHostPort addr) as [[host port]|e]; [|discriminate].
    destruct (LookupIPAddr host) as [ips|e]; [|discriminate].
    destruct (checkIPs ips) as [msg|] eqn:Hmsg; [|discriminate].
    apply checkIPs_message in Hmsg. subst msg. discriminate.
  - intros host port ips msg Hsplit Hdns. unfold safeDialer.
    rewrite Hsplit, Hdns.
    destruct (checkIPs ips) as [m|] eqn:Hm; [|discriminate].
    intros [= <-]. eapply checkIPs_message; eauto.
Qed.

Lemma metadata_error_unreachable_witness :
  safeDialer (fun _ => Ok ("metadata.example", "80"))
             (fun _ => Ok [Net.IPv4 169 254 169 254])
             "tcp" "metadata.example:80" <> DialRefused metadataBlocked
  /\ (forall msg,
        safeDialer (fun _ => Ok ("metadata.example", "80"))
                   (fun _ => Ok [Net.IPv4 169 254 169 254])
                   "tcp" "metadata.example:80" = DialRefused msg ->
        msg = privateIPBlocked).
Proof.
  destruct (metadata_error_unreachable
              (fun _ => Ok ("metadata.example", "80"))
              (fun _ => Ok [Net.IPv4 169 254 169 254])
              "tcp" "metadata.example:80") as [_ [Hnever Hexact]].
  split; [exact Hnever|].
  intros msg.
  apply (Hexact "metadata.example" "80" [Net.IPv4 169 254 169 254] msg); reflexivity.
Defined.

(** ** Classifier: the scores *)

Lemma validFingerprints_nonempty fps :
  Exists (fun fp => Error fp = "") fps -> validFingerprints fps <> [].
Proof.
  unfold validFingerprints.
  induction 1 as [fp rest H|fp rest _ IH]; simpl.
  - rewrite H. simpl. discriminate.
  - destruct (String.eqb (Error fp) ""); [discriminate|exact IH].
Qed.

Lemma validFingerprints_length fps :
  (length (validFingerprints fps) <= length fps)%nat.
Proof.
  unfold validFingerprints. induction fps as [|fp rest IH]; simpl; [lia|].
  destruct (String.eqb (Error fp) ""); simpl; lia.
Qed.

Lemma clamp_non_negative s :
  0 <= anthropic (clamp s) /\ 0 <= bedrock (clamp s) /\ 0 <= antigravity (clamp s).
Proof.
  unfold clamp; simpl.
  destruct (Z.ltb_spec (anthropic s) 0), (Z.ltb_spec (bedrock s) 0),
    (Z.ltb_spec (antigravity s) 0); lia.
Qed.

(** The [Scores] field of the result, whichever branch produced it. *)
Lemma analyze_scores fps model :
  DetectResult.Scores (analyze fps model) =
  match validFingerprints fps with
  | [] => zeroScores
  | v => scores (tally (findings v))
  end.
Proof. unfold analyze. destruct (validFingerprints fps); reflexivity. Qed.

(** C9. Every entry of the scores map of the result of [analyze] is
    non-negative, for every fingerprint list, although a value can be
    negative before the clamp: the penalties of the third pass take the
    anthropic score of [bareMessageID] from 2 to -3. *)
Theorem scores_non_negative :
  (forall fps model,
     0 <= anthropic (DetectResult.Scores (analyze fps model))
     /\ 0 <= bedrock (DetectResult.Scores (analyze fps model))
     /\ 0 <= antigravity (DetectResult.Scores (analyze fps model)))
  /\ anthropic (scores (tally (beforeClamp [bareMessageID]))) = -3.
Proof.
  split; [|reflexivity].
  intros fps model. rewrite analyze_scores.
  destruct (validFingerprints fps) as [|fp v].
  - simpl. lia.
  - unfold findings. cbn [tally scores]. apply clamp_non_negative.
Qed.

(** *** No score leaves the range of [int] *)

Lemma ranged_weaken lo hi lo' hi' s :
  ranged lo hi s -> lo' <= lo -> hi <= hi' -> ranged lo' hi' s.
Proof. unfold ranged. lia. Qed.

Lemma credit_ranged lo hi k n line t :
  ranged lo hi (scores t) -> 0 <= n -> GoInt.min_int <= lo -> hi + n <= GoInt.max_int ->
  ranged lo (hi + n) (scores (credit k n line t)).
Proof.
  unfold ranged, credit. intros (Ha & Hb & Hg) Hn Hlo Hhi.
  destruct k; simpl; rewrite add_exact by (unfold GoInt.in_range; lia); lia.
Qed.

(** One step of the scoring loop that credits at most [d] to one bucket. *)
Ltac step_ranged d :=
  intros Hr Hlo Hhi;
  repeat match goal with
         | |- context [if ?c then _ else _] => destruct c
         end;
  match goal with
  | Hr : ranged ?lo ?hi _ |- _ =>
      first
        [ apply (ranged_weaken lo hi); [exact Hr | lia | lia]
        | eapply (ranged_weaken lo (hi + _));
          [ apply credit_ranged; [exact Hr | lia | exact Hlo | lia] | lia | lia ] ]
  end.

Lemma toolIDSignal_ranged lo hi tag fp t :
  ranged lo hi (scores t) -> GoInt.min_int <= lo -> hi + 5 <= GoInt.max_int ->
  ranged lo (hi + 5) (scores (toolIDSignal tag fp t)).
Proof. unfold toolIDSignal. step_ranged 5. Qed.

Lemma thinkingSignal_ranged lo hi tag fp t :
  ranged lo hi (scores t) -> GoInt.min_int <= lo -> hi + 5 <= GoInt.max_int ->
  ranged lo (hi + 5) (scores (thinkingSignal tag fp t)).
Proof. unfold thinkingSignal. step_ranged 5. Qed.

Lemma msgIDSignal_ranged lo hi tag fp t :
  ranged lo hi (scores t) -> GoInt.min_int <= lo -> hi + 6 <= GoInt.max_int ->
  ranged lo (hi + 6) (scores (msgIDSignal tag fp t)).
Proof. unfold msgIDSignal. step_ranged 6. Qed.

Lemma modelSignal_ranged lo hi tag fp t :
  ranged lo hi (scores t) -> GoInt.min_int <= lo -> hi + 8 <= GoInt.max_int ->
  ranged lo (hi + 8) (scores (modelSignal tag fp t)).
Proof. unfold modelSignal. step_ranged 8. Qed.

Lemma serviceTierSignal_ranged lo hi tag fp t :
  ranged lo hi (scores t) -> GoInt.min_int <= lo -> hi + 3 <= GoInt.max_int ->
  ranged lo (hi + 3) (scores (serviceTierSignal tag fp t)).
Proof. unfold serviceTierSignal. step_ranged 3. Qed.

Lemma inferenceGeoSignal_ranged lo hi tag fp t :
  ranged lo hi (scores t) -> GoInt.min_int <= lo -> hi + 2 <= GoInt.max_int ->
  ranged lo (hi + 2) (scores (inferenceGeoSignal tag fp t)).
Proof. unfold inferenceGeoSignal. step_ranged 2. Qed.

Lemma cacheCreationSignal_ranged lo hi tag fp t :
  ranged lo hi (scores t) -> GoInt.min_int <= lo -> hi + 1 <= GoInt.max_int ->
  ranged lo (hi + 1) (scores (cacheCreationSignal tag fp t)).
Proof. unfold cacheCreationSignal. step_ranged 1. Qed.

Lemma usageSignal_ranged lo hi tag fp t :
  ranged lo hi (scores t) -> GoInt.min_int <= lo -> hi + 2 <= GoInt.max_int ->
  ranged lo (hi + 2) (scores (usageSignal tag fp t)).
Proof. unfold usageSignal. step_ranged 2. Qed.

Lemma awsHeaderSignal_ranged lo hi tag fp t :
  ranged lo hi (scores t) -> GoInt.min_int <= lo -> hi + 3 <= GoInt.max_int ->
  ranged lo (hi + 3) (scores (awsHeaderSignal tag fp t)).
Proof. unfold awsHeaderSignal. step_ranged 3. Qed.

Lemma anthropicHeaderSignal_ranged lo hi tag fp t :
  ranged lo hi (scores t) -> GoInt.min_int <= lo -> hi + 2 <= GoInt.max_int ->
  ranged lo (hi + 2) (scores (anthropicHeaderSignal tag fp t)).
Proof. unfold anthropicHeaderSignal. step_ranged 2. Qed.

Ltac chain_ranged Hr :=
  first
    [ exact Hr
    | first [ eapply anthropicHeaderSignal_ranged | eapply awsHeaderSignal_ranged
            | eapply usageSignal_ranged | eapply cacheCreationSignal_ranged
            | eapply inferenceGeoSignal_ranged | eapply serviceTierSignal_ranged
            | eapply modelSignal_ranged | eapply msgIDSignal_ranged
            | eapply thinkingSignal_ranged | eapply toolIDSignal_ranged ];
      [ chain_ranged Hr | lia | lia ] ].

(** One fingerprint adds at most 37 to any score. *)
Lemma scoreFingerprint_ranged lo hi i fp t :
  ranged lo hi (scores t) -> GoInt.min_int <= lo -> hi + 37 <= GoInt.max_int ->
  ranged lo (hi + 37) (scores (scoreFingerprint i fp t)).
Proof.
  intros Hr Hlo Hhi. unfold scoreFingerprint.
  eapply (ranged_weaken lo); [chain_ranged Hr | lia | lia].
Qed.

Lemma scoreAll_ranged lo validFPs : forall hi i t,
  ranged lo hi (scores t) -> GoInt.min_int <= lo ->
  hi + 37 * Z.of_nat (length validFPs) <= GoInt.max_int ->
  ranged lo (hi + 37 * Z.of_nat (length validFPs)) (scores (scoreAll i validFPs t)).
Proof.
  induction validFPs as [|fp rest IH]; intros hi i t Hr Hlo Hhi; simpl scoreAll.
  - eapply ranged_weaken; [exact Hr|lia|simpl; lia].
  - rewrite length_cons, Nat2Z.inj_succ in *.
    eapply ranged_weaken; [apply (IH (hi + 37)) | lia | lia]; try lia.
    apply scoreFingerprint_ranged; auto; lia.
Qed.

Lemma fingerprintLimit_room n :
  n <= fingerprintLimit -> 126 * n <= GoInt.max_int.
Proof. unfold fingerprintLimit, GoInt.max_int. lia. Qed.

Lemma afterScoring_ranged validFPs :
  Z.of_nat (length validFPs) <= fingerprintLimit ->
  ranged 0 (37 * Z.of_nat (length validFPs)) (scores (afterScoring validFPs)).
Proof.
  intros Hlen. pose proof (fingerprintLimit_room _ Hlen).
  unfold afterScoring.
  eapply ranged_weaken; [apply (scoreAll_ranged 0 validFPs 0)| |]; try lia.
  - simpl. unfold ranged, zeroScores. simpl. lia.
  - unfold GoInt.min_int. lia.
Qed.

(** *** Pass B *)

Lemma hasKiroModel_false validFPs :
  hasKiroModel validFPs = false <->
  Forall (fun fp => ModelSource fp <> "kiro") validFPs.
Proof.
  unfold hasKiroModel. induction validFPs as [|fp rest IH]; simpl.
  - split; [constructor|reflexivity].
  - rewrite orb_false_iff, IH, Forall_cons_iff.
    destruct (String.eqb_spec (ModelSource fp) "kiro"); intuition congruence.
Qed.

Lemma toolusePoints_from acc validFPs :
  0 <= acc -> acc + 5 * Z.of_nat (length validFPs) <= GoInt.max_int ->
  fold_left (fun acc fp =>
    if String.eqb (ToolIDSource fp) "bedrock" then GoInt.add acc 5 else acc)
    validFPs acc
  = acc + 5 * tooluseCount validFPs.
Proof.
  unfold tooluseCount. revert acc.
  induction validFPs as [|fp rest IH]; intros acc Hacc Hmax; simpl fold_left.
  - simpl. lia.
  - rewrite length_cons, Nat2Z.inj_succ in Hmax. simpl List.filter.
    destruct (String.eqb (ToolIDSource fp) "bedrock").
    + rewrite add_exact by (unfold GoInt.in_range, GoInt.min_int; lia).
      rewrite IH by lia. rewrite length_cons, Nat2Z.inj_succ. lia.
    + rewrite IH by lia. lia.
Qed.

Lemma tooluseCount_bound validFPs :
  0 <= tooluseCount validFPs <= Z.of_nat (length validFPs).
Proof.
  unfold tooluseCount. pose proof (filter_length_le
    (fun fp => String.eqb (ToolIDSource fp) "bedrock") validFPs). lia.
Qed.

Lemma toolusePoints_exact validFPs :
  Z.of_nat (length validFPs) <= fingerprintLimit ->
  toolusePoints validFPs = 5 * tooluseCount validFPs.
Proof.
  intros Hlen. pose proof (fingerprintLimit_room _ Hlen).
  unfold toolusePoints. rewrite toolusePoints_from; lia.
Qed.

(** What the transfer does to a tally whose scores are in [0, hi]. *)
Lemma attributionCorrection_transfers hi validFPs t :
  ranged 0 hi (scores t) ->
  Z.of_nat (length validFPs) <= fingerprintLimit ->
  hi + 5 * Z.of_nat (length validFPs) <= GoInt.max_int ->
  hasKiroModel validFPs = false ->
  0 < antigravity (scores t) -> 0 < bedrock (scores t) -> 4 <= antigravity (scores t) ->
  attributionCorrection validFPs t =
  {| scores :=
       {| anthropic := anthropic (scores t);
          bedrock := bedrock (scores t) - 5 * tooluseCount validFPs;
          antigravity := antigravity (scores t) + 5 * tooluseCount validFPs |};
     evidence := evidence t ++ [correctionLine (5 * tooluseCount validFPs)] |}.
Proof.
  intros (Ha & Hb & Hg) Hlen Hhi Hkiro Hg0 Hb0 Hg4.
  pose proof (tooluseCount_bound validFPs) as Hc.
  unfold attributionCorrection. rewrite Hkiro. simpl negb.
  destruct (Z.ltb_spec 0 (antigravity (scores t))); [|lia].
  destruct (Z.ltb_spec 0 (bedrock (scores t))); [|lia].
  destruct (Z.leb_spec 4 (antigravity (scores t))); [|lia].
  simpl. rewrite toolusePoints_exact by exact Hlen.
  rewrite sub_exact, add_exact;
    unfold GoInt.in_range, GoInt.min_int, GoInt.max_int in *; try lia.
  reflexivity.
Qed.

Lemma attributionCorrection_otherwise validFPs t :
  ~ (hasKiroModel validFPs = false /\ 0 < antigravity (scores t)
     /\ 0 < bedrock (scores t) /\ 4 <= antigravity (scores t)) ->
  attributionCorrection validFPs t = t.
Proof.
  intros Hnot. unfold attributionCorrection.
  destruct (hasKiroModel validFPs); [reflexivity|]. simpl negb.
  destruct (Z.ltb_spec 0 (antigravity (scores t))); [|reflexivity].
  destruct (Z.ltb_spec 0 (bedrock (scores t))); [|reflexivity].
  destruct (Z.leb_spec 4 (antigravity (scores t))); [|reflexivity].
  exfalso. apply Hnot. auto.
Qed.

(** C5. In [analyze], when the second pass starts: if no valid
    fingerprint has model source kiro, the bedrock and antigravity scores
    are both positive and antigravity is at least 4, then exactly 5 points
    for each valid fingerprint whose tool id is tagged bedrock move from
    the bedrock score to the antigravity score, the anthropic score is
    untouched and one evidence line starting with the correction tag is
    appended; in every other case the scores are left as they were. *)
Theorem attribution_correction_transfer fps :
  Z.of_nat (length fps) <= fingerprintLimit ->
  let validFPs := validFingerprints fps in
  let before := afterScoring validFPs in
  let after := attributionCorrection validFPs before in
  let points := 5 * tooluseCount validFPs in
  let applies :=
    Forall (fun fp => ModelSource fp <> "kiro") validFPs
    /\ 0 < bedrock (scores before) /\ 0 < antigravity (scores before)
    /\ 4 <= antigravity (scores before) in
  (applies ->
     bedrock (scores after) = bedrock (scores before) - points
     /\ antigravity (scores after) = antigravity (scores before) + points
     /\ anthropic (scores after) = anthropic (scores before)
     /\ exists line,
          evidence after = evidence before ++ [line]
          /\ Strings.HasPrefix line "[修正]" = true)
  /\ (~ applies -> scores after = scores before).
Proof.
  intros Hlen validFPs before after points applies.
  assert (Hv : Z.of_nat (length validFPs) <= fingerprintLimit).
  { pose proof (validFingerprints_length fps). unfold validFPs. lia. }
  pose proof (fingerprintLimit_room _ Hv) as Hroom.
  pose proof (afterScoring_ranged validFPs Hv) as Hr. fold before in Hr.
  split.
  - intros (Hkiro & Hb & Hg & Hg4). apply hasKiroModel_false in Hkiro.
    unfold after.
    rewrite (attributionCorrection_transfers _ _ _ Hr) by (auto; lia).
    cbn [scores evidence anthropic bedrock antigravity].
    repeat split; try reflexivity.
    exists (correctionLine points). split; reflexivity.
  - intros Hnot. unfold after. rewrite attributionCorrection_otherwise; [reflexivity|].
    intros (Hkiro & Hg & Hb & Hg4). apply Hnot.
    unfold applies. rewrite <- hasKiroModel_false. auto.
Qed.

(** *** Pass C *)

Lemma raise_scores flag n line f :
  bedrock (scores (tally (raise flag n line f))) = bedrock (scores (tally f))
  /\ antigravity (scores (tally (raise flag n line f))) = antigravity (scores (tally f))
  /\ anthropic (scores (tally (raise flag n line f)))
     = GoInt.sub (anthropic (scores (tally f))) n.
Proof. repeat split. Qed.

(** The case analysis of [negativeEvidence]: either the guard fails and
    nothing changes, or each of the three checks raises its flag or not. *)
Ltac split_negativeEvidence :=
  unfold negativeEvidence;
  repeat match goal with
         | |- context [if ?c then _ else _] => destruct c eqn:?
         end.

Lemma negativeEvidence_others validFPs t :
  bedrock (scores (tally (negativeEvidence validFPs t))) = bedrock (scores t)
  /\ antigravity (scores (tally (negativeEvidence validFPs t))) = antigravity (scores t).
Proof. split_negativeEvidence; split; reflexivity. Qed.

(** Flags are raised only for a tally with no bedrock and no antigravity
    score, and then the anthropic score is the result of a subtraction. *)
Lemma negativeEvidence_raised validFPs t :
  missingFlags (negativeEvidence validFPs t) <> [] ->
  bedrock (scores t) = 0 /\ antigravity (scores t) = 0
  /\ GoInt.in_range (anthropic (scores (tally (negativeEvidence validFPs t)))).
Proof.
  unfold negativeEvidence.
  destruct (_ && _ && _) eqn:Hguard.
  - apply andb_true_iff in Hguard as [Hguard Hg].
    apply andb_true_iff in Hguard as [_ Hb].
    apply Z.eqb_eq in Hb, Hg. intros Hraised. split; [exact Hb|]. split; [exact Hg|].
    revert Hraised.
    repeat match goal with
           | |- context [if ?c then _ else _] => destruct c
           end; intros Hraised; try (exfalso; apply Hraised; reflexivity);
      apply wrap_in_range.
  - intros H. exfalso. apply H. reflexivity.
Qed.

Lemma negativeEvidence_flags validFPs t flag :
  In flag (missingFlags (negativeEvidence validFPs t)) ->
  flag = "inference_geo" \/ flag = "cache_creation_obj" \/ flag = "thinking_signature".
Proof. split_negativeEvidence; simpl; intuition. Qed.

Lemma negativeEvidence_ranged lo hi validFPs t :
  ranged lo hi (scores t) -> GoInt.min_int <= lo - 8 -> hi <= GoInt.max_int -> lo <= 0 ->
  ranged (lo - 8) hi (scores (tally (negativeEvidence validFPs t))).
Proof.
  intros (Ha & Hb & Hg) Hlo Hhi Hlo0.
  split_negativeEvidence; unfold ranged; cbn;
    rewrite ?sub_exact; unfold GoInt.in_range; try lia;
    rewrite ?sub_exact; unfold GoInt.in_range; try lia;
    rewrite ?sub_exact; unfold GoInt.in_range; try lia.
Qed.

(** *** Pass D *)

(** The winner is the first of anthropic, bedrock, antigravity to attain
    the maximum. *)
Lemma pickWinner_first_max s :
  match fst (pickWinner s) with
  | Anthropic => bedrock s <= anthropic s /\ antigravity s <= anthropic s
  | Bedrock => anthropic s < bedrock s /\ antigravity s <= bedrock s
  | Antigravity => anthropic s < antigravity s /\ bedrock s < antigravity s
  end
  /\ snd (pickWinner s) = score s (fst (pickWinner s)).
Proof.
  unfold pickWinner. simpl.
  destruct (Z.ltb_spec (anthropic s) (bedrock s)); simpl;
    [destruct (Z.ltb_spec (bedrock s) (antigravity s))
    |destruct (Z.ltb_spec (anthropic s) (antigravity s))]; simpl; lia.
Qed.

Lemma pickWinner_anthropic s :
  fst (pickWinner s) = Anthropic <->
  bedrock s <= anthropic s /\ antigravity s <= anthropic s.
Proof.
  pose proof (pickWinner_first_max s) as [H _].
  destruct (fst (pickWinner s)); split; try discriminate; try reflexivity; lia.
Qed.

Lemma pickWinner_bedrock s :
  fst (pickWinner s) = Bedrock <->
  anthropic s < bedrock s /\ antigravity s <= bedrock s.
Proof.
  pose proof (pickWinner_first_max s) as [H _].
  destruct (fst (pickWinner s)); split; try discriminate; try reflexivity; lia.
Qed.

Lemma pickWinner_antigravity s :
  fst (pickWinner s) = Antigravity <->
  anthropic s < antigravity s /\ bedrock s < antigravity s.
Proof.
  pose proof (pickWinner_first_max s) as [H _].
  destruct (fst (pickWinner s)); split; try discriminate; try reflexivity; lia.
Qed.

(** The verdict of [analyze] for a list with a valid fingerprint, read
    off the verdict block. *)
Lemma analyze_verdict fps model :
  validFingerprints fps <> [] ->
  let f := findings (validFingerprints fps) in
  let s := scores (tally f) in
  DetectResult.Scores (analyze fps model) = s
  /\ DetectResult.Verdict (analyze fps model) =
     if totalScore s =? 0 then
       if (0 <? length (missingFlags f))%nat then "suspicious" else "unknown"
     else
       match fst (pickWinner s) with
       | Anthropic =>
           if (2 <=? length (missingFlags f))%nat then "suspicious" else "anthropic"
       | Bedrock => "bedrock"
       | Antigravity => "antigravity"
       end.
Proof.
  intros Hne f s. unfold analyze.
  destruct (validFingerprints fps) as [|fp v] eqn:Hv; [congruence|].
  fold f. fold s. split; [reflexivity|].
  cbn [DetectResult.Verdict]. unfold decide_verdict. fold s.
  destruct (totalScore s =? 0).
  - destruct (0 <? length (missingFlags f))%nat; reflexivity.
  - destruct (pickWinner s) as [winner maxScore]. cbn [fst].
    destruct winner; unfold markSuspicious; cbn [dSuspicious dVerdict];
      try reflexivity.
    destruct (2 <=? length (missingFlags f))%nat; reflexivity.
Qed.

Lemma analyze_scores_non_negative fps model :
  0 <= anthropic (DetectResult.Scores (analyze fps model))
  /\ 0 <= bedrock (DetectResult.Scores (analyze fps model))
  /\ 0 <= antigravity (DetectResult.Scores (analyze fps model)).
Proof.
  rewrite analyze_scores.
  destruct (validFingerprints fps) as [|fp v].
  - simpl. lia.
  - unfold findings. cbn [tally scores]. apply clamp_non_negative.
Qed.

Lemma attributionCorrection_ranged validFPs t :
  Z.of_nat (length validFPs) <= fingerprintLimit ->
  ranged 0 (37 * Z.of_nat (length validFPs)) (scores t) ->
  ranged (- 5 * Z.of_nat (length validFPs)) (42 * Z.of_nat (length validFPs))
         (scores (attributionCorrection validFPs t)).
Proof.
  intros Hlen Hr. pose proof (fingerprintLimit_room _ Hlen) as Hroom.
  pose proof (tooluseCount_bound validFPs) as Hc.
  assert (Hcase :
    (hasKiroModel validFPs = false /\ 0 < antigravity (scores t)
     /\ 0 < bedrock (scores t) /\ 4 <= antigravity (scores t))
    \/ ~ (hasKiroModel validFPs = false /\ 0 < antigravity (scores t)
          /\ 0 < bedrock (scores t) /\ 4 <= antigravity (scores t))).
  { destruct (hasKiroModel validFPs); [right; intros [? _]; discriminate|].
    destruct (Z.lt_ge_cases 0 (antigravity (scores t))); [|right; lia].
    destruct (Z.lt_ge_cases 0 (bedrock (scores t))); [|right; lia].
    destruct (Z.le_gt_cases 4 (antigravity (scores t))); [left; auto|right; lia]. }
  destruct Hcase as [(Hk & Hg & Hb & Hg4)|Hnot].
  - rewrite (attributionCorrection_transfers _ _ _ Hr) by (auto; lia).
    destruct Hr as (Ha' & Hb' & Hg'). unfold ranged. cbn. lia.
  - rewrite attributionCorrection_otherwise by exact Hnot.
    eapply ranged_weaken; [exact Hr|lia|lia].
Qed.

Lemma kiroRewriteNote_scores validFPs t :
  scores (kiroRewriteNote validFPs t) = scores t.
Proof.
  unfold kiroRewriteNote. destruct (hasKiroModel validFPs); [|reflexivity].
  destruct (0 <? msgUUIDCount validFPs); reflexivity.
Qed.

(** *** The transfer alone leaves every score non-negative *)

(** A step of the scoring loop never lowers the bedrock score. *)
Ltac step_floor :=
  intros (Ha & Hb & Hg) Hlo Hhi;
  repeat match goal with
         | |- context [if ?c then _ else _] => destruct c
         end;
  unfold credit, note; cbn [scores setScore score anthropic bedrock antigravity];
  try rewrite add_exact by (unfold GoInt.in_range; lia); lia.

Lemma toolIDSignal_floor lo hi tag fp t :
  ranged lo hi (scores t) -> GoInt.min_int <= lo -> hi + 5 <= GoInt.max_int ->
  bedrock (scores t) + (if String.eqb (ToolIDSource fp) "bedrock" then 5 else 0)
  <= bedrock (scores (toolIDSignal tag fp t)).
Proof.
  unfold toolIDSignal. intros (Ha & Hb & Hg) Hlo Hhi.
  destruct (String.eqb (ToolIDSource fp) "bedrock").
  - unfold credit; cbn [scores setScore score anthropic bedrock antigravity].
    rewrite add_exact by (unfold GoInt.in_range; lia). lia.
  - repeat match goal with
           | |- context [if ?c then _ else _] => destruct c
           end;
      unfold credit, note; cbn [scores setScore score anthropic bedrock antigravity]; lia.
Qed.

Lemma thinkingSignal_floor lo hi tag fp t :
  ranged lo hi (scores t) -> GoInt.min_int <= lo -> hi + 5 <= GoInt.max_int ->
  bedrock (scores t) <= bedrock (scores (thinkingSignal tag fp t)).
Proof. unfold thinkingSignal. step_floor. Qed.

Lemma msgIDSignal_floor lo hi tag fp t :
  ranged lo hi (scores t) -> GoInt.min_int <= lo -> hi + 6 <= GoInt.max_int ->
  bedrock (scores t) <= bedrock (scores (msgIDSignal tag fp t)).
Proof. unfold msgIDSignal. step_floor. Qed.

Lemma modelSignal_floor lo hi tag fp t :
  ranged lo hi (scores t) -> GoInt.min_int <= lo -> hi + 8 <= GoInt.max_int ->
  bedrock (scores t) <= bedrock (scores (modelSignal tag fp t)).
Proof. unfold modelSignal. step_floor. Qed.

Lemma serviceTierSignal_floor lo hi tag fp t :
  ranged lo hi (scores t) -> GoInt.min_int <= lo -> hi + 3 <= GoInt.max_int ->
  bedrock (scores t) <= bedrock (scores (serviceTierSignal tag fp t)).
Proof. unfold serviceTierSignal. step_floor. Qed.

Lemma inferenceGeoSignal_floor lo hi tag fp t :
  ranged lo hi (scores t) -> GoInt.min_int <= lo -> hi + 2 <= GoInt.max_int ->
  bedrock (scores t) <= bedrock (scores (inferenceGeoSignal tag fp t)).
Proof. unfold inferenceGeoSignal. step_floor. Qed.

Lemma cacheCreationSignal_floor lo hi tag fp t :
  ranged lo hi (scores t) -> GoInt.min_int <= lo -> hi + 1 <= GoInt.max_int ->
  bedrock (scores t) <= bedrock (scores (cacheCreationSignal tag fp t)).
Proof. unfold cacheCreationSignal. step_floor. Qed.

Lemma usageSignal_floor lo hi tag fp t :
  ranged lo hi (scores t) -> GoInt.min_int <= lo -> hi + 2 <= GoInt.max_int ->
  bedrock (scores t) <= bedrock (scores (usageSignal tag fp t)).
Proof. unfold usageSignal. step_floor. Qed.

Lemma awsHeaderSignal_floor lo hi tag fp t :
  ranged lo hi (scores t) -> GoInt.min_int <= lo -> hi + 3 <= GoInt.max_int ->
  bedrock (scores t) <= bedrock (scores (awsHeaderSignal tag fp t)).
Proof. unfold awsHeaderSignal. step_floor. Qed.

Lemma anthropicHeaderSignal_floor lo hi tag fp t :
  ranged lo hi (scores t) -> GoInt.min_int <= lo -> hi + 2 <= GoInt.max_int ->
  bedrock (scores t) <= bedrock (scores (anthropicHeaderSignal tag fp t)).
Proof. unfold anthropicHeaderSignal. step_floor. Qed.

(** One fingerprint whose tool id is tagged bedrock adds at least 5 to
    the bedrock score. *)
Lemma scoreFingerprint_floor lo hi i fp t :
  ranged lo hi (scores t) -> GoInt.min_int <= lo -> hi + 37 <= GoInt.max_int ->
  bedrock (scores t) + (if String.eqb (ToolIDSource fp) "bedrock" then 5 else 0)
  <= bedrock (scores (scoreFingerprint i fp t)).
Proof.
  intros Hr Hlo Hhi. unfold scoreFingerprint.
  set (tag := "[R" +:+ Strconv.Itoa (Z.of_nat i + 1) +:+ "]").
  assert (H5 : hi + 5 <= GoInt.max_int) by lia.
  pose proof (toolIDSignal_floor lo hi tag fp t Hr Hlo H5) as B1.
  pose proof (toolIDSignal_ranged lo hi tag fp t Hr Hlo H5) as R1.
  set (t1 := toolIDSignal tag fp t) in *.
  assert (H10 : hi + 5 + 5 <= GoInt.max_int) by lia.
  pose proof (thinkingSignal_floor lo _ tag fp t1 R1 Hlo H10) as B2.
  pose proof (thinkingSignal_ranged lo _ tag fp t1 R1 Hlo H10) as R2.
  set (t2 := thinkingSignal tag fp t1) in *.
  assert (H16 : hi + 5 + 5 + 6 <= GoInt.max_int) by lia.
  pose proof (msgIDSignal_floor lo _ tag fp t2 R2 Hlo H16) as B3.
  pose proof (msgIDSignal_ranged lo _ tag fp t2 R2 Hlo H16) as R3.
  set (t3 := msgIDSignal tag fp t2) in *.
  assert (H24 : hi + 5 + 5 + 6 + 8 <= GoInt.max_int) by lia.
  pose proof (modelSignal_floor lo _ tag fp t3 R3 Hlo H24) as B4.
  pose proof (modelSignal_ranged lo _ tag fp t3 R3 Hlo H24) as R4.
  set (t4 := modelSignal tag fp t3) in *.
  assert (H27 : hi + 5 + 5 + 6 + 8 + 3 <= GoInt.max_int) by lia.
  pose proof (serviceTierSignal_floor lo _ tag fp t4 R4 Hlo H27) as B5.
  pose proof (serviceTierSignal_ranged lo _ tag fp t4 R4 Hlo H27) as R5.
  set (t5 := serviceTierSignal tag fp t4) in *.
  assert (H29 : hi + 5 + 5 + 6 + 8 + 3 + 2 <= GoInt.max_int) by lia.
  pose proof (inferenceGeoSignal_floor lo _ tag fp t5 R5 Hlo H29) as B6.
  pose proof (inferenceGeoSignal_ranged lo _ tag fp t5 R5 Hlo H29) as R6.
  set (t6 := inferenceGeoSignal tag fp t5) in *.
  assert (H30 : hi + 5 + 5 + 6 + 8 + 3 + 2 + 1 <= GoInt.max_int) by lia.
  pose proof (cacheCreationSignal_floor lo _ tag fp t6 R6 Hlo H30) as B7.
  pose proof (cacheCreationSignal_ranged lo _ tag fp t6 R6 Hlo H30) as R7.
  set (t7 := cacheCreationSignal tag fp t6) in *.
  assert (H32 : hi + 5 + 5 + 6 + 8 + 3 + 2 + 1 + 2 <= GoInt.max_int) by lia.
  pose proof (usageSignal_floor lo _ tag fp t7 R7 Hlo H32) as B8.
  pose proof (usageSignal_ranged lo _ tag fp t7 R7 Hlo H32) as R8.
  set (t8 := usageSignal tag fp t7) in *.
  assert (H35 : hi + 5 + 5 + 6 + 8 + 3 + 2 + 1 + 2 + 3 <= GoInt.max_int) by lia.
  pose proof (awsHeaderSignal_floor lo _ tag fp t8 R8 Hlo H35) as B9.
  pose proof (awsHeaderSignal_ranged lo _ tag fp t8 R8 Hlo H35) as R9.
  set (t9 := awsHeaderSignal tag fp t8) in *.
  assert (H37 : hi + 5 + 5 + 6 + 8 + 3 + 2 + 1 + 2 + 3 + 2 <= GoInt.max_int) by lia.
  pose proof (anthropicHeaderSignal_floor lo _ tag fp t9 R9 Hlo H37) as B10.
  lia.
Qed.

Lemma scoreAll_floor lo validFPs : forall hi i t,
  ranged lo hi (scores t) -> GoInt.min_int <= lo ->
  hi + 37 * Z.of_nat (length validFPs) <= GoInt.max_int ->
  bedrock (scores t) + 5 * tooluseCount validFPs
  <= bedrock (scores (scoreAll i validFPs t)).
Proof.
  unfold tooluseCount.
  induction validFPs as [|fp rest IH]; intros hi i t Hr Hlo Hhi; simpl scoreAll.
  - simpl. lia.
  - rewrite length_cons, Nat2Z.inj_succ in Hhi.
    pose proof (scoreFingerprint_floor lo hi i fp t Hr Hlo ltac:(lia)) as Hstep.
    pose proof (scoreFingerprint_ranged lo hi i fp t Hr Hlo ltac:(lia)) as Hr'.
    specialize (IH (hi + 37) (S i) _ Hr' Hlo ltac:(lia)).
    simpl List.filter.
    destruct (String.eqb (ToolIDSource fp) "bedrock");
      rewrite ?length_cons, ?Nat2Z.inj_succ; lia.
Qed.

(** The first pass gives the bedrock score at least the points the second
    pass can take back. *)
Lemma afterScoring_floor validFPs :
  Z.of_nat (length validFPs) <= fingerprintLimit ->
  5 * tooluseCount validFPs <= bedrock (scores (afterScoring validFPs)).
Proof.
  intros Hlen. pose proof (fingerprintLimit_room _ Hlen).
  unfold afterScoring.
  match goal with
  | |- _ <= bedrock (scores (scoreAll 0 validFPs ?t)) =>
      pose proof (scoreAll_floor 0 validFPs 0 0%nat t) as Hfloor
  end.
  cbn [scores zeroScores bedrock] in Hfloor. apply Hfloor.
  - unfold ranged, zeroScores. simpl. lia.
  - unfold GoInt.min_int. lia.
  - lia.
Qed.

(** So the scores are still non-negative when the second pass ends: only
    the penalties of the third pass can take a score below zero. *)
Lemma afterCorrection_non_negative fps :
  Z.of_nat (length fps) <= fingerprintLimit ->
  let s := scores (afterCorrection (validFingerprints fps)) in
  0 <= anthropic s /\ 0 <= bedrock s /\ 0 <= antigravity s.
Proof.
  intros Hlen s. subst s.
  set (validFPs := validFingerprints fps).
  assert (Hv : Z.of_nat (length validFPs) <= fingerprintLimit).
  { pose proof (validFingerprints_length fps). unfold validFPs. lia. }
  pose proof (fingerprintLimit_room _ Hv) as Hroom.
  pose proof (afterScoring_ranged validFPs Hv) as Hr.
  pose proof (afterScoring_floor validFPs Hv) as Hfloor.
  pose proof (tooluseCount_bound validFPs) as Hc.
  unfold afterCorrection. rewrite kiroRewriteNote_scores.
  set (t := afterScoring validFPs) in *.
  assert (Hcase :
    (hasKiroModel validFPs = false /\ 0 < antigravity (scores t)
     /\ 0 < bedrock (scores t) /\ 4 <= antigravity (scores t))
    \/ ~ (hasKiroModel validFPs = false /\ 0 < antigravity (scores t)
          /\ 0 < bedrock (scores t) /\ 4 <= antigravity (scores t))).
  { destruct (hasKiroModel validFPs); [right; intros [? _]; discriminate|].
    destruct (Z.lt_ge_cases 0 (antigravity (scores t))); [|right; lia].
    destruct (Z.lt_ge_cases 0 (bedrock (scores t))); [|right; lia].
    destruct (Z.le_gt_cases 4 (antigravity (scores t))); [left; auto|right; lia]. }
  destruct Hcase as [(Hk & Hg & Hb & Hg4)|Hnot].
  - rewrite (attributionCorrection_transfers _ _ _ Hr) by (auto; lia).
    destruct Hr as (Ha' & Hb' & Hg'). cbn. lia.
  - rewrite attributionCorrection_otherwise by exact Hnot.
    destruct Hr as (Ha' & Hb' & Hg'). lia.
Qed.

Lemma clamp_ranged lo hi s : ranged lo hi s -> 0 <= hi -> ranged 0 hi (clamp s).
Proof.
  unfold ranged, clamp. cbn. intros (Ha & Hb & Hg) Hhi.
  destruct (Z.ltb_spec (anthropic s) 0), (Z.ltb_spec (bedrock s) 0),
    (Z.ltb_spec (antigravity s) 0); lia.
Qed.

(** Below the limit the final scores are at most 42 per valid
    fingerprint, so their sum is computed without wrap-around. *)
Lemma findings_ranged validFPs :
  Z.of_nat (length validFPs) <= fingerprintLimit ->
  ranged 0 (42 * Z.of_nat (length validFPs)) (scores (tally (findings validFPs))).
Proof.
  intros Hlen. pose proof (fingerprintLimit_room _ Hlen) as Hroom.
  unfold findings. cbn [tally scores]. unfold beforeClamp, afterCorrection.
  eapply clamp_ranged; [|lia].
  apply negativeEvidence_ranged; rewrite ?kiroRewriteNote_scores.
  - apply attributionCorrection_ranged; [exact Hlen|].
    apply afterScoring_ranged. exact Hlen.
  - unfold GoInt.min_int, GoInt.max_int, fingerprintLimit in *. lia.
  - lia.
  - lia.
Qed.

Lemma totalScore_exact hi s :
  ranged 0 hi s -> 3 * hi <= GoInt.max_int ->
  totalScore s = anthropic s + bedrock s + antigravity s.
Proof.
  intros (Ha & Hb & Hg) Hhi. unfold totalScore.
  rewrite (add_exact (anthropic s)) by (unfold GoInt.in_range, GoInt.min_int; lia).
  rewrite add_exact by (unfold GoInt.in_range, GoInt.min_int; lia).
  reflexivity.
Qed.

Lemma analyze_total fps model :
  Z.of_nat (length fps) <= fingerprintLimit ->
  validFingerprints fps <> [] ->
  let s := DetectResult.Scores (analyze fps model) in
  totalScore s = anthropic s + bedrock s + antigravity s
  /\ 0 <= anthropic s /\ 0 <= bedrock s /\ 0 <= antigravity s.
Proof.
  intros Hlen Hne s.
  pose proof (validFingerprints_length fps) as Hv.
  assert (Hlim : Z.of_nat (length (validFingerprints fps)) <= fingerprintLimit) by lia.
  pose proof (findings_ranged _ Hlim) as Hr.
  pose proof (fingerprintLimit_room _ Hlim) as Hroom.
  destruct (analyze_verdict fps model Hne) as [Hs _]. fold s in Hs.
  rewrite <- Hs in Hr. split.
  - eapply totalScore_exact; [exact Hr|lia].
  - destruct Hr as (Ha & Hb & Hg). lia.
Qed.

(** C4. In the verdict pass of [analyze] the winner is the first of
    anthropic, bedrock, antigravity to attain the maximum score: anthropic
    wins unless a later bucket is strictly greater, bedrock wins over
    antigravity on a tie.  In particular, when bedrock equals antigravity
    and both exceed anthropic, the verdict is bedrock.  (An anthropic
    winner is reported as suspicious when two flags are missing.) *)
Theorem verdict_tie_break fps model :
  Z.of_nat (length fps) <= fingerprintLimit ->
  let r := analyze fps model in
  let s := DetectResult.Scores r in
  (0 < anthropic s + bedrock s + antigravity s ->
     (bedrock s <= anthropic s /\ antigravity s <= anthropic s ->
        DetectResult.Verdict r = "anthropic" \/ DetectResult.Verdict r = "suspicious")
     /\ (anthropic s < bedrock s /\ antigravity s <= bedrock s ->
           DetectResult.Verdict r = "bedrock")
     /\ (anthropic s < antigravity s /\ bedrock s < antigravity s ->
           DetectResult.Verdict r = "antigravity"))
  /\ (bedrock s = antigravity s -> anthropic s < bedrock s ->
        DetectResult.Verdict r = "bedrock").
Proof.
  intros Hlen r s.
  assert (Hpos : 0 < anthropic s + bedrock s + antigravity s ->
     (bedrock s <= anthropic s /\ antigravity s <= anthropic s ->
        DetectResult.Verdict r = "anthropic" \/ DetectResult.Verdict r = "suspicious")
     /\ (anthropic s < bedrock s /\ antigravity s <= bedrock s ->
           DetectResult.Verdict r = "bedrock")
     /\ (anthropic s < antigravity s /\ bedrock s < antigravity s ->
           DetectResult.Verdict r = "antigravity")).
  { intros Htotal.
    destruct (validFingerprints fps) as [|fp v] eqn:Hv.
    { exfalso. unfold s, r in Htotal. rewrite analyze_scores, Hv in Htotal.
      simpl in Htotal. lia. }
    assert (Hne : validFingerprints fps <> []) by congruence.
    destruct (analyze_total fps model Hlen Hne) as (Hsum & _).
    destruct (analyze_verdict fps model Hne) as [Hs Hverdict].
    fold r in Hverdict, Hs, Hsum. fold s in Hsum.
    rewrite <- Hs in Hverdict. fold s in Hverdict.
    destruct (Z.eqb_spec (totalScore s) 0) as [H0|_]; [lia|].
    pose proof (pickWinner_first_max s) as [Hw _].
    destruct (fst (pickWinner s)); rewrite Hverdict.
    - repeat split; intros; try lia.
      destruct (2 <=? length _)%nat; auto.
    - repeat split; intros; try lia; reflexivity.
    - repeat split; intros; try lia; reflexivity. }
  split; [exact Hpos|].
  intros Heq Hlt.
  assert (Hnn : 0 <= anthropic s).
  { unfold s, r. apply analyze_scores_non_negative. }
  apply Hpos; lia.
Qed.

(** When a flag was raised the final scores are those of a tally with
    nothing but a non-negative anthropic score, which is then the total. *)
Lemma findings_raised validFPs :
  missingFlags (findings validFPs) <> [] ->
  let s := scores (tally (findings validFPs)) in
  bedrock s = 0 /\ antigravity s = 0 /\ totalScore s = anthropic s /\ 0 <= anthropic s.
Proof.
  unfold findings. cbn [missingFlags tally scores]. unfold beforeClamp.
  intros Hraised.
  destruct (negativeEvidence_raised _ _ Hraised) as (Hb & Hg & Hrange).
  destruct (negativeEvidence_others validFPs (afterCorrection validFPs)) as [Hb' Hg'].
  set (raw := scores (tally (negativeEvidence validFPs (afterCorrection validFPs)))) in *.
  assert (Hbz : bedrock (clamp raw) = 0) by (unfold clamp; cbn; rewrite Hb', Hb; reflexivity).
  assert (Hgz : antigravity (clamp raw) = 0) by (unfold clamp; cbn; rewrite Hg', Hg; reflexivity).
  assert (Ha : 0 <= anthropic (clamp raw) <= GoInt.max_int).
  { unfold clamp; cbn. unfold GoInt.in_range, GoInt.max_int in *.
    destruct (Z.ltb_spec (anthropic raw) 0); lia. }
  repeat split; try assumption; try lia.
  unfold totalScore, GoInt.add. rewrite Hbz, Hgz, !Z.add_0_r.
  rewrite (wrap_id (anthropic (clamp raw))) by (unfold GoInt.in_range, GoInt.min_int; lia).
  apply wrap_id. unfold GoInt.in_range, GoInt.min_int; lia.
Qed.

(** C2. For a fingerprint list with at least one error-free fingerprint,
    the verdict of [analyze] is "suspicious" exactly when the total of the
    final scores is 0 and at least one missing flag was raised, or the
    total is positive, anthropic is the max-scoring bucket and at least
    two missing flags were raised; the flags raised are among
    inference_geo, cache_creation_obj and thinking_signature. *)
Theorem suspicious_iff fps model :
  Exists (fun fp => Error fp = "") fps ->
  let r := analyze fps model in
  let s := DetectResult.Scores r in
  let raised := missingFlags (findings (validFingerprints fps)) in
  (forall flag, In flag raised ->
     flag = "inference_geo" \/ flag = "cache_creation_obj" \/ flag = "thinking_signature")
  /\ (DetectResult.Verdict r = "suspicious" <->
      (totalScore s = 0 /\ (1 <= length raised)%nat)
      \/ (0 < totalScore s
          /\ bedrock s <= anthropic s /\ antigravity s <= anthropic s
          /\ (2 <= length raised)%nat)).
Proof.
  intros Hvalid r s raised.
  apply validFingerprints_nonempty in Hvalid as Hne.
  split.
  { intros flag. unfold raised, findings. cbn [missingFlags].
    apply negativeEvidence_flags. }
  destruct (analyze_verdict fps model Hne) as [Hs Hverdict].
  fold r in Hs, Hverdict. rewrite <- Hs in Hverdict. fold s raised in Hverdict.
  rewrite Hverdict.
  destruct (Z.eqb_spec (totalScore s) 0) as [H0|Hn0].
  - destruct (Nat.ltb_spec 0 (length raised)); split; try discriminate.
    + intros _. left. split; [exact H0|lia].
    + reflexivity.
    + intros [[_ Hr]|[Ht _]]; lia.
  - pose proof (pickWinner_first_max s) as [Hw _].
    destruct (fst (pickWinner s)).
    + destruct (Nat.leb_spec 2 (length raised)) as [H2|H2]; split; try discriminate.
      * intros _. right.
        assert (Hraised : raised <> []) by (destruct raised; [simpl in H2; lia|discriminate]).
        pose proof (findings_raised _ Hraised) as (_ & _ & Htot & Hnn).
        assert (Htot' : totalScore s = anthropic s) by (unfold s; rewrite Hs; exact Htot).
        assert (Hnn' : 0 <= anthropic s) by (unfold s; rewrite Hs; exact Hnn).
        repeat split; lia.
      * reflexivity.
      * intros [[Ht _]|(_ & _ & _ & Hr)]; [congruence|lia].
    + split; [discriminate|]. intros [[Ht _]|(_ & Hb & Hg & _)]; [congruence|lia].
    + split; [discriminate|]. intros [[Ht _]|(_ & Hb & Hg & _)]; [congruence|lia].
Qed.

(** *** The statements at sample inputs *)

Lemma suspicious_iff_witness :
  DetectResult.Verdict (analyze disguisedAnthropic "claude-sonnet-4-5-20250929") = "suspicious".
Proof.
  destruct (suspicious_iff disguisedAnthropic "claude-sonnet-4-5-20250929") as [_ [_ Hback]].
  - apply Exists_cons_hd. reflexivity.
  - apply Hback. right.
    assert (Hs : DetectResult.Scores (analyze disguisedAnthropic "claude-sonnet-4-5-20250929")
                 = {| anthropic := 7; bedrock := 0; antigravity := 0 |})
      by (vm_compute; reflexivity).
    assert (Hm : missingFlags (findings (validFingerprints disguisedAnthropic))
                 = ["inference_geo"; "cache_creation_obj"; "thinking_signature"])
      by (vm_compute; reflexivity).
    rewrite Hs, Hm. cbn [anthropic bedrock antigravity length].
    split; [vm_compute; reflexivity|].
    split; [lia|]. split; lia.
Defined.

Lemma verdict_tie_break_witness :
  DetectResult.Scores (analyze tiedRelay "claude-sonnet-4-5-20250929")
  = {| anthropic := 0; bedrock := 11; antigravity := 11 |}
  /\ DetectResult.Verdict (analyze tiedRelay "claude-sonnet-4-5-20250929") = "bedrock".
Proof.
  split; [reflexivity|].
  destruct (verdict_tie_break tiedRelay "claude-sonnet-4-5-20250929") as [_ Htie].
  - vm_compute. discriminate.
  - apply Htie; reflexivity.
Defined.

Lemma attribution_correction_transfer_witness :
  tooluseCount (validFingerprints vertexBehindTooluse) = 2
  /\ scores (afterScoring (validFingerprints vertexBehindTooluse))
     = {| anthropic := 0; bedrock := 10; antigravity := 6 |}
  /\ bedrock (scores (attributionCorrection (validFingerprints vertexBehindTooluse)
                        (afterScoring (validFingerprints vertexBehindTooluse))))
     = bedrock (scores (afterScoring (validFingerprints vertexBehindTooluse)))
       - 5 * tooluseCount (validFingerprints vertexBehindTooluse)
  /\ antigravity (scores (attributionCorrection (validFingerprints vertexBehindTooluse)
                            (afterScoring (validFingerprints vertexBehindTooluse))))
     = antigravity (scores (afterScoring (validFingerprints vertexBehindTooluse)))
       + 5 * tooluseCount (validFingerprints vertexBehindTooluse).
Proof.
  split; [reflexivity|]. split; [reflexivity|].
  destruct (attribution_correction_transfer vertexBehindTooluse) as [Happlies _].
  - vm_compute. discriminate.
  - destruct Happlies as (Hb & Hg & _).
    + split; [repeat constructor; discriminate|]. vm_compute. repeat split; discriminate.
    + split; [exact Hb|exact Hg].
Defined.

(** ** ResponseParser: the thinking signature *)

(** The block loop keeps the class and length of the last thinking block
    and leaves both untouched when there is none. *)
Lemma scanBlock_thinking st block :
  bThinkingSigClass (scanBlock st block) =
    match thinkingSignature block with
    | Some sig => classifyThinkingSig sig
    | None => bThinkingSigClass st
    end
  /\ bThinkingSigLen (scanBlock st block) =
    match thinkingSignature block with
    | Some sig => Strings.len sig
    | None => bThinkingSigLen st
    end.
Proof.
  unfold scanBlock, thinkingSignature.
  destruct block as [| | | | |bm]; try (split; reflexivity).
  destruct (isString (field "type" bm) "tool_use"),
    (isString (field "type" bm) "thinking"); split; reflexivity.
Qed.

Lemma scanBlocks_thinking content : forall st,
  let sigs := omap thinkingSignature content in
  bThinkingSigClass (fold_left scanBlock content st) =
    match last sigs with
    | Some sig => classifyThinkingSig sig
    | None => bThinkingSigClass st
    end
  /\ bThinkingSigLen (fold_left scanBlock content st) =
    match last sigs with
    | Some sig => Strings.len sig
    | None => bThinkingSigLen st
    end.
Proof.
  induction content as [|block rest IH]; intros st; [split; reflexivity|].
  cbn [fold_left omap list_omap]. cbn zeta in *.
  destruct (IH (scanBlock st block)) as [Hc Hl]. rewrite Hc, Hl.
  destruct (scanBlock_thinking st block) as [Hc1 Hl1]. rewrite Hc1, Hl1.
  destruct (thinkingSignature block) as [sig|]; [|split; reflexivity].
  rewrite last_cons.
  destruct (last (omap thinkingSignature rest)); split; reflexivity.
Qed.

Lemma scanContent_thinking body :
  bThinkingSigClass (scanContent body) =
    match last (thinkingSignatures body) with
    | Some sig => classifyThinkingSig sig
    | None => ""
    end
  /\ bThinkingSigLen (scanContent body) =
    match last (thinkingSignatures body) with
    | Some sig => Strings.len sig
    | None => 0
    end.
Proof.
  unfold scanContent, thinkingSignatures.
  destruct (field "content" body) as [[| | | |content|]|]; try (split; reflexivity).
  apply (scanBlocks_thinking content noBlockFields).
Qed.

(** The two fields of the fingerprint of a response that parses. *)
Lemma probeOnce_thinking Unmarshal SprintV latency resp model probeType body :
  StatusCode resp = 200 -> BodyReadFails resp = false ->
  Unmarshal (BodyBytes resp) = Some body ->
  let fp := probeOnce Unmarshal SprintV (Responded latency resp) model probeType in
  ThinkingSigClass fp = bThinkingSigClass (scanContent body)
  /\ ThinkingSigLen fp = bThinkingSigLen (scanContent body)
  /\ Error fp = "".
Proof.
  intros Hstatus Hread Hbody. unfold probeOnce.
  rewrite Hstatus, Hread, Hbody. simpl negb. cbv iota.
  destruct (detectProxyPlatform (RespHeader resp)) as [platform clues].
  destruct (ratelimitHeaders (RespHeader resp)) as [[limit remaining] reset].
  repeat split.
Qed.

Lemma classifyThinkingSig_cases sig :
  (sig = "" -> classifyThinkingSig sig = "none")
  /\ (sig <> "" -> Strings.len sig < 100 -> classifyThinkingSig sig = "short")
  /\ (100 <= Strings.len sig -> Strings.HasPrefix sig "claude#" = true ->
        classifyThinkingSig sig = "vertex")
  /\ (100 <= Strings.len sig -> Strings.HasPrefix sig "claude#" = false ->
        classifyThinkingSig sig = "normal").
Proof.
  unfold classifyThinkingSig, thinkingSigShortThreshold.
  destruct (String.eqb_spec sig "") as [->|Hne].
  - repeat split; intros; try reflexivity; try congruence;
      unfold Strings.len in *; simpl in *; lia.
  - destruct (Z.ltb_spec (Strings.len sig) 100).
    + repeat split; intros; try reflexivity; try congruence; lia.
    + destruct (Strings.HasPrefix sig "claude#");
        repeat split; intros; try reflexivity; try congruence; lia.
Qed.

(** C8, as the code has it.  For a response that parses and has at least
    one thinking block, the class is decided by the signature of the last
    thinking block: none when it is empty, short when its length is below
    100 (whatever its prefix), vertex when it has 100 bytes or more and
    begins with claude#, normal otherwise; the recorded length is the
    length of that signature. *)
Theorem thinking_sig_class_of_response
    (Unmarshal : string -> option (list (string * JSON))) (SprintV : JSON -> string)
    (latency : Z) (resp : Response) (model probeType : string)
    (body : list (string * JSON)) (sig : string) :
  StatusCode resp = 200 -> BodyReadFails resp = false ->
  Unmarshal (BodyBytes resp) = Some body ->
  last (thinkingSignatures body) = Some sig ->
  let fp := probeOnce Unmarshal SprintV (Responded latency resp) model probeType in
  ThinkingSigLen fp = Strings.len sig
  /\ (sig = "" -> ThinkingSigClass fp = "none")
  /\ (sig <> "" -> Strings.len sig < 100 -> ThinkingSigClass fp = "short")
  /\ (100 <= Strings.len sig -> Strings.HasPrefix sig "claude#" = true ->
        ThinkingSigClass fp = "vertex")
  /\ (100 <= Strings.len sig -> Strings.HasPrefix sig "claude#" = false ->
        ThinkingSigClass fp = "normal").
Proof.
  intros Hstatus Hread Hbody Hlast fp.
  destruct (probeOnce_thinking Unmarshal SprintV latency resp model probeType body
              Hstatus Hread Hbody) as (Hc & Hl & _).
  fold fp in Hc, Hl.
  destruct (scanContent_thinking body) as [Hc' Hl']. rewrite Hlast in Hc', Hl'.
  rewrite Hc, Hl, Hc', Hl'. split; [reflexivity|].
  apply classifyThinkingSig_cases.
Qed.

Lemma thinking_sig_class_of_response_witness :
  ThinkingSigClass shortVertexProbe = "short".
Proof.
  destruct (thinking_sig_class_of_response
              (fun _ => Some shortVertexBody) sprintSample 910 plainResponse
              "claude-sonnet-4-5-20250929" "thinking" shortVertexBody
              "claude#dGhpbmtpbmc" eq_refl eq_refl eq_refl eq_refl)
    as (_ & _ & Hshort & _).
  apply Hshort; [discriminate|reflexivity].
Defined.

(** C8 as stated fails: a signature that begins with claude# and is
    shorter than 100 bytes is classified short, not vertex. *)
Lemma thinking_sig_class_counterexample :
  thinkingSignatures shortVertexBody = ["claude#dGhpbmtpbmc"]
  /\ Strings.HasPrefix "claude#dGhpbmtpbmc" "claude#" = true
  /\ ThinkingSigClass shortVertexProbe = "short"
  /\ ThinkingSigClass shortVertexProbe <> "vertex".
Proof. repeat split. discriminate. Qed.

(** With no thinking block the parser leaves the class unset. *)
Lemma thinking_sig_class_unset :
  thinkingSignatures textOnlyBody = []
  /\ ThinkingSigClass
       (probeOnce (fun _ => Some textOnlyBody) sprintSample
                  (Responded 300 plainResponse) "claude-sonnet-4-5-20250929" "tool")
     = "".
Proof. split; reflexivity. Qed.

(** ** RatelimitVerifier *)

Section Samples.

Variable Unmarshal : string -> option (list (string * JSON)).
Variable SprintV : JSON -> string.
Variable respond : nat -> Exchange.
Variable deadlinePassed : nat -> bool.

(** The fingerprints of the probes the sample loop issues. *)
Let shots (model : string) (p : Progress) (n : nat) : list Fingerprint :=
  map (fun i => probeOnce Unmarshal SprintV (respond i) model "simple")
      (seq (issued p) (looksBeforeExpiry deadlinePassed (polled p) n)).

Lemma collectSamples_samples n model : forall samples p,
  fst (collectSamples Unmarshal SprintV respond deadlinePassed n model samples p)
  = samples ++ omap sampleOf (shots model p n).
Proof.
  unfold shots.
  induction n as [|n IH]; intros samples p; cbn [collectSamples looksBeforeExpiry].
  - simpl. rewrite app_nil_r. reflexivity.
  - unfold ctxErr, probe. cbn [polled issued].
    destruct (deadlinePassed (polled p)).
    + simpl. rewrite app_nil_r. reflexivity.
    + rewrite IH. cbn [issued polled seq map omap list_omap].
      unfold sampleOf at 2.
      destruct (String.eqb _ "" && (0 <? _)); [|reflexivity].
      rewrite <- app_assoc. reflexivity.
Qed.

End Samples.

Lemma Atoi_in_range s n : Strconv.Atoi s = Some n -> GoInt.in_range n.
Proof.
  unfold Strconv.Atoi.
  destruct (match s with
            | String "-"%char r => (true, r)
            | String "+"%char r => (false, r)
            | _ => (false, s)
            end) as [neg digits].
  destruct digits; [discriminate|].
  destruct (Strconv.parseDigits _ 0) as [v|]; [|discriminate].
  destruct (_ <=? _) eqn:Hlo; [|discriminate].
  destruct (_ <=? GoInt.max_int) eqn:Hhi; [|discriminate].
  simpl. intros [= <-]. apply Z.leb_le in Hlo, Hhi. split; assumption.
Qed.

Lemma ratelimitHeaders_in_range headers :
  GoInt.in_range (snd (fst (ratelimitHeaders headers))).
Proof.
  unfold ratelimitHeaders.
  assert (H0 : GoInt.in_range (snd (fst (0, 0, "")))).
  { simpl. unfold GoInt.in_range, GoInt.min_int, GoInt.max_int. lia. }
  revert H0. generalize (0, 0, ""). 
  induction headers as [|[k vals] rest IH]; intros acc Hacc; [exact Hacc|].
  cbn [fold_left]. apply IH.
  destruct acc as [[limit remaining] reset]. cbn [fst snd] in *.
  destruct vals as [|v0 vs]; [exact Hacc|].
  repeat match goal with
         | |- context [if ?c then _ else _] => destruct c
         | |- context [match Strconv.Atoi ?v with _ => _ end] =>
             destruct (Strconv.Atoi v) eqn:?
         end; cbn [fst snd]; try exact Hacc.
  eapply Atoi_in_range; eassumption.
Qed.

Lemma probeOnce_remaining_in_range Unmarshal SprintV x model probeType :
  GoInt.in_range (RatelimitInputRemaining (probeOnce Unmarshal SprintV x model probeType)).
Proof.
  assert (H0 : GoInt.in_range 0)
    by (unfold GoInt.in_range, GoInt.min_int, GoInt.max_int; lia).
  unfold probeOnce. destruct x as [| |expired|latency resp]; try exact H0.
  destruct (negb (StatusCode resp =? 200)); [exact H0|].
  pose proof (ratelimitHeaders_in_range (RespHeader resp)) as Hr.
  destruct (detectProxyPlatform (RespHeader resp)) as [platform clues].
  destruct (ratelimitHeaders (RespHeader resp)) as [[limit remaining] reset].
  cbn [fst snd] in Hr.
  destruct (BodyReadFails resp); [exact Hr|].
  destruct (Unmarshal (BodyBytes resp)); exact Hr.
Qed.

Lemma sampleOf_positive fp s :
  sampleOf fp = Some s -> Remaining s = RatelimitInputRemaining fp /\ 0 < Remaining s.
Proof.
  unfold sampleOf. destruct (String.eqb (Error fp) ""); [|discriminate]. simpl.
  destruct (Z.ltb_spec 0 (RatelimitInputRemaining fp)); [|discriminate].
  intros [= <-]. simpl. auto.
Qed.

(** *** The decision *)

Lemma firstRemaining_head samples :
  firstRemaining samples = default 0 (head (map Remaining samples)).
Proof. destruct samples; reflexivity. Qed.

Lemma last_map_Remaining samples :
  last (map Remaining samples) = Remaining <$> last samples.
Proof.
  induction samples as [|a [|b rest] IH]; try reflexivity.
  change (map Remaining (a :: b :: rest)) with (Remaining a :: map Remaining (b :: rest)).
  rewrite !last_cons_cons. exact IH.
Qed.

Lemma lastRemaining_last samples :
  lastRemaining samples = default 0 (last (map Remaining samples)).
Proof.
  unfold lastRemaining. rewrite last_map_Remaining.
  destruct (last samples); reflexivity.
Qed.

Lemma allSame_allEqual samples :
  allSame samples = true <-> allEqual (map Remaining samples).
Proof.
  unfold allSame, allEqual. destruct samples as [|s0 rest]; simpl.
  - split; [intros _ a b []|reflexivity].
  - rewrite forallb_forall. split.
    + intros Hall a b Ha Hb.
      assert (Heq : forall x, Remaining s0 = x \/ In x (map Remaining rest) ->
                               x = Remaining s0).
      { intros x [<-|Hx]; [reflexivity|].
        apply in_map_iff in Hx as (s & <- & Hs). apply Z.eqb_eq, Hall, Hs. }
      rewrite (Heq a Ha), (Heq b Hb). reflexivity.
    + intros Hall s Hs. apply Z.eqb_eq. apply Hall; [right|left; reflexivity].
      apply in_map. exact Hs.
Qed.

Lemma monotoneDec_nonIncreasing samples :
  monotoneDec samples = true <-> nonIncreasing (map Remaining samples).
Proof.
  unfold nonIncreasing.
  induction samples as [|a [|b rest] IH].
  - split; [intros _ i x y H; discriminate|reflexivity].
  - split; [intros _ [|i] x y H1 H2; discriminate|reflexivity].
  - change (monotoneDec (a :: b :: rest))
      with (if Remaining a <? Remaining b then false else monotoneDec (b :: rest)).
    change (map Remaining (a :: b :: rest))
      with (Remaining a :: map Remaining (b :: rest)).
    destruct (Z.ltb_spec (Remaining a) (Remaining b)) as [Hlt|Hge].
    + split; [discriminate|]. intros H.
      specialize (H 0%nat (Remaining a) (Remaining b) eq_refl eq_refl). lia.
    + rewrite IH. split.
      * intros H [|i] x y Hx Hy.
        -- simpl in Hx, Hy. congruence.
        -- exact (H i x y Hx Hy).
      * intros H i x y Hx Hy. exact (H (S i) x y Hx Hy).
Qed.

(** What [ratelimitDecision] returns, for samples whose counters are
    positive values of type [int]. *)
Lemma ratelimitDecision_cases samples :
  Forall (fun s => 0 < Remaining s <= GoInt.max_int) samples ->
  let v := ratelimitDecision samples in
  let rs := map Remaining samples in
  rlSamples v = samples
  /\ ((length rs < 2)%nat -> rlVerdict v = "unavailable")
  /\ ((2 <= length rs)%nat ->
      (rlVerdict v = "static" <-> allEqual rs)
      /\ (nonIncreasing rs -> 0 < totalDrop rs ->
            rlVerdict v = "dynamic"
            /\ Strings.Contains (rlDetail v) "单调递减" = true)
      /\ (~ allEqual rs -> ~ (nonIncreasing rs /\ 0 < totalDrop rs) ->
            rlVerdict v = "dynamic"
            /\ Strings.Contains (rlDetail v) "非单调" = true)).
Proof.
  intros Hpos v rs.
  assert (Hdrop : GoInt.sub (firstRemaining samples) (lastRemaining samples) = totalDrop rs).
  { unfold totalDrop, rs. rewrite <- firstRemaining_head, <- lastRemaining_last.
    apply sub_exact.
    assert (Hf : 0 <= firstRemaining samples <= GoInt.max_int).
    { destruct Hpos as [|s rest Hs _]; simpl; [unfold GoInt.max_int|]; lia. }
    assert (Hl : 0 <= lastRemaining samples <= GoInt.max_int).
    { unfold lastRemaining. destruct (last samples) as [s|] eqn:Hlast.
      - apply last_Some_elem_of in Hlast. rewrite Forall_forall in Hpos.
        specialize (Hpos s Hlast). simpl in Hpos. lia.
      - unfold GoInt.max_int. lia. }
    unfold GoInt.in_range, GoInt.min_int, GoInt.max_int in *. lia. }
  pose proof (allSame_allEqual samples) as Hsame.
  pose proof (monotoneDec_nonIncreasing samples) as Hmono.
  fold rs in Hsame, Hmono.
  unfold v, ratelimitDecision. rewrite Hdrop.
  assert (Hlen : length rs = length samples) by (unfold rs; apply length_map).
  rewrite Hlen.
  destruct (Nat.ltb_spec (length samples) 2) as [Hshort|Hlong].
  - cbn [rlSamples rlVerdict]. repeat split; try reflexivity; intros; lia.
  - destruct (allSame samples) eqn:Hs.
    + cbn [rlSamples rlVerdict rlDetail].
      assert (Heq : allEqual rs) by (apply Hsame; reflexivity).
      split; [reflexivity|]. split; [intros; lia|]. intros _.
      split; [split; auto|]. split.
      * intros Hni Hd. exfalso.
        unfold totalDrop in Hd.
        destruct rs as [|r0 rest] eqn:Hrs; [simpl in Hd; lia|].
        assert (Hin : In (default 0 (last (r0 :: rest))) (r0 :: rest)).
        { destruct (last (r0 :: rest)) as [l|] eqn:Hl.
          - apply last_Some_elem_of, list_elem_of_In in Hl. exact Hl.
          - apply last_None in Hl. discriminate. }
        pose proof (Heq r0 _ (or_introl eq_refl) Hin). simpl in Hd. lia.
      * intros Hne. contradiction.
    + assert (Hneq : ~ allEqual rs).
      { intros H. apply Hsame in H. congruence. }
      destruct (monotoneDec samples) eqn:Hm.
      * assert (Hni : nonIncreasing rs) by (apply Hmono; reflexivity).
        destruct (Z.ltb_spec 0 (totalDrop rs)) as [Hd|Hd];
          cbn [andb rlSamples rlVerdict rlDetail].
        -- split; [reflexivity|]. split; [intros; lia|]. intros _.
           split; [split; [discriminate|contradiction]|]. split.
           ++ intros _ _. split; reflexivity.
           ++ intros _ Hnot. exfalso. apply Hnot. auto.
        -- split; [reflexivity|]. split; [intros; lia|]. intros _.
           split; [split; [discriminate|contradiction]|]. split.
           ++ intros _ Hd'. lia.
           ++ intros _ _. split; reflexivity.
      * assert (Hni : ~ nonIncreasing rs).
        { intros H. apply Hmono in H. congruence. }
        cbn [andb rlSamples rlVerdict rlDetail].
        split; [reflexivity|]. split; [intros; lia|]. intros _.
        split; [split; [discriminate|contradiction]|]. split.
        -- intros H. contradiction.
        -- intros _ _. split; reflexivity.
Qed.

(** C7, as the code has it.  [verifyRatelimitDynamic] issues a probe for
    each of its shots until the context is done, and records one sample
    for each probe that returned without error and with a positive
    remaining count.  Its verdict is unavailable with fewer than 2
    samples; with 2 or more it is static exactly when all remaining values
    are equal, dynamic with the monotone detail when the values never
    increase and the total drop is positive, and dynamic with the
    non-monotone detail in every other case. *)
Theorem ratelimit_verification
    (Unmarshal : string -> option (list (string * JSON))) (SprintV : JSON -> string)
    (respond : nat -> Exchange) (deadlinePassed : nat -> bool)
    (model : string) (shots : Z) (p : Progress) :
  let v := fst (verifyRatelimitDynamic Unmarshal SprintV respond deadlinePassed
                                       model shots p) in
  let n := Z.to_nat (if shots <=? 0 then 4 else shots) in
  let probes :=
    map (fun i => probeOnce Unmarshal SprintV (respond i) model "simple")
        (seq (issued p) (looksBeforeExpiry deadlinePassed (polled p) n)) in
  let rs := map Remaining (rlSamples v) in
  rlSamples v = omap sampleOf probes
  /\ ((length rs < 2)%nat -> rlVerdict v = "unavailable")
  /\ ((2 <= length rs)%nat ->
      (rlVerdict v = "static" <-> allEqual rs)
      /\ (nonIncreasing rs -> 0 < totalDrop rs ->
            rlVerdict v = "dynamic"
            /\ Strings.Contains (rlDetail v) "单调递减" = true)
      /\ (~ allEqual rs -> ~ (nonIncreasing rs /\ 0 < totalDrop rs) ->
            rlVerdict v = "dynamic"
            /\ Strings.Contains (rlDetail v) "非单调" = true)).
Proof.
  intros v n probes rs.
  assert (Hv : v = ratelimitDecision (omap sampleOf probes)).
  { pose proof (collectSamples_samples Unmarshal SprintV respond deadlinePassed
                  n model [] p) as Hsamples.
    fold probes in Hsamples. rewrite app_nil_l in Hsamples.
    unfold v, verifyRatelimitDynamic. fold n.
    destruct (collectSamples Unmarshal SprintV respond deadlinePassed n model [] p)
      as [samples p'].
    cbn [fst] in *. rewrite Hsamples. reflexivity. }
  clearbody v. subst v.
  assert (Hpos : Forall (fun s => 0 < Remaining s <= GoInt.max_int)
                        (omap sampleOf probes)).
  { apply Forall_forall. intros s Hs.
    apply list_elem_of_omap in Hs as (fp & Hfp & Hsome).
    apply sampleOf_positive in Hsome as [Heq Hgt]. split; [exact Hgt|].
    apply list_elem_of_In, in_map_iff in Hfp as (i & <- & _).
    rewrite Heq.
    apply (probeOnce_remaining_in_range Unmarshal SprintV (respond i) model "simple"). }
  destruct (ratelimitDecision_cases _ Hpos) as (Hs & Hrest).
  split; [exact Hs|]. unfold rs. rewrite Hs. exact Hrest.
Qed.

(** C7 as stated fails: four responses carry the header, with a counter
    that reads 0, and no sample is recorded. *)
Lemma ratelimit_samples_counterexample :
  forallb carriesRemaining (map exhaustedRelay (seq 0 4)) = true
  /\ rlSamples (fst (verifyRatelimitDynamic decodeSample sprintSample exhaustedRelay
                       noDeadline "claude-3-haiku-20240307" 4 start)) = []
  /\ rlVerdict (fst (verifyRatelimitDynamic decodeSample sprintSample exhaustedRelay
                       noDeadline "claude-3-haiku-20240307" 4 start)) = "unavailable".
Proof. repeat split. Qed.

(** Four probes that all report 50000 remaining: the forged header. *)
Lemma ratelimit_frozen_counter :
  let v := fst (verifyRatelimitDynamic decodeSample sprintSample frozenRelay
                  noDeadline "claude-3-haiku-20240307" 4 start) in
  map Remaining (rlSamples v) = [50000; 50000; 50000; 50000]
  /\ rlVerdict v = "static"
  /\ rlDetail v = "remaining 固定为 50000，疑似伪造".
Proof. repeat split. Qed.

(** ** DetectionCoordinator: mixed channels *)

Lemma elem_of_verdictSet (summary : gmap string string) (v : string) :
  v ∈ verdictSet summary <->
  v <> "unavailable" /\ exists m, summary !! m = Some v.
Proof.
  unfold verdictSet.
  assert (Hl : forall m x, (m, x) ∈ map_to_list summary <-> summary !! m = Some x)
    by (intros; apply elem_of_map_to_list).
  revert Hl. generalize (map_to_list summary) as l.
  intros l Hl.
  assert (Hfold : v ∈ foldr (fun (kv : string * string) (acc : gset string) =>
                     if String.eqb (snd kv) "unavailable" then acc else {[ snd kv ]} ∪ acc)
                    ∅ l
                  <-> v <> "unavailable" /\ exists m, (m, v) ∈ l).
  { clear Hl. induction l as [|[m x] rest IH]; cbn [foldr snd].
    - split; [set_solver|]. intros [_ [m Hm]]. inversion Hm.
    - destruct (String.eqb_spec x "unavailable") as [->|Hx].
      + rewrite IH. split.
        * intros [Hv [m' Hm']]. split; [exact Hv|]. exists m'. right. exact Hm'.
        * intros [Hv [m' Hm']]. split; [exact Hv|].
          apply elem_of_cons in Hm' as [[= -> ->]|Hm']; [congruence|eauto].
      + rewrite elem_of_union, elem_of_singleton, IH. split.
        * intros [->|[Hv [m' Hm']]].
          -- split; [exact Hx|]. exists m. left.
          -- split; [exact Hv|]. exists m'. right. exact Hm'.
        * intros [Hv [m' Hm']].
          apply elem_of_cons in Hm' as [[= -> ->]|Hm']; [left; reflexivity|].
          right. eauto. }
  rewrite Hfold. split; intros [Hv [m Hm]]; (split; [exact Hv|]); exists m; apply Hl, Hm.
Qed.

Lemma lastVerdictOf_snoc results r m :
  lastVerdictOf (results ++ [r]) m =
  if String.eqb (DetectResult.Model r) m then Some (DetectResult.Verdict r)
  else lastVerdictOf results m.
Proof.
  unfold lastVerdictOf. rewrite List.filter_app. cbn [List.filter].
  destruct (String.eqb (DetectResult.Model r) m).
  - rewrite last_snoc. reflexivity.
  - rewrite app_nil_r. reflexivity.
Qed.

Lemma lastVerdictOf_Some results m v :
  lastVerdictOf results m = Some v ->
  exists r, In r results /\ DetectResult.Model r = m /\ DetectResult.Verdict r = v.
Proof.
  unfold lastVerdictOf.
  destruct (last _) as [r|] eqn:Hlast; [|discriminate].
  intros [= <-]. exists r.
  apply last_Some_elem_of, list_elem_of_In, filter_In in Hlast as [Hin Hm].
  apply String.eqb_eq in Hm. auto.
Qed.

Lemma elem_of_finalVerdicts results v :
  v ∈ finalVerdicts results <->
  v <> "unavailable" /\ exists m, lastVerdictOf results m = Some v.
Proof.
  unfold finalVerdicts.
  rewrite elem_of_list_to_set, list_elem_of_In, filter_In, <- list_elem_of_In,
    list_elem_of_omap, negb_true_iff.
  split.
  - intros [(r & _ & Hr) Hv]. split.
    + intros ->. discriminate.
    + eauto.
  - intros [Hv [m Hm]]. split.
    + destruct (lastVerdictOf_Some _ _ _ Hm) as (r & Hin & <- & _).
      exists r. split; [apply list_elem_of_In, Hin|exact Hm].
    + apply String.eqb_neq. exact Hv.
Qed.

Lemma elem_of_distinctVerdicts results v :
  v ∈ distinctVerdicts results <->
  v <> "unavailable" /\ exists r, In r results /\ DetectResult.Verdict r = v.
Proof.
  unfold distinctVerdicts.
  rewrite elem_of_list_to_set, list_elem_of_In, filter_In, in_map_iff, negb_true_iff.
  split.
  - intros [(r & Hr & Hin) Hv]. split; [intros ->; discriminate|eauto].
  - intros [Hv (r & Hin & Hr)]. split; [eauto|]. apply String.eqb_neq. exact Hv.
Qed.

(** When no model name occurs twice among the results, the last result
    of a model is its only one. *)
Lemma lastVerdictOf_unique results r :
  NoDup (map DetectResult.Model results) -> In r results ->
  lastVerdictOf results (DetectResult.Model r) = Some (DetectResult.Verdict r).
Proof.
  induction results as [|r0 rest IH] using rev_ind; intros Hnd Hin; [inversion Hin|].
  rewrite lastVerdictOf_snoc.
  rewrite map_app in Hnd. cbn [map] in Hnd.
  apply NoDup_app in Hnd as (Hrest & Hfresh & _).
  apply in_app_iff in Hin as [Hin|[<-|[]]].
  - destruct (String.eqb_spec (DetectResult.Model r0) (DetectResult.Model r)) as [Heq|_].
    + exfalso. apply (Hfresh (DetectResult.Model r)).
      * apply list_elem_of_In, in_map, Hin.
      * rewrite Heq. left.
    + apply IH; assumption.
  - rewrite String.eqb_refl. reflexivity.
Qed.

Lemma finalVerdicts_distinct results :
  NoDup (map DetectResult.Model results) ->
  finalVerdicts results = distinctVerdicts results.
Proof.
  intros Hnd. apply set_eq. intros v.
  rewrite elem_of_finalVerdicts, elem_of_distinctVerdicts. split.
  - intros [Hv [m Hm]]. split; [exact Hv|].
    destruct (lastVerdictOf_Some _ _ _ Hm) as (r & Hin & _ & Hr). eauto.
  - intros [Hv (r & Hin & Hr)]. split; [exact Hv|].
    exists (DetectResult.Model r). rewrite <- Hr.
    apply lastVerdictOf_unique; assumption.
Qed.

Lemma analyze_Model fps model : DetectResult.Model (analyze fps model) = model.
Proof. unfold analyze. destruct (validFingerprints fps); reflexivity. Qed.

Section Scan.

Variable Unmarshal : string -> option (list (string * JSON)).
Variable SprintV : JSON -> string.
Variable respond : nat -> Exchange.
Variable deadlinePassed : nat -> bool.

Lemma DetectSingleModel_Model model rounds verifyRatelimit p :
  DetectResult.Model
    (fst (DetectSingleModel Unmarshal SprintV respond deadlinePassed
            model rounds verifyRatelimit p)) = model.
Proof.
  unfold DetectSingleModel.
  destruct (toolProbes _ _ _ _ _ _ _ _) as [fingerprints p1].
  destruct (ctxErr deadlinePassed p1) as [expired p2].
  destruct (if expired then _ else _) as [fingerprints' p3].
  destruct verifyRatelimit; [|apply analyze_Model].
  destruct (ctxErr deadlinePassed p3) as [expired' p4].
  destruct expired'; [apply analyze_Model|].
  destruct (verifyRatelimitDynamic _ _ _ _ _ _ _) as [v p5].
  cbn [fst withRatelimit DetectResult.Model]. apply analyze_Model.
Qed.

(** The loop keeps the summary in step with the results: the entry of a
    model is the verdict of its last result; and the models of the
    results added are a prefix of the models scanned. *)
Lemma scanModels_summary models : forall rounds scan p,
  (forall m, ScanResult.Summary scan !! m = lastVerdictOf (ScanResult.ModelResults scan) m) ->
  let scan' := fst (scanModels Unmarshal SprintV respond deadlinePassed
                      models rounds scan p) in
  (forall m, ScanResult.Summary scan' !! m
             = lastVerdictOf (ScanResult.ModelResults scan') m)
  /\ exists k,
       map DetectResult.Model (ScanResult.ModelResults scan')
       = map DetectResult.Model (ScanResult.ModelResults scan) ++ take k models.
Proof.
  induction models as [|model rest IH]; intros rounds scan p Hinv; cbn [scanModels].
  - split; [exact Hinv|]. exists 0%nat. rewrite app_nil_r. reflexivity.
  - destruct (ctxErr deadlinePassed p) as [expired p1].
    destruct expired.
    { split; [exact Hinv|]. exists 0%nat. rewrite app_nil_r. reflexivity. }
    destruct (CheckModelAvailable respond p1) as [available p2].
    destruct available; cbn [negb].
    + pose proof (DetectSingleModel_Model model rounds false p2) as HModel.
      destruct (DetectSingleModel _ _ _ _ _ _ _ _) as [result p3]. cbn [fst] in HModel.
      match goal with
      | |- context [scanModels _ _ _ _ rest rounds ?s p3] =>
          destruct (IH rounds s p3) as [Hsum [k Hk]]
      end.
      { intros m. cbn [ScanResult.Summary ScanResult.ModelResults].
        rewrite lastVerdictOf_snoc, HModel.
        destruct (String.eqb_spec model m) as [->|Hne].
        - apply lookup_insert_eq.
        - rewrite lookup_insert_ne by exact Hne. apply Hinv. }
      split; [exact Hsum|]. exists (S k). rewrite Hk.
      cbn [ScanResult.ModelResults]. rewrite map_app, <- app_assoc.
      cbn [map app take]. rewrite HModel. reflexivity.
    + match goal with
      | |- context [scanModels _ _ _ _ rest rounds ?s p2] =>
          destruct (IH rounds s p2) as [Hsum [k Hk]]
      end.
      { intros m. cbn [ScanResult.Summary ScanResult.ModelResults].
        rewrite lastVerdictOf_snoc. cbn [unavailableResult DetectResult.Model
                                          DetectResult.Verdict].
        destruct (String.eqb_spec model m) as [->|Hne].
        - apply lookup_insert_eq.
        - rewrite lookup_insert_ne by exact Hne. apply Hinv. }
      split; [exact Hsum|]. exists (S k). rewrite Hk.
      cbn [ScanResult.ModelResults]. rewrite map_app, <- app_assoc.
      reflexivity.
Qed.

(** The law for [ScanMultipleModels]. *)
Lemma ScanMultipleModels_mixed baseURL models rounds p :
  let scan := fst (ScanMultipleModels Unmarshal SprintV respond deadlinePassed
                     baseURL models rounds p) in
  (ScanResult.IsMixed scan = true <->
   (2 <= size (finalVerdicts (ScanResult.ModelResults scan)))%nat)
  /\ (NoDup models ->
      (ScanResult.IsMixed scan = true <->
       (2 <= size (distinctVerdicts (ScanResult.ModelResults scan)))%nat)).
Proof.
  unfold ScanMultipleModels.
  set (models' := match models with [] => DefaultScanModels | _ => models end).
  set (scan0 := {| ScanResult.BaseURL := baseURL; ScanResult.ProxyPlatform := "";
                   ScanResult.ModelResults := []; ScanResult.Summary := ∅;
                   ScanResult.IsMixed := false |}).
  destruct (scanModels_summary models' rounds scan0 p) as [Hsum [k Hk]].
  { intros m. apply lookup_empty. }
  destruct (scanModels _ _ _ _ models' rounds scan0 p) as [scan p'].
  cbn [fst ScanResult.IsMixed ScanResult.ModelResults] in *.
  assert (Hset : verdictSet (ScanResult.Summary scan)
                 = finalVerdicts (ScanResult.ModelResults scan)).
  { apply set_eq. intros v. rewrite elem_of_verdictSet, elem_of_finalVerdicts.
    split; intros [Hv [m Hm]]; (split; [exact Hv|]); exists m;
      [rewrite <- Hsum|rewrite Hsum]; exact Hm. }
  rewrite Hset. split.
  - rewrite Nat.ltb_lt. lia.
  - intros Hnd. rewrite finalVerdicts_distinct; [rewrite Nat.ltb_lt; lia|].
    rewrite Hk. unfold scan0. cbn [ScanResult.ModelResults map app].
    assert (Hnd' : NoDup models').
    { unfold models'. destruct models; [|exact Hnd].
      unfold DefaultScanModels.
      repeat (constructor; [rewrite ?list_elem_of_In; simpl; intuition discriminate|]).
      constructor. }
    eapply sublist_NoDup; [exact Hnd'|apply sublist_take].
Qed.

End Scan.

Lemma distinctVerdicts_single r : (size (distinctVerdicts [r]) <= 1)%nat.
Proof.
  unfold distinctVerdicts. cbn [map List.filter].
  destruct (negb _); cbn [list_to_set].
  - rewrite union_empty_r_L, size_singleton. lia.
  - rewrite size_empty. lia.
Qed.

(** C6, as the code has it.  For every scan the detect operation
    returns, [is_mixed] is true exactly when, counting each model name
    once with the verdict of its last result, at least 2 distinct
    verdicts other than unavailable remain; when the model names of the
    request (after truncation to 6) are pairwise distinct, that is the set
    of distinct verdicts over [model_results]; a single-model detection
    has [is_mixed] false. *)
Theorem mixed_channel_law
    (Unmarshal : string -> option (list (string * JSON))) (SprintV : JSON -> string)
    (respond : nat -> Exchange) (deadlinePassed : nat -> bool)
    (req : ProxyDetectRequest) (resolved : string * bool * string)
    (p : Progress) (scan : ScanResult.t) :
  scanOf (fst (ProxyDetect Unmarshal SprintV respond deadlinePassed req resolved p))
  = Some scan ->
  (ScanResult.IsMixed scan = true <->
   (2 <= size (finalVerdicts (ScanResult.ModelResults scan)))%nat)
  /\ (NoDup (take 6 (Models req)) ->
      (ScanResult.IsMixed scan = true <->
       (2 <= size (distinctVerdicts (ScanResult.ModelResults scan)))%nat))
  /\ (length (Models req) = 1%nat -> ScanResult.IsMixed scan = false).
Proof.
  unfold ProxyDetect.
  destruct (String.eqb (APIKey req) ""); [discriminate|].
  destruct (length (Models req) =? 0)%nat eqn:Hlen0; [discriminate|].
  assert (Htake : (if (6 <? length (Models req))%nat then take 6 (Models req)
                   else Models req) = take 6 (Models req)).
  { destruct (Nat.ltb_spec 6 (length (Models req))); [reflexivity|].
    symmetry. apply firstn_all2. lia. }
  rewrite Htake. clear Htake.
  destruct resolved as [[baseURL isAdmin] errMsg].
  destruct (negb (String.eqb errMsg "")); [discriminate|].
  set (rounds := if 3 <? _ then 3 else _).
  destruct (Models req) as [|m1 [|m2 rest]] eqn:Hmodels; [discriminate| |].
  - (* one model *)
    cbn [take].
    destruct (DetectSingleModel _ _ _ _ m1 rounds (VerifyRatelimit req) p)
      as [detectResult p'].
    cbn [fst scanOf]. intros [= <-].
    cbn [ScanResult.IsMixed ScanResult.ModelResults].
    pose proof (distinctVerdicts_single detectResult) as Hone.
    assert (Hfinal : finalVerdicts [detectResult] = distinctVerdicts [detectResult]).
    { apply finalVerdicts_distinct. apply NoDup_singleton. }
    rewrite Hfinal. repeat split; try discriminate; intros; try lia; reflexivity.
  - (* several models *)
    set (models := take 6 (m1 :: m2 :: rest)).
    assert (Hmulti : exists a b tl, models = a :: b :: tl).
    { unfold models. cbn [take]. eauto. }
    destruct Hmulti as (a & b & tl & Hm). rewrite Hm.
    pose proof (ScanMultipleModels_mixed Unmarshal SprintV respond deadlinePassed
                  baseURL (a :: b :: tl) rounds p) as [Hlast Hdistinct].
    destruct (ScanMultipleModels _ _ _ _ baseURL (a :: b :: tl) rounds p)
      as [result p'].
    cbn [fst scanOf] in *. intros [= <-].
    split; [exact Hlast|]. split; [exact Hdistinct|].
    simpl. discriminate.
Qed.

Lemma mixed_channel_law_witness :
  ScanResult.IsMixed twoModelScan = true
  /\ (2 <= size (distinctVerdicts (ScanResult.ModelResults twoModelScan)))%nat.
Proof.
  assert (Hrun : scanOf (fst (ProxyDetect decodeTwo sprintSample switchingRelay noDeadline
                                twoModelRequest resolvedForAdmin start))
                 = Some twoModelScan) by (vm_compute; reflexivity).
  destruct (mixed_channel_law decodeTwo sprintSample switchingRelay noDeadline
              twoModelRequest resolvedForAdmin start twoModelScan Hrun)
    as (_ & Hdistinct & _).
  assert (Hmixed : ScanResult.IsMixed twoModelScan = true) by (vm_compute; reflexivity).
  split; [exact Hmixed|].
  apply Hdistinct; [|exact Hmixed].
  apply (bool_decide_unpack _). vm_compute. reflexivity.
Defined.

(** C6 as stated fails: a request that names one model twice, answered
    by Anthropic the first time and by Bedrock the second, yields two
    distinct verdicts over [model_results] and [is_mixed] false. *)
Lemma mixed_channel_counterexample :
  scanOf (fst (ProxyDetect decodeTwo sprintSample switchingRelay noDeadline
                 repeatedModelRequest resolvedForAdmin start))
  = Some repeatedModelScan
  /\ map DetectResult.Verdict (ScanResult.ModelResults repeatedModelScan)
     = ["anthropic"; "bedrock"]
  /\ size (distinctVerdicts (ScanResult.ModelResults repeatedModelScan)) = 2%nat
  /\ ScanResult.IsMixed repeatedModelScan = false.
Proof. repeat split; vm_compute; reflexivity. Qed.

(** ** Binary64 arithmetic: upper bounds of rounded results *)

Lemma digits2_pos_spec p :
  2 ^ (Zpos (digits2_pos p) - 1) <= Zpos p < 2 ^ Zpos (digits2_pos p).
Proof.
  induction p as [p IH|p IH|]; cbn [digits2_pos].
  - rewrite Pos2Z.inj_succ, Z.pow_succ_r by lia.
    replace (Z.succ (Zpos (digits2_pos p)) - 1) with (Z.succ (Zpos (digits2_pos p) - 1)) by lia.
    rewrite Z.pow_succ_r by lia. lia.
  - rewrite Pos2Z.inj_succ, Z.pow_succ_r by lia.
    replace (Z.succ (Zpos (digits2_pos p)) - 1) with (Z.succ (Zpos (digits2_pos p) - 1)) by lia.
    rewrite Z.pow_succ_r by lia. lia.
  - simpl. lia.
Qed.

Lemma Zdigits2_nonneg m : 0 <= m -> 0 <= Zdigits2 m.
Proof. destruct m; simpl; lia. Qed.

(** A non-negative number below [2 ^ k] has at most [k] binary digits. *)
Lemma Zdigits2_le_of_lt m k : 0 <= m -> 0 <= k -> m < 2 ^ k -> Zdigits2 m <= k.
Proof.
  intros Hm Hk Hlt. destruct m as [|p|p]; [simpl; lia| |lia].
  cbn [Zdigits2]. pose proof (digits2_pos_spec p) as [Hlo _].
  destruct (Z.le_gt_cases (Zpos (digits2_pos p)) k) as [|Hgt]; [assumption|].
  assert (2 ^ k <= 2 ^ (Zpos (digits2_pos p) - 1)) by (apply Z.pow_le_mono_r; lia).
  lia.
Qed.

Lemma Zdigits2_mono m k : 0 <= m <= k -> Zdigits2 m <= Zdigits2 k.
Proof.
  intros [Hm Hk]. destruct k as [|q|q]; [assert (m = 0) by lia; subst; simpl; lia| |lia].
  apply Zdigits2_le_of_lt; [lia|simpl; lia|].
  cbn [Zdigits2]. pose proof (digits2_pos_spec q). lia.
Qed.

Lemma fexp_mono e1 e2 : e1 <= e2 -> fexp prec emax e1 <= fexp prec emax e2.
Proof. unfold fexp. lia. Qed.

(** *** Right shifts *)

Lemma shr_1_shifted r0 : 0 <= shr_m r0 -> shifted 1 r0 (shr_1 r0).
Proof.
  destruct r0 as [m r s]. cbn [shr_m]. intros Hm. unfold shifted.
  change (2 ^ 1) with 2.
  destruct m as [|[p|p|]|p]; try lia; cbn [shr_1 shr_m]; split.
  - reflexivity.
  - destruct r, s; cbn; split; intros H; try discriminate; try tauto;
      destruct H; try discriminate; auto.
  - rewrite Pos2Z.inj_xI. apply Z.div_unique with 1; lia.
  - assert (Zpos p~1 mod 2 = 1) by (rewrite Pos2Z.inj_xI; symmetry; apply Z.mod_unique with (Zpos p); lia).
    destruct r, s; cbn [orb loc_of_shr_record]; split; intros H'; try discriminate;
      destruct H'; lia.
  - rewrite Pos2Z.inj_xO. apply Z.div_unique with 0; lia.
  - assert (Zpos p~0 mod 2 = 0) by (rewrite Pos2Z.inj_xO; symmetry; apply Z.mod_unique with (Zpos p); lia).
    destruct r, s; cbn [orb loc_of_shr_record]; split; intros H'; try discriminate;
      try (destruct H'; discriminate); auto.
  - reflexivity.
  - destruct r, s; cbn [orb loc_of_shr_record]; split; intros H'; try discriminate;
      destruct H' as [? H']; try discriminate; cbn in H'; lia.
Qed.

Lemma shifted_compose a b r0 r1 r2 :
  0 <= a -> 0 <= b -> 0 <= shr_m r0 ->
  shifted a r0 r1 -> shifted b r1 r2 -> shifted (a + b) r0 r2.
Proof.
  intros Ha Hb Hm [Hm1 Hl1] [Hm2 Hl2]. unfold shifted.
  assert (Hpa : 0 < 2 ^ a) by (apply Z.pow_pos_nonneg; lia).
  assert (Hpb : 0 < 2 ^ b) by (apply Z.pow_pos_nonneg; lia).
  rewrite Z.pow_add_r by lia. split.
  - rewrite Hm2, Hm1. apply Z.div_div; lia.
  - rewrite Hl2, Hl1, Hm1.
    pose proof (Z.div_mod (shr_m r0) (2 ^ a) ltac:(lia)) as Hdm.
    pose proof (Z.mod_pos_bound (shr_m r0) (2 ^ a) Hpa) as Hbound.
    split.
    + intros [[Hloc Hmod] Hmod2]. split; [exact Hloc|].
      rewrite Z.rem_mul_r by lia. rewrite Hmod, Hmod2. lia.
    + intros [Hloc Hmod]. 
      rewrite Z.rem_mul_r in Hmod by lia.
      pose proof (Z.mod_pos_bound (shr_m r0 / 2 ^ a) (2 ^ b) Hpb).
      assert (shr_m r0 mod 2 ^ a = 0) by nia.
      assert ((shr_m r0 / 2 ^ a) mod 2 ^ b = 0) by nia.
      auto.
Qed.

Lemma shifted_nonneg n r0 r1 : 0 <= n -> 0 <= shr_m r0 -> shifted n r0 r1 -> 0 <= shr_m r1.
Proof.
  intros Hn Hm [Hm1 _]. rewrite Hm1. apply Z.div_pos; [exact Hm|].
  apply Z.pow_pos_nonneg; lia.
Qed.

Lemma iter_pos_shifted p : forall r0,
  0 <= shr_m r0 -> shifted (Zpos p) r0 (SpecFloat.iter_pos shr_1 p r0).
Proof.
  induction p as [p IH|p IH|]; intros r0 Hm; cbn [SpecFloat.iter_pos].
  - pose proof (shr_1_shifted r0 Hm) as H1.
    pose proof (shifted_nonneg 1 _ _ ltac:(lia) Hm H1) as Hm1.
    pose proof (IH _ Hm1) as H2.
    pose proof (shifted_nonneg (Zpos p) _ _ ltac:(lia) Hm1 H2) as Hm2.
    pose proof (IH _ Hm2) as H3.
    replace (Zpos p~1) with (1 + (Zpos p + Zpos p)) by lia.
    eapply shifted_compose; [lia|lia|exact Hm|exact H1|].
    eapply shifted_compose; [lia|lia|exact Hm1|exact H2|exact H3].
  - pose proof (IH _ Hm) as H2.
    pose proof (shifted_nonneg (Zpos p) _ _ ltac:(lia) Hm H2) as Hm2.
    pose proof (IH _ Hm2) as H3.
    replace (Zpos p~0) with (Zpos p + Zpos p) by lia.
    eapply shifted_compose; [lia|lia|exact Hm|exact H2|exact H3].
  - apply shr_1_shifted. exact Hm.
Qed.

(** [shr_fexp]: the mantissa is divided by [2 ^ n] for the number [n] of
    bits the format cannot hold, and the exponent grows by [n]. *)
Lemma shr_fexp_spec m e l :
  0 <= m ->
  let n := Z.max 0 (fexp prec emax (Zdigits2 m + e) - e) in
  let '(mrs, e') := shr_fexp prec emax m e l in
  e' = e + n
  /\ shr_m mrs = m / 2 ^ n
  /\ (loc_of_shr_record mrs = loc_Exact <-> l = loc_Exact /\ m mod 2 ^ n = 0).
Proof.
  intros Hm n. unfold shr_fexp, shr.
  assert (Hloc : loc_of_shr_record (shr_record_of_loc m l) = loc_Exact <-> l = loc_Exact).
  { destruct l as [|[]]; cbn; split; intros H; try discriminate; reflexivity. }
  assert (Hrec : shr_m (shr_record_of_loc m l) = m) by (destruct l as [|[]]; reflexivity).
  destruct (fexp prec emax (Zdigits2 m + e) - e) as [|p|p] eqn:Hn; subst n.
  - simpl Z.max. rewrite Z.pow_0_r, Z.div_1_r, Z.mod_1_r, Hrec, Hloc.
    repeat split; try lia; tauto.
  - rewrite Z.max_r by lia.
    destruct (iter_pos_shifted p (shr_record_of_loc m l)) as [Hm' Hl']; [rewrite Hrec; exact Hm|].
    rewrite Hrec, Hloc in *. repeat split; try assumption; apply Hl'; assumption.
  - rewrite Z.max_l by lia. rewrite Z.pow_0_r, Z.div_1_r, Z.mod_1_r, Hrec, Hloc.
    repeat split; try lia; tauto.
Qed.

(** *** Rounding to nearest *)

Lemma round_nearest_even_le m l K :
  m <= K -> (l <> loc_Exact -> m < K) ->
  m <= round_nearest_even m l <= K.
Proof.
  intros Hle Hlt. destruct l as [|[]]; cbn [round_nearest_even].
  - lia.
  - assert (m < K) by (apply Hlt; discriminate). destruct (Z.even m); lia.
  - lia.
  - assert (m < K) by (apply Hlt; discriminate). lia.
Qed.

(** If the quantity to round, [mx] units of [2 ^ ex] plus the excess its
    location records, is at most a multiple [K] of the unit [2 ^ E] the
    format gives it, the rounded result is at most that multiple. *)
Lemma binary_round_aux_upper mx ex lx K :
  0 <= mx -> 0 <= K ->
  let N := Z.max 0 (fexp prec emax (Zdigits2 mx + ex) - ex) in
  let E := ex + N in
  mx <= K * 2 ^ N -> (lx <> loc_Exact -> mx < K * 2 ^ N) ->
  Z.max E (fexp prec emax (Zdigits2 K + E)) <= emax - prec ->
  atMost (binary_round_aux prec emax false mx ex lx) K E.
Proof.
  intros Hmx HK N E Hle Hlt Hover.
  assert (HN : 0 <= N) by (unfold N; lia).
  assert (HpN : 0 < 2 ^ N) by (apply Z.pow_pos_nonneg; lia).
  unfold binary_round_aux.
  pose proof (shr_fexp_spec mx ex lx Hmx) as H1. fold N in H1.
  destruct (shr_fexp prec emax mx ex lx) as [mrs' e'].
  destruct H1 as (He' & Hm' & Hl'). fold E in He'. subst e'.
  set (m1 := round_nearest_even (shr_m mrs') (loc_of_shr_record mrs')).
  assert (Hm1 : shr_m mrs' <= m1 <= K).
  { apply round_nearest_even_le.
    - rewrite Hm'. apply Z.div_le_upper_bound; lia.
    - intros Hinexact. rewrite Hm'. apply Z.div_lt_upper_bound; [lia|].
      destruct (Z.eq_dec (mx mod 2 ^ N) 0) as [Hmod|Hmod].
      + apply Z.le_lteq in Hle as [Hlt'|Heq]; [lia|].
        rewrite Z.mul_comm. apply Hlt. intros Hex. apply Hinexact, Hl'. auto.
      + apply Z.le_lteq in Hle as [Hlt'|Heq]; [lia|].
        exfalso. apply Hmod. rewrite Heq. apply Z.mod_mul. lia. }
  assert (Hm1' : 0 <= m1).
  { assert (0 <= shr_m mrs') by (rewrite Hm'; apply Z.div_pos; lia). lia. }
  pose proof (shr_fexp_spec m1 E loc_Exact Hm1') as H2.
  cbv zeta in H2.
  set (N2 := Z.max 0 (fexp prec emax (Zdigits2 m1 + E) - E)) in *.
  destruct (shr_fexp prec emax m1 E loc_Exact) as [mrs'' e''].
  destruct H2 as (He'' & Hm'' & _).
  assert (HN2 : 0 <= N2) by (unfold N2; lia).
  assert (HpN2 : 0 < 2 ^ N2) by (apply Z.pow_pos_nonneg; lia).
  assert (Hfit : e'' <= emax - prec).
  { pose proof (Zdigits2_mono m1 K ltac:(lia)) as Hd.
    pose proof (fexp_mono (Zdigits2 m1 + E) (Zdigits2 K + E) ltac:(lia)).
    unfold N2 in He''. lia. }
  destruct (shr_m mrs'') as [|m|m] eqn:Hres.
  - left. reflexivity.
  - apply Z.leb_le in Hfit. rewrite Hfit. right. exists m, e''.
    split; [reflexivity|]. split; [lia|].
    replace (e'' - E) with N2 by lia. rewrite Hm''.
    pose proof (Z.mul_div_le m1 (2 ^ N2) HpN2). lia.
  - exfalso. assert (0 <= m1 / 2 ^ N2) by (apply Z.div_pos; lia). lia.
Qed.

(** *** Integers as binary64 numbers *)

Lemma binary_round_aux_canonical s m e :
  fexp prec emax (Zdigits2 (Zpos m) + e) = e -> e <= emax - prec ->
  binary_round_aux prec emax s (Zpos m) e loc_Exact = S754_finite s m e.
Proof.
  intros Hcanon Hfit. unfold binary_round_aux, shr_fexp.
  rewrite Hcanon, Z.sub_diag. cbn [shr shr_record_of_loc shr_m loc_of_shr_record
                                   round_nearest_even].
  rewrite Hcanon, Z.sub_diag. cbn [shr shr_record_of_loc shr_m].
  apply Z.leb_le in Hfit. rewrite Hfit. reflexivity.
Qed.

Lemma Pos_iter_xO p n : Zpos (Pos.iter xO p n) = Zpos p * 2 ^ Zpos n.
Proof.
  induction n as [|n IH] using Pos.peano_ind.
  - simpl. lia.
  - rewrite Pos.iter_succ, Pos2Z.inj_xO, IH, Pos2Z.inj_succ, Z.pow_succ_r by lia. lia.
Qed.

Lemma digits2_pos_iter_xO p n :
  Zpos (digits2_pos (Pos.iter xO p n)) = Zpos (digits2_pos p) + Zpos n.
Proof.
  induction n as [|n IH] using Pos.peano_ind.
  - simpl. lia.
  - rewrite Pos.iter_succ. cbn [digits2_pos]. rewrite Pos2Z.inj_succ, IH. lia.
Qed.

(** A positive integer below [2 ^ 53] converts exactly. *)
Lemma binary_normalize_int a :
  0 < a < 2 ^ 53 -> isInt (binary_normalize prec emax a 0 false) a.
Proof.
  intros [Hpos Hlt]. destruct a as [|p|p]; try lia.
  cbn [binary_normalize]. unfold binary_round.
  pose proof (digits2_pos_spec p) as [Hlo Hhi].
  assert (Hd : 1 <= Zpos (digits2_pos p) <= 53).
  { split; [lia|]. apply (Zdigits2_le_of_lt (Zpos p) 53); lia. }
  assert (Hfexp : fexp prec emax (Zpos (digits2_pos p) + 0) = Zpos (digits2_pos p) - 53).
  { unfold fexp, emin, prec, emax. lia. }
  rewrite Hfexp. unfold shl_align.
  destruct (Zpos (digits2_pos p) - 53 - 0) as [|k|k] eqn:Hk; try lia.
  - (* 53 bits already *)
    rewrite binary_round_aux_canonical.
    + exists p, 0. repeat split; simpl; lia.
    + cbn [Zdigits2]. unfold fexp, emin, prec, emax. lia.
    + unfold emax, prec. lia.
  - (* shifted left by [k] bits *)
    rewrite binary_round_aux_canonical.
    + exists (Pos.iter xO p k), (Zpos (digits2_pos p) - 53).
      split; [reflexivity|]. split; [lia|].
      rewrite Pos_iter_xO. f_equal. f_equal. lia.
    + cbn [Zdigits2]. rewrite digits2_pos_iter_xO.
      unfold fexp, emin, prec, emax. lia.
    + unfold emax, prec. lia.
Qed.

(** *** Division of an integer by a larger one *)

Lemma new_location_exact nb k : new_location nb k = loc_Exact <-> k = 0.
Proof.
  unfold new_location, new_location_even, new_location_odd.
  destruct (Z.even nb); destruct (Z.eqb_spec k 0); split; intros H;
    try reflexivity; try assumption; try discriminate; contradiction.
Qed.

Lemma pow2_pos k : 0 < 2 ^ k \/ k < 0.
Proof. destruct (Z.le_gt_cases 0 k); [left; apply Z.pow_pos_nonneg; lia|right; lia]. Qed.

Lemma SFdiv_at_most_one mA eA mB eB a b :
  eA <= 0 -> Zpos mA = a * 2 ^ (- eA) ->
  eB <= 0 -> Zpos mB = b * 2 ^ (- eB) ->
  0 < a <= b ->
  atMostInt (SFdiv prec emax (S754_finite false mA eA) (S754_finite false mB eB)) 1.
Proof.
  intros HeA HmA HeB HmB [Ha Hab].
  assert (HpA : 0 < 2 ^ (- eA)) by (apply Z.pow_pos_nonneg; lia).
  assert (HpB : 0 < 2 ^ (- eB)) by (apply Z.pow_pos_nonneg; lia).
  pose proof (digits2_pos_spec mA) as [HloA HhiA].
  pose proof (digits2_pos_spec mB) as [HloB HhiB].
  set (d1 := Zpos (digits2_pos mA)) in *. set (d2 := Zpos (digits2_pos mB)) in *.
  assert (Hd1 : 1 <= d1) by (unfold d1; lia).
  assert (Hd2 : 1 <= d2) by (unfold d2; lia).
  (* the dividend has no more digits than the divisor *)
  assert (Hdigits : d1 + eA <= d2 + eB).
  { assert (H : 2 ^ (d1 - 1 - eB) < 2 ^ (d2 - eA)).
    { replace (d1 - 1 - eB) with ((d1 - 1) + (- eB)) by lia.
      replace (d2 - eA) with (d2 + (- eA)) by lia.
      rewrite !Z.pow_add_r by lia.
      assert (2 ^ (d1 - 1) * 2 ^ (- eB) <= a * 2 ^ (- eA) * 2 ^ (- eB)) by nia.
      assert (a * 2 ^ (- eA) * 2 ^ (- eB) <= b * 2 ^ (- eB) * 2 ^ (- eA)) by nia.
      assert (b * 2 ^ (- eB) * 2 ^ (- eA) < 2 ^ d2 * 2 ^ (- eA)) by nia.
      lia. }
    apply Z.pow_lt_mono_r_iff in H; lia. }
  unfold SFdiv, SFdiv_core_binary. cbn [xorb Zdigits2]. fold d1 d2.
  set (e' := Z.min (fexp prec emax (d1 + eA - (d2 + eB))) (eA - eB)).
  assert (He' : e' <= -53 /\ e' <= eA - eB).
  { unfold e', fexp, emin, prec, emax. lia. }
  set (s := eA - eB - e').
  assert (Hs : 0 <= s) by (unfold s; lia).
  assert (Hps : 0 < 2 ^ s) by (apply Z.pow_pos_nonneg; lia).
  set (m' := match s with
             | 0 => Zpos mA
             | Zpos _ => Z.shiftl (Zpos mA) s
             | Zneg _ => 0
             end).
  assert (Hm' : m' = Zpos mA * 2 ^ s).
  { unfold m'. destruct s eqn:Hseq; [simpl; lia| |lia].
    rewrite Z.shiftl_mul_pow2 by lia. reflexivity. }
  pose proof (Z.div_eucl_eq m' (Zpos mB) ltac:(lia)) as Heucl.
  pose proof (Z.mod_pos_bound m' (Zpos mB) ltac:(lia)) as Hrem.
  unfold Z.modulo in Hrem.
  destruct (Z.div_eucl m' (Zpos mB)) as [q r]. cbn [fst snd] in *.
  (* the quotient, in units of [2 ^ e'], is at most 1 *)
  assert (Hpe : 0 < 2 ^ (- e')) by (apply Z.pow_pos_nonneg; lia).
  assert (Hbound : m' <= Zpos mB * 2 ^ (- e')).
  { rewrite Hm', HmA, HmB.
    replace (- e') with ((s - eA) + eB) by (unfold s; lia).
    assert (Hx : a * 2 ^ (- eA) * 2 ^ s = a * 2 ^ (s - eA)).
    { replace (s - eA) with ((- eA) + s) by lia.
      rewrite (Z.pow_add_r 2 (- eA) s) by lia. lia. }
    assert (Hy : b * 2 ^ (- eB) * 2 ^ (s - eA + eB) = b * 2 ^ (s - eA)).
    { replace (b * 2 ^ (s - eA)) with (b * 2 ^ ((- eB) + (s - eA + eB)))
        by (f_equal; f_equal; lia).
      rewrite (Z.pow_add_r 2 (- eB) (s - eA + eB)) by (unfold s; lia). lia. }
    rewrite Hx, Hy.
    assert (0 < 2 ^ (s - eA)) by (apply Z.pow_pos_nonneg; lia). nia. }
  assert (Hq0 : 0 <= q) by nia.
  assert (Hq : q <= 2 ^ (- e')) by nia.
  assert (Hqlt : r <> 0 -> q < 2 ^ (- e')) by (intros; nia).
  set (N := Z.max 0 (fexp prec emax (Zdigits2 q + e') - e')).
  set (E := e' + N).
  assert (Hdq : Zdigits2 q <= - e' + 1).
  { apply Zdigits2_le_of_lt; [lia|lia|].
    rewrite Z.pow_add_r by lia. simpl (2 ^ 1). lia. }
  pose proof (Zdigits2_nonneg q Hq0) as Hdq0.
  assert (HE : e' <= E <= -52).
  { unfold E, N, fexp, emin, prec, emax. lia. }
  assert (HN : 0 <= N) by (unfold N; lia).
  assert (HK : 2 ^ (- E) * 2 ^ N = 2 ^ (- e')).
  { rewrite <- Z.pow_add_r by lia. f_equal. unfold E. lia. }
  assert (HpE : 0 < 2 ^ (- E)) by (apply Z.pow_pos_nonneg; lia).
  destruct (binary_round_aux_upper q e' (new_location (Zpos mB) r) (2 ^ (- E)))
    as [Hzero|(m & e & Hres & HEe & Hval)].
  - exact Hq0.
  - lia.
  - fold N. rewrite HK. exact Hq.
  - fold N. rewrite HK. intros Hloc. apply Hqlt. intros ->.
    apply Hloc, new_location_exact. reflexivity.
  - fold N E.
    assert (Zdigits2 (2 ^ (- E)) <= - E + 1).
    { apply Zdigits2_le_of_lt; [lia|lia|].
      rewrite Z.pow_add_r by lia. simpl (2 ^ 1). lia. }
    assert (0 <= Zdigits2 (2 ^ (- E))) by (apply Zdigits2_nonneg; lia).
    unfold fexp, emin, prec, emax. lia.
  - left. exact Hzero.
  - right. exists m, e. fold N E in HEe, Hval. split; [exact Hres|].
    assert (Hpee : 0 < 2 ^ (e - E)) by (apply Z.pow_pos_nonneg; lia).
    assert (Hle0 : e <= 0).
    { destruct (Z.le_gt_cases e 0) as [|Hgt]; [assumption|exfalso].
      assert (2 ^ (- E + 1) <= 2 ^ (e - E)) by (apply Z.pow_le_mono_r; lia).
      rewrite Z.pow_add_r in * by lia. simpl (2 ^ 1) in *. nia. }
    split; [exact Hle0|].
    assert (Hsplit : 2 ^ (- E) = 2 ^ (- e) * 2 ^ (e - E)).
    { rewrite <- Z.pow_add_r by lia. f_equal. lia. }
    rewrite Hsplit in Hval. nia.
Qed.

(** *** Multiplication by 100 *)

Lemma hundred_decoded : Prim2SF 100 = S754_finite false 7036874417766400 (-46).
Proof. reflexivity. Qed.

Lemma SFmul_at_most_hundred mq eq :
  eq <= 0 -> Zpos mq <= 2 ^ (- eq) ->
  exists E, E <= 0 /\
    atMost (SFmul prec emax (S754_finite false mq eq)
                            (S754_finite false 7036874417766400 (-46)))
           (100 * 2 ^ (- E)) E.
Proof.
  intros Heq Hmq.
  assert (Hpq : 0 < 2 ^ (- eq)) by (apply Z.pow_pos_nonneg; lia).
  unfold SFmul. cbn [xorb]. rewrite Pos2Z.inj_mul.
  set (mx := Zpos mq * 7036874417766400).
  set (ex := eq + -46).
  assert (Hmx : 0 < mx <= 100 * 2 ^ (- ex)).
  { unfold mx, ex. replace (- (eq + -46)) with ((- eq) + 46) by lia.
    rewrite Z.pow_add_r by lia. change (2 ^ 46) with 70368744177664. lia. }
  assert (Hpx : 0 < 2 ^ (- ex)) by (apply Z.pow_pos_nonneg; unfold ex; lia).
  assert (Hdx : Zdigits2 mx <= - ex + 7).
  { apply Zdigits2_le_of_lt; [lia|unfold ex; lia|].
    rewrite Z.pow_add_r by (unfold ex; lia). change (2 ^ 7) with 128. lia. }
  pose proof (Zdigits2_nonneg mx ltac:(lia)) as Hdx0.
  set (N := Z.max 0 (fexp prec emax (Zdigits2 mx + ex) - ex)).
  set (E := ex + N).
  assert (HE : ex <= E <= -46).
  { unfold E, N, ex, fexp, emin, prec, emax in *. lia. }
  assert (HN : 0 <= N) by (unfold N; lia).
  assert (HpE : 0 < 2 ^ (- E)) by (apply Z.pow_pos_nonneg; lia).
  assert (HK : 100 * 2 ^ (- E) * 2 ^ N = 100 * 2 ^ (- ex)).
  { rewrite <- Z.mul_assoc, <- Z.pow_add_r by lia. f_equal. f_equal. unfold E. lia. }
  exists E. split; [lia|].
  apply binary_round_aux_upper; fold N E.
  - lia.
  - lia.
  - rewrite HK. lia.
  - intros H. exfalso. apply H. reflexivity.
  - assert (Zdigits2 (100 * 2 ^ (- E)) <= - E + 7).
    { apply Zdigits2_le_of_lt; [lia|lia|].
      rewrite Z.pow_add_r by lia. change (2 ^ 7) with 128. lia. }
    assert (0 <= Zdigits2 (100 * 2 ^ (- E))) by (apply Zdigits2_nonneg; lia).
    unfold fexp, emin, prec, emax. lia.
Qed.

(** *** Rounding to an integer *)

(** A valid number of value at most 100 rounds to one of the integers
    from 0 to 100. *)
Lemma roundSF_hundred y E :
  valid_binary y = true -> E <= 0 -> atMost y (100 * 2 ^ (- E)) E ->
  exists k, 0 <= k <= 100
    /\ GoFloat.roundSF y = binary_normalize prec emax k 0 false.
Proof.
  intros Hvalid HE [->|(m & e & -> & HEe & Hval)].
  - exists 0. split; [lia|reflexivity].
  - assert (HpE : 0 < 2 ^ (- E)) by (apply Z.pow_pos_nonneg; lia).
    assert (Hpe : 0 < 2 ^ (e - E)) by (apply Z.pow_pos_nonneg; lia).
    unfold valid_binary in Hvalid. cbn [SpecFloat.valid_binary] in Hvalid.
    unfold bounded, canonical_mantissa in Hvalid.
    apply andb_true_iff in Hvalid as [Hcanon _]. apply Z.eqb_eq in Hcanon.
    pose proof (digits2_pos_spec m) as [Hlo Hhi].
    (* a canonical mantissa with a non-negative exponent has 53 bits *)
    assert (Hneg : e < 0).
    { destruct (Z.lt_ge_cases e 0) as [|Hge]; [assumption|exfalso].
      assert (Hd : Zpos (digits2_pos m) = 53).
      { unfold fexp, emin, prec, emax in Hcanon. lia. }
      rewrite Hd in Hlo. change (2 ^ (53 - 1)) with 4503599627370496 in Hlo.
      assert (2 ^ (- E) <= 2 ^ (e - E)) by (apply Z.pow_le_mono_r; lia).
      nia. }
    assert (Hunit : 0 < 2 ^ (- e)) by (apply Z.pow_pos_nonneg; lia).
    assert (Hm : Zpos m <= 100 * 2 ^ (- e)).
    { assert (Hsplit : 2 ^ (- E) = 2 ^ (- e) * 2 ^ (e - E)).
      { rewrite <- Z.pow_add_r by lia. f_equal. lia. }
      rewrite Hsplit in Hval. nia. }
    unfold GoFloat.roundSF.
    destruct (Z.leb_spec 0 e) as [|_]; [lia|].
    pose proof (Z.div_mod (Zpos m) (2 ^ (- e)) ltac:(lia)) as Hdm.
    pose proof (Z.mod_pos_bound (Zpos m) (2 ^ (- e)) Hunit) as Hrem.
    assert (Hk0 : 0 <= Zpos m / 2 ^ (- e)) by (apply Z.div_pos; lia).
    assert (Hk : Zpos m / 2 ^ (- e) <= 100) by (apply Z.div_le_upper_bound; lia).
    destruct (Z.leb_spec (2 ^ (- e)) (2 * (Zpos m mod 2 ^ (- e)))) as [Hup|Hdown].
    + exists (Zpos m / 2 ^ (- e) + 1). split; [|reflexivity].
      split; [lia|].
      destruct (Z.eq_dec (Zpos m / 2 ^ (- e)) 100) as [Heq|]; [|lia].
      rewrite Heq in Hdm. nia.
    + exists (Zpos m / 2 ^ (- e)). split; [lia|reflexivity].
Qed.

(** Each of the integers from 0 to 100, divided by 100, lies between 0
    and 1. *)
Lemma hundredths_in_unit k :
  0 <= k <= 100 ->
  let c := (SF2Prim (binary_normalize prec emax k 0 false) / 100)%float in
  (0 <=? c)%float = true /\ (c <=? 1)%float = true.
Proof.
  intros Hk.
  assert (Hall : forallb (fun n =>
            (0 <=? SF2Prim (binary_normalize prec emax (Z.of_nat n) 0 false) / 100)%float
            && (SF2Prim (binary_normalize prec emax (Z.of_nat n) 0 false) / 100 <=? 1)%float)
            (seq 0 101) = true) by (vm_compute; reflexivity).
  rewrite forallb_forall in Hall.
  specialize (Hall (Z.to_nat k)). rewrite Z2Nat.id in Hall by lia.
  apply andb_true_iff. apply Hall. apply in_seq. lia.
Qed.

(** *** The confidence *)

Lemma ofInt_decoded z :
  0 <= z < 2 ^ 53 ->
  Prim2SF (GoFloat.ofInt z) = binary_normalize prec emax z 0 false.
Proof.
  intros Hz. unfold GoFloat.ofInt.
  destruct (Z.eqb_spec z GoInt.min_int) as [Hmin|_];
    [unfold GoInt.min_int in Hmin; lia|].
  destruct (Z.ltb_spec z 0) as [|_]; [lia|].
  rewrite FloatAxioms.of_uint63_spec. f_equal.
  rewrite Uint63.of_Z_spec. apply Z.mod_small.
  assert (HwB : Uint63.wB = 2 ^ 63) by reflexivity.
  rewrite HwB. lia.
Qed.

(** A non-negative score over a positive total that is at least as large,
    both exactly representable, gives a confidence between 0 and 1. *)
Lemma confidenceOf_in_unit maxScore total :
  0 <= maxScore <= total -> 0 < total < 2 ^ 53 ->
  (0 <=? confidenceOf maxScore total)%float = true
  /\ (confidenceOf maxScore total <=? 1)%float = true.
Proof.
  intros [Hmax Hle] [Hpos Hlt].
  unfold confidenceOf, GoFloat.Round.
  set (q := (GoFloat.ofInt maxScore / GoFloat.ofInt total)%float).
  set (y := (q * 100)%float).
  destruct (binary_normalize_int total ltac:(lia)) as (mB & eB & HB & HeB & HmB).
  (* the quotient is at most 1 *)
  assert (Hq : atMostInt (Prim2SF q) 1).
  { unfold q. rewrite FloatAxioms.div_spec, !ofInt_decoded by lia. rewrite HB.
    destruct (Z.eq_dec maxScore 0) as [->|Hnz].
    - left. reflexivity.
    - destruct (binary_normalize_int maxScore ltac:(lia)) as (mA & eA & -> & HeA & HmA).
      apply (SFdiv_at_most_one mA eA mB eB maxScore total); auto; lia. }
  (* the product is at most 100 *)
  assert (Hy : exists E, E <= 0 /\ atMost (Prim2SF y) (100 * 2 ^ (- E)) E).
  { unfold y. rewrite FloatAxioms.mul_spec, hundred_decoded.
    destruct Hq as [->|(mq & eq & -> & Heq & Hmq)].
    - exists 0. split; [lia|]. left. reflexivity.
    - apply SFmul_at_most_hundred; [exact Heq|lia]. }
  destruct Hy as (E & HE & Hy).
  destruct (roundSF_hundred (Prim2SF y) E (Prim2SF_valid y) HE Hy) as (k & Hk & ->).
  apply hundredths_in_unit. exact Hk.
Qed.

Lemma pickWinner_max s :
  snd (pickWinner s) = Z.max (anthropic s) (Z.max (bedrock s) (antigravity s)).
Proof.
  unfold pickWinner. simpl.
  destruct (Z.ltb_spec (anthropic s) (bedrock s)); simpl;
    [destruct (Z.ltb_spec (bedrock s) (antigravity s))
    |destruct (Z.ltb_spec (anthropic s) (antigravity s))]; simpl; lia.
Qed.

(** The confidence of [analyze] for a list with a valid fingerprint,
    read off the verdict block. *)
Lemma analyze_confidence fps model :
  validFingerprints fps <> [] ->
  let s := DetectResult.Scores (analyze fps model) in
  DetectResult.Confidence (analyze fps model) =
    if totalScore s =? 0 then 0%float
    else confidenceOf (snd (pickWinner s)) (totalScore s).
Proof.
  intros Hne. unfold analyze.
  destruct (validFingerprints fps) as [|fp v] eqn:Hv; [congruence|].
  cbn [DetectResult.Confidence DetectResult.Scores].
  set (f := findings (fp :: v)).
  unfold decide_verdict.
  destruct (totalScore (scores (tally f)) =? 0).
  - destruct (0 <? length (missingFlags f))%nat; reflexivity.
  - destruct (pickWinner (scores (tally f))) as [winner maxScore]. cbn [snd].
    unfold markSuspicious. cbn [dSuspicious dConfidence].
    destruct winner; try reflexivity.
    destruct (2 <=? length (missingFlags f))%nat; reflexivity.
Qed.

Lemma fingerprintLimit_exact n :
  0 <= n <= fingerprintLimit -> 126 * n < 2 ^ 53.
Proof. unfold fingerprintLimit. lia. Qed.

(** C3. The confidence of the result of [analyze] lies between 0.0 and
    1.0; when the total of the final scores is positive it is the maximum
    score divided by the total, times 100, rounded to the nearest integer
    and divided by 100, all in [float64]; when the total is 0, which
    includes the case of no valid fingerprint, it is 0.0. *)
Theorem confidence_bounds_and_formula fps model :
  Z.of_nat (length fps) <= fingerprintLimit ->
  let r := analyze fps model in
  let s := DetectResult.Scores r in
  let total := anthropic s + bedrock s + antigravity s in
  let maxScore := Z.max (anthropic s) (Z.max (bedrock s) (antigravity s)) in
  ((0 <=? DetectResult.Confidence r)%float = true
   /\ (DetectResult.Confidence r <=? 1)%float = true)
  /\ (0 < total ->
      DetectResult.Confidence r
      = (GoFloat.Round (GoFloat.ofInt maxScore / GoFloat.ofInt total * 100) / 100)%float)
  /\ (total = 0 -> DetectResult.Confidence r = 0%float).
Proof.
  intros Hlen r s total maxScore.
  destruct (validFingerprints fps) as [|fp v] eqn:Hv.
  - (* every probe failed *)
    assert (Hr : r = analyze fps model) by reflexivity.
    unfold analyze in Hr. rewrite Hv in Hr.
    assert (Hc : DetectResult.Confidence r = 0%float) by (rewrite Hr; reflexivity).
    assert (Ht : total = 0) by (unfold total, s; rewrite Hr; reflexivity).
    rewrite Hc. repeat split; try reflexivity. lia.
  - assert (Hne : validFingerprints fps <> []) by congruence.
    pose proof (analyze_confidence fps model Hne) as Hc. cbv zeta in Hc. fold r s in Hc.
    destruct (analyze_total fps model Hlen Hne) as (Hsum & Ha & Hb & Hg).
    fold r s in Hsum, Ha, Hb, Hg. fold total in Hsum.
    rewrite pickWinner_max, Hsum in Hc. fold maxScore in Hc.
    assert (Hexact : total < 2 ^ 53).
    { pose proof (validFingerprints_length fps) as Hvl.
      assert (Hlim : Z.of_nat (length (validFingerprints fps)) <= fingerprintLimit) by lia.
      pose proof (findings_ranged _ Hlim) as (Hra & Hrb & Hrg).
      destruct (analyze_verdict fps model Hne) as [Hs _]. fold r s in Hs.
      rewrite <- Hs in Hra, Hrb, Hrg.
      pose proof (fingerprintLimit_exact (Z.of_nat (length (validFingerprints fps)))
                    ltac:(lia)).
      unfold total. lia. }
    destruct (Z.eqb_spec total 0) as [Hzero|Hnz].
    + rewrite Hc. repeat split; try reflexivity. lia.
    + rewrite Hc. split; [|split; [reflexivity|lia]].
      apply confidenceOf_in_unit; unfold maxScore, total; lia.
Qed.

Lemma confidence_bounds_and_formula_witness :
  DetectResult.Scores (analyze vertexBehindTooluse "claude-sonnet-4-5-20250929")
  = {| anthropic := 0; bedrock := 0; antigravity := 16 |}
  /\ DetectResult.Confidence (analyze vertexBehindTooluse "claude-sonnet-4-5-20250929")
     = 1%float
  /\ (DetectResult.Confidence (analyze vertexBehindTooluse "claude-sonnet-4-5-20250929")
      <=? 1)%float = true.
Proof.
  destruct (confidence_bounds_and_formula vertexBehindTooluse "claude-sonnet-4-5-20250929")
    as ((_ & Hle) & Hformula & _).
  - vm_compute. discriminate.
  - split; [reflexivity|]. split; [|exact Hle].
    rewrite Hformula by (vm_compute; reflexivity).
    vm_compute. reflexivity.
Defined.
(** * Further properties of the code *)

(** ** SafeDialer: what goes through *)

Lemma checkIPs_passes ips :
  checkIPs ips = None <-> Forall (fun ip => isInternal ip = false) ips.
Proof.
  induction ips as [|ip rest IH]; simpl.
  - split; [constructor|reflexivity].
  - rewrite Forall_cons_iff. destruct (isInternal ip) eqn:Hint.
    + split; [discriminate|intros [H _]; discriminate].
    + destruct (Net.Equal ip metadataIP) eqn:Heq.
      * apply metadata_is_link_local in Heq.
        unfold isInternal in Hint. rewrite Heq, !orb_true_r in Hint. discriminate.
      * rewrite IH. tauto.
Qed.

(** X1. The safe dialer hands a dial to the network exactly when the
    address splits, DNS answers, and none of the resolved addresses is
    loopback, private, link-local or unspecified; the connection is then
    attempted on the same network to the host name and port as given (not
    to one of the addresses that were checked).  With no resolved address
    at all the dial goes through. *)
Theorem safe_dial_attempt_iff
    (SplitHostPort : string -> result (string * string))
    (LookupIPAddr : string -> result (list Net.IP))
    (network addr n hp : string) :
  safeDialer SplitHostPort LookupIPAddr network addr = DialAttempt n hp <->
  exists host port ips,
    SplitHostPort addr = Ok (host, port)
    /\ LookupIPAddr host = Ok ips
    /\ Forall (fun ip => isInternal ip = false) ips
    /\ n = network /\ hp = Net.JoinHostPort host port.
Proof.
  unfold safeDialer. split.
  - destruct (SplitHostPort addr) as [[host port]|e]; [|discriminate].
    destruct (LookupIPAddr host) as [ips|e] eqn:Hdns; [|discriminate].
    destruct (checkIPs ips) as [msg|] eqn:Hcheck; [discriminate|].
    intros [= <- <-]. exists host, port, ips.
    rewrite <- checkIPs_passes. auto.
  - intros (host & port & ips & -> & Hdns & Hall & -> & ->).
    rewrite Hdns. apply checkIPs_passes in Hall. rewrite Hall. reflexivity.
Qed.

Lemma To4_mapped a b c d : Net.To4 (Net.IPv4 a b c d) = Some [a; b; c; d].
Proof. reflexivity. Qed.

(** X2. The guard of the dialer does not depend on how an IPv4 address is
    encoded: the 4-byte form and the IPv4-mapped 16-byte form of the same
    address are both refused or both let through, so is a whole list of
    resolved addresses. *)
Theorem guard_ignores_ipv4_encoding (ips : list Net.IP) :
  checkIPs (map mappedForm ips) = checkIPs ips.
Proof.
  assert (Hint : forall ip, isInternal (mappedForm ip) = isInternal ip).
  { intros ip. destruct ip as [|a [|b [|c [|d [|e rest]]]]]; reflexivity. }
  assert (Hmeta : forall ip,
            Net.Equal (mappedForm ip) metadataIP = Net.Equal ip metadataIP).
  { intros ip. destruct ip as [|a [|b [|c [|d [|e rest]]]]]; reflexivity. }
  induction ips as [|ip rest IH]; [reflexivity|].
  cbn [map checkIPs]. rewrite Hint, Hmeta, IH. reflexivity.
Qed.
(** ** ResponseParser: when a probe counts *)

Lemma prefix_empty s : String.prefix "" s = true.
Proof. destruct s; reflexivity. Qed.

(** ** ResponseParser: the tool id *)

Lemma prefix_cons_inv a s1 s2 :
  String.prefix (String a s1) s2 = true ->
  exists s2', s2 = String a s2' /\ String.prefix s1 s2' = true.
Proof.
  destruct s2 as [|b s2']; simpl; [discriminate|].
  destruct (ascii_dec a b) as [->|]; [eauto|discriminate].
Qed.

Ltac invert_prefix H :=
  repeat (apply prefix_cons_inv in H as (? & -> & H)).

(** The three shapes of a tool id exclude one another. *)
Lemma tool_id_shapes_exclusive id :
  (Strings.HasPrefix id bedrockToolPrefix = true ->
     Strings.HasPrefix id anthropicToolPrefix = false /\ toolNPattern id = false)
  /\ (Strings.HasPrefix id anthropicToolPrefix = true ->
        Strings.HasPrefix id bedrockToolPrefix = false /\ toolNPattern id = false)
  /\ (toolNPattern id = true ->
        Strings.HasPrefix id bedrockToolPrefix = false
        /\ Strings.HasPrefix id anthropicToolPrefix = false).
Proof.
  unfold Strings.HasPrefix, bedrockToolPrefix, anthropicToolPrefix, toolNPattern,
    Strings.HasPrefix.
  repeat split.
  - invert_prefix H. reflexivity.
  - invert_prefix H. reflexivity.
  - invert_prefix H. reflexivity.
  - invert_prefix H. reflexivity.
  - apply andb_true_iff in H as [H _]. invert_prefix H. reflexivity.
  - apply andb_true_iff in H as [H _]. invert_prefix H. reflexivity.
Qed.

Lemma classifyToolID_empty previous : classifyToolID previous "" = previous.
Proof. reflexivity. Qed.

Lemma classifyToolID_fresh previous id :
  id <> "" -> classifyToolID previous id = classifyToolID "" id.
Proof.
  intros Hne. unfold classifyToolID.
  destruct (Strings.HasPrefix id bedrockToolPrefix); [reflexivity|].
  destruct (Strings.HasPrefix id anthropicToolPrefix); [reflexivity|].
  destruct (toolNPattern id); [reflexivity|].
  destruct (String.eqb_spec id ""); [contradiction|reflexivity].
Qed.

Lemma scanBlock_tool st block :
  bToolID (scanBlock st block) =
    match toolUseID block with Some id => id | None => bToolID st end
  /\ bToolIDSource (scanBlock st block) =
    match toolUseID block with
    | Some id => classifyToolID (bToolIDSource st) id
    | None => bToolIDSource st
    end.
Proof.
  unfold scanBlock, toolUseID.
  destruct block as [| | | | |bm]; try (split; reflexivity).
  destruct (isString (field "type" bm) "tool_use"),
    (isString (field "type" bm) "thinking"); split; reflexivity.
Qed.

Lemma classify_ids ids : forall previous,
  fold_left classifyToolID ids previous =
  match last (List.filter nonEmpty ids) with
  | Some id => classifyToolID "" id
  | None => previous
  end.
Proof.
  induction ids as [|id rest IH]; intros previous; [reflexivity|].
  cbn [fold_left List.filter]. rewrite IH. unfold nonEmpty at 2.
  destruct (String.eqb_spec id "") as [->|Hne]; cbn [negb].
  - reflexivity.
  - rewrite last_cons.
    destruct (last (List.filter nonEmpty rest)); [reflexivity|].
    apply classifyToolID_fresh. exact Hne.
Qed.

Lemma scanBlocks_tool content : forall st,
  let ids := omap toolUseID content in
  bToolID (fold_left scanBlock content st) = default (bToolID st) (last ids)
  /\ bToolIDSource (fold_left scanBlock content st)
     = fold_left classifyToolID ids (bToolIDSource st).
Proof.
  induction content as [|block rest IH]; intros st; [split; reflexivity|].
  cbn [fold_left omap list_omap]. cbn zeta in *.
  destruct (IH (scanBlock st block)) as [Hid Hsrc]. rewrite Hid, Hsrc.
  destruct (scanBlock_tool st block) as [Hid1 Hsrc1]. rewrite Hid1, Hsrc1.
  destruct (toolUseID block) as [id|]; [|split; reflexivity].
  rewrite last_cons. cbn [fold_left].
  destruct (last (omap toolUseID rest)); split; reflexivity.
Qed.

Lemma probeOnce_tool Unmarshal SprintV latency resp model probeType body :
  StatusCode resp = 200 -> BodyReadFails resp = false ->
  Unmarshal (BodyBytes resp) = Some body ->
  let fp := probeOnce Unmarshal SprintV (Responded latency resp) model probeType in
  ToolID fp = bToolID (scanContent body)
  /\ ToolIDSource fp = bToolIDSource (scanContent body).
Proof.
  intros Hstatus Hread Hbody. unfold probeOnce.
  rewrite Hstatus, Hread, Hbody. simpl negb. cbv iota.
  destruct (detectProxyPlatform (RespHeader resp)) as [platform clues].
  destruct (ratelimitHeaders (RespHeader resp)) as [[limit remaining] reset].
  split; reflexivity.
Qed.

(** X4. For a response that parses, the tool id recorded is the id of the
    last [tool_use] block (empty when there is none), while its source tag
    is decided by the last [tool_use] block whose id is not empty: bedrock
    for a [tooluse_] prefix, anthropic for [toolu_], vertex for [tool_]
    followed by digits only, rewritten for any other id.  The three shapes
    exclude one another, so the order of the tests in the code does not
    matter; with no non-empty id the tag stays empty. *)
Theorem tool_id_of_response
    (Unmarshal : string -> option (list (string * JSON))) (SprintV : JSON -> string)
    (latency : Z) (resp : Response) (model probeType : string)
    (body : list (string * JSON)) :
  StatusCode resp = 200 -> BodyReadFails resp = false ->
  Unmarshal (BodyBytes resp) = Some body ->
  let fp := probeOnce Unmarshal SprintV (Responded latency resp) model probeType in
  let ids := toolUseIDs body in
  ToolID fp = default "" (last ids)
  /\ (List.filter nonEmpty ids = [] -> ToolIDSource fp = "")
  /\ (forall id, last (List.filter nonEmpty ids) = Some id ->
        (Strings.HasPrefix id "tooluse_" = true <-> ToolIDSource fp = "bedrock")
        /\ (Strings.HasPrefix id "toolu_" = true <-> ToolIDSource fp = "anthropic")
        /\ (toolNPattern id = true <-> ToolIDSource fp = "vertex")
        /\ (Strings.HasPrefix id "tooluse_" = false
            /\ Strings.HasPrefix id "toolu_" = false
            /\ toolNPattern id = false <-> ToolIDSource fp = "rewritten")).
Proof.
  intros Hstatus Hread Hbody fp ids.
  destruct (probeOnce_tool Unmarshal SprintV latency resp model probeType body
              Hstatus Hread Hbody) as [Hid Hsrc].
  fold fp in Hid, Hsrc. rewrite Hid, Hsrc. clear Hid Hsrc.
  assert (Hscan : bToolID (scanContent body) = default "" (last ids)
                  /\ bToolIDSource (scanContent body) = fold_left classifyToolID ids "").
  { unfold ids, scanContent, toolUseIDs.
    destruct (field "content" body) as [[| | | |content|]|]; try (split; reflexivity).
    apply (scanBlocks_tool content noBlockFields). }
  destruct Hscan as [Hid Hsrc]. rewrite Hid, Hsrc, classify_ids.
  split; [reflexivity|]. split; [intros ->; reflexivity|].
  intros id Hlast. rewrite Hlast.
  assert (Hne : id <> "").
  { assert (Hin : In id (List.filter nonEmpty ids)).
    { apply list_elem_of_In, last_Some_elem_of. exact Hlast. }
    apply filter_In in Hin as [_ Hin]. unfold nonEmpty in Hin.
    destruct (String.eqb_spec id ""); [discriminate|assumption]. }
  destruct (tool_id_shapes_exclusive id) as (Hb & Ha & Hv).
  unfold bedrockToolPrefix, anthropicToolPrefix in *.
  unfold classifyToolID, bedrockToolPrefix, anthropicToolPrefix.
  destruct (Strings.HasPrefix id "tooluse_") eqn:Eb.
  { destruct (Hb eq_refl) as [-> ->].
    repeat split; try discriminate; try reflexivity; intros (? & ? & ?); discriminate. }
  destruct (Strings.HasPrefix id "toolu_") eqn:Ea.
  { destruct (Ha eq_refl) as [_ ->].
    repeat split; try discriminate; try reflexivity; intros (? & ? & ?); discriminate. }
  destruct (toolNPattern id) eqn:Ev.
  { repeat split; try discriminate; try reflexivity; intros (? & ? & ?); discriminate. }
  destruct (String.eqb_spec id ""); [contradiction|]. cbn [negb].
  repeat split; try discriminate; try reflexivity.
Qed.

Lemma tool_id_of_response_witness :
  ToolID (probeOnce (fun _ => Some staleToolBody) sprintSample
            (Responded 300 plainResponse) "claude-3-haiku-20240307" "tool") = ""
  /\ ToolIDSource (probeOnce (fun _ => Some staleToolBody) sprintSample
                     (Responded 300 plainResponse) "claude-3-haiku-20240307" "tool")
     = "anthropic".
Proof.
  destruct (tool_id_of_response (fun _ => Some staleToolBody) sprintSample 300
              plainResponse "claude-3-haiku-20240307" "tool" staleToolBody
              eq_refl eq_refl eq_refl) as (Hid & _ & Hsrc).
  split; [exact Hid|].
  destruct (Hsrc "toolu_01XyZ" eq_refl) as (_ & Ha & _).
  apply Ha. reflexivity.
Defined.
(** ** Classifier: failed probes *)

Lemma validFingerprints_idempotent fps :
  validFingerprints (validFingerprints fps) = validFingerprints fps.
Proof.
  unfold validFingerprints. induction fps as [|fp rest IH]; [reflexivity|].
  cbn [List.filter]. destruct (String.eqb (Error fp) "") eqn:He; [|exact IH].
  cbn [List.filter]. rewrite He, IH. reflexivity.
Qed.

Lemma validFingerprints_none fps :
  Forall (fun fp => Error fp <> "") fps -> validFingerprints fps = [].
Proof.
  unfold validFingerprints. induction 1 as [|fp rest Hfp _ IH]; [reflexivity|].
  cbn [List.filter]. destruct (String.eqb_spec (Error fp) ""); [contradiction|exact IH].
Qed.

Lemma verdictText_unknown : verdictText "unknown" = "无法确定".
Proof. vm_compute. reflexivity. Qed.

(** X5. Probes that failed do not count: apart from the fingerprint list
    that is echoed back, the result of [analyze] is the one it gives for
    the error-free fingerprints alone; and when every probe failed (or
    there was none) the result is the fixed "unknown" answer with zero
    scores, zero confidence and the single evidence line that says so. *)
Theorem failed_probes_do_not_count fps model :
  let r := analyze fps model in
  let r' := analyze (validFingerprints fps) model in
  (DetectResult.Verdict r = DetectResult.Verdict r'
   /\ DetectResult.VerdictText r = DetectResult.VerdictText r'
   /\ DetectResult.Confidence r = DetectResult.Confidence r'
   /\ DetectResult.Scores r = DetectResult.Scores r'
   /\ DetectResult.Evidence r = DetectResult.Evidence r'
   /\ DetectResult.AvgLatencyMs r = DetectResult.AvgLatencyMs r'
   /\ DetectResult.ProxyPlatform r = DetectResult.ProxyPlatform r'
   /\ DetectResult.PlatformClues r = DetectResult.PlatformClues r'
   /\ DetectResult.Fingerprints r = fps)
  /\ (Forall (fun fp => Error fp <> "") fps ->
      r = {| DetectResult.Verdict := "unknown";
             DetectResult.VerdictText := "无法确定";
             DetectResult.Confidence := 0%float;
             DetectResult.Scores := zeroScores;
             DetectResult.Evidence := ["所有探测均失败"];
             DetectResult.Fingerprints := fps;
             DetectResult.Model := model;
             DetectResult.AvgLatencyMs := 0;
             DetectResult.ProxyPlatform := "";
             DetectResult.PlatformClues := [];
             DetectResult.RatelimitVerify := None |}).
Proof.
  intros r r'. subst r r'. split.
  - unfold analyze. rewrite validFingerprints_idempotent.
    destruct (validFingerprints fps);
      cbn [DetectResult.Verdict DetectResult.VerdictText DetectResult.Confidence
           DetectResult.Scores DetectResult.Evidence DetectResult.AvgLatencyMs
           DetectResult.ProxyPlatform DetectResult.PlatformClues
           DetectResult.Fingerprints];
      repeat (split; [reflexivity|]); reflexivity.
  - intros Hall. unfold analyze. rewrite (validFingerprints_none fps Hall).
    rewrite verdictText_unknown. reflexivity.
Qed.

(** ** Classifier: the verdict and its text *)

Lemma analyze_verdict_in fps model :
  In (DetectResult.Verdict (analyze fps model)) analyzeVerdicts.
Proof.
  unfold analyze.
  destruct (validFingerprints fps) as [|fp v] eqn:Hv.
  - cbn [DetectResult.Verdict]. unfold analyzeVerdicts; cbn [In]; tauto.
  - cbn [DetectResult.Verdict].
    set (f := findings (fp :: v)).
    unfold markSuspicious, decide_verdict.
    destruct (totalScore (scores (tally f)) =? 0).
    + destruct (0 <? length (missingFlags f))%nat;
        cbn [dSuspicious dVerdict In analyzeVerdicts]; tauto.
    + destruct (pickWinner (scores (tally f))) as [winner maxScore].
      cbn [dSuspicious].
      destruct winner; [destruct (2 <=? length (missingFlags f))%nat| |];
        cbn [dSuspicious dVerdict bucketKey In analyzeVerdicts]; tauto.
Qed.

Lemma analyze_VerdictText fps model :
  DetectResult.VerdictText (analyze fps model)
  = if String.eqb (verdictText (DetectResult.Verdict (analyze fps model))) ""
    then DetectResult.Verdict (analyze fps model)
    else verdictText (DetectResult.Verdict (analyze fps model)).
Proof.
  unfold analyze. destruct (validFingerprints fps) as [|fp v];
    cbn [DetectResult.Verdict DetectResult.VerdictText]; [|reflexivity].
  rewrite verdictText_unknown. reflexivity.
Qed.

(** X6. The verdict of [analyze] is always one of anthropic, bedrock,
    antigravity, suspicious and unknown, and the verdict text is the entry
    of the verdict table for it; the fallback that would copy the verdict
    into an empty text is never taken. *)
Theorem analyze_verdict_text fps model :
  let r := analyze fps model in
  In (DetectResult.Verdict r) analyzeVerdicts
  /\ verdictTextMap !! DetectResult.Verdict r = Some (DetectResult.VerdictText r)
  /\ DetectResult.VerdictText r <> "".
Proof.
  cbv zeta. pose proof (analyze_verdict_in fps model) as Hd.
  split; [exact Hd|]. rewrite analyze_VerdictText.
  revert Hd. generalize (DetectResult.Verdict (analyze fps model)). intros v Hd.
  unfold analyzeVerdicts in Hd. cbn [In] in Hd.
  destruct Hd as [<-|[<-|[<-|[<-|[<-|[]]]]]];
    (split; [vm_compute; reflexivity|vm_compute; discriminate]).
Qed.
(** ** Classifier: evidence *)

(** Either nothing was scored yet or some evidence line says why. *)
Lemma credit_accounted k n line t :
  scores (credit k n line t) = zeroScores \/ evidence (credit k n line t) <> [].
Proof. right. unfold credit. cbn. destruct (evidence t); discriminate. Qed.

Lemma note_accounted line t :
  scores (note line t) = zeroScores \/ evidence (note line t) <> [].
Proof. right. unfold note. cbn. destruct (evidence t); discriminate. Qed.

Ltac step_accounted :=
  let H := fresh "Hprev" in
  intros H;
  repeat match goal with
         | |- context [if ?c then _ else _] => destruct c
         end;
  first [exact H | apply credit_accounted | apply note_accounted].

Lemma scoreFingerprint_accounted i fp t :
  scores t = zeroScores \/ evidence t <> [] ->
  scores (scoreFingerprint i fp t) = zeroScores
  \/ evidence (scoreFingerprint i fp t) <> [].
Proof.
  intros Hacc. unfold scoreFingerprint.
  set (tag := "[R" +:+ Strconv.Itoa (Z.of_nat i + 1) +:+ "]").
  assert (H1 : let t1 := toolIDSignal tag fp t in
               scores t1 = zeroScores \/ evidence t1 <> []).
  { revert Hacc. unfold toolIDSignal. step_accounted. }
  set (t1 := toolIDSignal tag fp t) in *. cbv zeta in H1.
  assert (H2 : let t2 := thinkingSignal tag fp t1 in
               scores t2 = zeroScores \/ evidence t2 <> []).
  { revert H1. unfold thinkingSignal. step_accounted. }
  set (t2 := thinkingSignal tag fp t1) in *. cbv zeta in H2.
  assert (H3 : let t3 := msgIDSignal tag fp t2 in
               scores t3 = zeroScores \/ evidence t3 <> []).
  { revert H2. unfold msgIDSignal. step_accounted. }
  set (t3 := msgIDSignal tag fp t2) in *. cbv zeta in H3.
  assert (H4 : let t4 := modelSignal tag fp t3 in
               scores t4 = zeroScores \/ evidence t4 <> []).
  { revert H3. unfold modelSignal. step_accounted. }
  set (t4 := modelSignal tag fp t3) in *. cbv zeta in H4.
  assert (H5 : let t5 := serviceTierSignal tag fp t4 in
               scores t5 = zeroScores \/ evidence t5 <> []).
  { revert H4. unfold serviceTierSignal. step_accounted. }
  set (t5 := serviceTierSignal tag fp t4) in *. cbv zeta in H5.
  assert (H6 : let t6 := inferenceGeoSignal tag fp t5 in
               scores t6 = zeroScores \/ evidence t6 <> []).
  { revert H5. unfold inferenceGeoSignal. step_accounted. }
  set (t6 := inferenceGeoSignal tag fp t5) in *. cbv zeta in H6.
  assert (H7 : let t7 := cacheCreationSignal tag fp t6 in
               scores t7 = zeroScores \/ evidence t7 <> []).
  { revert H6. unfold cacheCreationSignal. step_accounted. }
  set (t7 := cacheCreationSignal tag fp t6) in *. cbv zeta in H7.
  assert (H8 : let t8 := usageSignal tag fp t7 in
               scores t8 = zeroScores \/ evidence t8 <> []).
  { revert H7. unfold usageSignal. step_accounted. }
  set (t8 := usageSignal tag fp t7) in *. cbv zeta in H8.
  assert (H9 : let t9 := awsHeaderSignal tag fp t8 in
               scores t9 = zeroScores \/ evidence t9 <> []).
  { revert H8. unfold awsHeaderSignal. step_accounted. }
  set (t9 := awsHeaderSignal tag fp t8) in *. cbv zeta in H9.
  revert H9. unfold anthropicHeaderSignal. step_accounted.
Qed.

Lemma scoreAll_accounted validFPs : forall i t,
  scores t = zeroScores \/ evidence t <> [] ->
  scores (scoreAll i validFPs t) = zeroScores \/ evidence (scoreAll i validFPs t) <> [].
Proof.
  induction validFPs as [|fp rest IH]; intros i t Hacc; [exact Hacc|].
  cbn [scoreAll]. apply IH, scoreFingerprint_accounted, Hacc.
Qed.

Lemma snoc_not_nil {A} (l : list A) x : l ++ [x] <> [].
Proof. destruct l; discriminate. Qed.

Lemma beforeClamp_accounted validFPs :
  scores (tally (beforeClamp validFPs)) = zeroScores
  \/ evidence (tally (beforeClamp validFPs)) <> [].
Proof.
  assert (H1 : scores (afterScoring validFPs) = zeroScores
               \/ evidence (afterScoring validFPs) <> []).
  { unfold afterScoring. apply scoreAll_accounted. left. reflexivity. }
  assert (H2 : scores (afterCorrection validFPs) = zeroScores
               \/ evidence (afterCorrection validFPs) <> []).
  { unfold afterCorrection, kiroRewriteNote, attributionCorrection.
    repeat match goal with
           | |- context [if ?c then _ else _] => destruct c
           end;
      first [exact H1 | apply note_accounted | right; cbn; apply snoc_not_nil]. }
  unfold beforeClamp, negativeEvidence.
  repeat match goal with
         | |- context [if ?c then _ else _] => destruct c
         end;
    first [exact H2 | right; cbn; apply snoc_not_nil].
Qed.

(** X7. The result of [analyze] always carries at least one evidence
    line: a positive score is never reported without the line that
    explains it, and a total of zero is reported with a line that says
    so. *)
Theorem analyze_evidence_nonempty fps model :
  DetectResult.Evidence (analyze fps model) <> [].
Proof.
  unfold analyze. destruct (validFingerprints fps) as [|fp v]; [discriminate|].
  cbn [DetectResult.Evidence].
  set (f := findings (fp :: v)).
  assert (Hacc : totalScore (scores (tally f)) <> 0 -> evidence (tally f) <> []).
  { intros Htotal. unfold f, findings in *. cbn [tally scores evidence] in *.
    destruct (beforeClamp_accounted (fp :: v)) as [Hzero|Hev]; [|exact Hev].
    exfalso. apply Htotal. rewrite Hzero. reflexivity. }
  unfold markSuspicious, decide_verdict.
  destruct (Z.eqb_spec (totalScore (scores (tally f))) 0) as [Hz|Hnz].
  - destruct (0 <? length (missingFlags f))%nat; cbn [dSuspicious dEvidence].
    + rewrite <- app_assoc. apply not_eq_sym, app_cons_not_nil.
    + apply snoc_not_nil.
  - destruct (pickWinner (scores (tally f))) as [winner maxScore].
    cbn [dSuspicious dEvidence].
    destruct winner; [destruct (2 <=? length (missingFlags f))%nat| |];
      cbn [dEvidence]; auto.
    intros Happ. apply app_eq_nil in Happ as [_ Happ]. discriminate.
Qed.

(** ** Classifier: the suspicious verdict *)

Lemma div_eucl_exact a b :
  0 < b -> Z.div_eucl (b * a) b = (a, 0).
Proof.
  intros Hb.
  assert (H : Z.div_eucl (b * a) b = ((b * a) / b, (b * a) mod b)).
  { unfold Z.div, Z.modulo. destruct (Z.div_eucl (b * a) b); reflexivity. }
  rewrite H. f_equal.
  - rewrite Z.mul_comm. apply Z.div_mul. lia.
  - rewrite Z.mul_comm. apply Z.mod_mul. lia.
Qed.

(** A finite number divided by itself is 1. *)
Lemma SFdiv_self m e :
  SFdiv prec emax (S754_finite false m e) (S754_finite false m e) = Prim2SF 1.
Proof.
  unfold SFdiv, SFdiv_core_binary. cbn [xorb Zdigits2].
  replace (Zpos (digits2_pos m) + e - (Zpos (digits2_pos m) + e)) with 0 by lia.
  replace (e - e) with 0 by lia.
  change (Z.min (fexp prec emax 0) 0) with (-53).
  change (0 - -53) with 53. cbv iota beta.
  rewrite Z.shiftl_mul_pow2 by lia.
  rewrite div_eucl_exact by lia.
  assert (Hloc : new_location (Zpos m) 0 = loc_Exact)
    by (apply new_location_exact; reflexivity).
  rewrite Hloc. vm_compute. reflexivity.
Qed.

Lemma confidenceOf_whole a :
  0 < a < 2 ^ 53 -> confidenceOf a a = 1%float.
Proof.
  intros Ha. unfold confidenceOf.
  assert (Hone : (GoFloat.ofInt a / GoFloat.ofInt a)%float = 1%float).
  { apply Prim2SF_inj. rewrite FloatAxioms.div_spec, ofInt_decoded by lia.
    destruct (binary_normalize_int a Ha) as (m & e & -> & _).
    apply SFdiv_self. }
  rewrite Hone. vm_compute. reflexivity.
Qed.

Lemma decide_verdict_never_suspicious s missing evidence :
  dVerdict (decide_verdict s missing evidence) <> "suspicious".
Proof.
  unfold decide_verdict. destruct (totalScore s =? 0).
  - destruct (0 <? length missing)%nat; discriminate.
  - destruct (pickWinner s) as [winner maxScore]. destruct winner; discriminate.
Qed.

Lemma markSuspicious_evidence missing d :
  dVerdict d <> "suspicious" ->
  dVerdict (markSuspicious missing d) = "suspicious" ->
  last (dEvidence (markSuspicious missing d))
  = Some "[!!] 中转站可能重写了 tool_id 前缀并注入 service_tier，但无法伪造 inference_geo 和 cache_creation 嵌套对象".
Proof.
  intros Hnot. unfold markSuspicious. destruct (dSuspicious d); [|contradiction].
  intros _. cbn [dEvidence].
  match goal with
  | |- last (?l ++ [?a; ?b]) = _ =>
      replace (l ++ [a; b]) with ((l ++ [a]) ++ [b])
        by (rewrite <- app_assoc; reflexivity)
  end.
  apply last_snoc.
Qed.

Lemma analyze_suspicious_evidence fps model :
  DetectResult.Verdict (analyze fps model) = "suspicious" ->
  last (DetectResult.Evidence (analyze fps model))
  = Some "[!!] 中转站可能重写了 tool_id 前缀并注入 service_tier，但无法伪造 inference_geo 和 cache_creation 嵌套对象".
Proof.
  unfold analyze. destruct (validFingerprints fps) as [|fp v]; [discriminate|].
  cbn [DetectResult.Evidence DetectResult.Verdict].
  apply markSuspicious_evidence, decide_verdict_never_suspicious.
Qed.

(** The facts about a verdict of suspicious, for scores [s] and a list
    of raised flags. *)
Lemma suspicious_raised (s : Scores) (raised : list string) :
  "suspicious" =
    (if totalScore s =? 0 then
       if (0 <? length raised)%nat then "suspicious" else "unknown"
     else
       match fst (pickWinner s) with
       | Anthropic => if (2 <=? length raised)%nat then "suspicious" else "anthropic"
       | Bedrock => "bedrock"
       | Antigravity => "antigravity"
       end) ->
  raised <> [].
Proof.
  intros Hv ->. cbn [length Nat.ltb Nat.leb] in Hv. revert Hv.
  destruct (totalScore s =? 0); [discriminate|].
  destruct (fst (pickWinner s)); discriminate.
Qed.

(** X8. A suspicious verdict is given only on Anthropic evidence alone:
    the bedrock and antigravity scores of the result are 0, so the
    confidence reported with it is 1.0 when any anthropic score is left
    and 0.0 when the penalties used it up, never a value in between; the
    evidence ends with the note on rewritten tool ids. *)
Theorem suspicious_profile fps model :
  Z.of_nat (length fps) <= fingerprintLimit ->
  DetectResult.Verdict (analyze fps model) = "suspicious" ->
  let r := analyze fps model in
  bedrock (DetectResult.Scores r) = 0
  /\ antigravity (DetectResult.Scores r) = 0
  /\ DetectResult.Confidence r
     = (if anthropic (DetectResult.Scores r) =? 0 then 0%float else 1%float)
  /\ last (DetectResult.Evidence r)
     = Some "[!!] 中转站可能重写了 tool_id 前缀并注入 service_tier，但无法伪造 inference_geo 和 cache_creation 嵌套对象".
Proof.
  intros Hlen Hverdict. cbv zeta.
  assert (Hne : validFingerprints fps <> []).
  { intros Hnil. unfold analyze in Hverdict. rewrite Hnil in Hverdict. discriminate. }
  pose proof (analyze_suspicious_evidence fps model Hverdict) as Hev.
  pose proof (analyze_verdict fps model Hne) as [Hs Hv].
  pose proof (analyze_confidence fps model Hne) as Hc. cbv zeta in Hc.
  pose proof (validFingerprints_length fps) as Hvl.
  assert (Hlim : Z.of_nat (length (validFingerprints fps)) <= fingerprintLimit) by lia.
  pose proof (findings_ranged _ Hlim) as (Hra & _).
  pose proof (fingerprintLimit_exact (Z.of_nat (length (validFingerprints fps)))
                ltac:(lia)) as Hexact.
  pose proof (findings_raised (validFingerprints fps)) as Hraised. cbv zeta in Hraised.
  rewrite Hverdict in Hv. apply suspicious_raised in Hv.
  destruct (Hraised Hv) as (Hb & Hg & Htotal & Ha).
  rewrite <- Hs in Hb, Hg, Htotal, Ha, Hra.
  clear Hraised Hv Hs Hverdict Hne.
  revert Hev Hc Hb Hg Htotal Ha Hra.
  generalize (analyze fps model). intros r Hev Hc Hb Hg Htotal Ha Hra.
  split; [exact Hb|]. split; [exact Hg|]. split; [|exact Hev].
  rewrite Hc, Htotal, pickWinner_max, Hb, Hg.
  destruct (Z.eqb_spec (anthropic (DetectResult.Scores r)) 0) as [|Hnz];
    [reflexivity|].
  rewrite Z.max_l by lia.
  apply confidenceOf_whole. lia.
Qed.

Lemma suspicious_profile_witness :
  DetectResult.Confidence (analyze disguisedAnthropic "claude-sonnet-4-5-20250929")
  = 1%float.
Proof.
  destruct (suspicious_profile disguisedAnthropic "claude-sonnet-4-5-20250929")
    as (_ & _ & Hc & _).
  - vm_compute. discriminate.
  - vm_compute. reflexivity.
  - rewrite Hc. vm_compute. reflexivity.
Defined.
(** ** ResponseParser: the proxy platform *)


(** ** DetectionCoordinator: probes and requests *)

Lemma probeOnce_labels Unmarshal SprintV x model probeType :
  ProbeType (probeOnce Unmarshal SprintV x model probeType) = probeType
  /\ ModelRequested (probeOnce Unmarshal SprintV x model probeType) = model.
Proof.
  unfold probeOnce. destruct x as [| |expired|latency resp]; try (split; reflexivity).
  destruct (negb (StatusCode resp =? 200)); [split; reflexivity|].
  destruct (detectProxyPlatform (RespHeader resp)) as [platform clues].
  destruct (ratelimitHeaders (RespHeader resp)) as [[limit remaining] reset].
  destruct (BodyReadFails resp); [split; reflexivity|].
  destruct (Unmarshal (BodyBytes resp)); split; reflexivity.
Qed.

Lemma ratelimitDecision_verdict samples :
  In (rlVerdict (ratelimitDecision samples)) ratelimitVerdicts.
Proof.
  unfold ratelimitDecision, ratelimitVerdicts.
  destruct (length samples <? 2)%nat; [cbn; tauto|].
  destruct (allSame samples); [cbn; tauto|].
  destruct (monotoneDec samples && _); cbn; tauto.
Qed.

Section Requests.

Variable Unmarshal : string -> option (list (string * JSON)).
Variable SprintV : JSON -> string.
Variable respond : nat -> Exchange.
Variable deadlinePassed : nat -> bool.

(** The tool-probe loop: [k] probes, all of type tool for the model; the
    loop stops early only at a look that found the context expired. *)
Lemma toolProbes_shape n model : forall fps p,
  exists k new,
    (k <= n)%nat
    /\ fst (toolProbes Unmarshal SprintV respond deadlinePassed n model fps p) = fps ++ new
    /\ length new = k
    /\ Forall (fun fp => ProbeType fp = "tool" /\ ModelRequested fp = model) new
    /\ issued (snd (toolProbes Unmarshal SprintV respond deadlinePassed n model fps p))
       = (issued p + k)%nat
    /\ (polled p <= polled (snd (toolProbes Unmarshal SprintV respond deadlinePassed
                                   n model fps p)))%nat
    /\ ((k < n)%nat ->
        exists j, (j < polled (snd (toolProbes Unmarshal SprintV respond deadlinePassed
                                      n model fps p)))%nat
                  /\ deadlinePassed j = true)
    /\ ((forall j, deadlinePassed j = false) -> k = n).
Proof.
  induction n as [|n IH]; intros fps p; cbn [toolProbes].
  - exists 0%nat, []. rewrite app_nil_r. cbn. repeat split; auto; try lia.
  - unfold ctxErr. destruct (deadlinePassed (polled p)) eqn:Hexp.
    + exists 0%nat, []. rewrite app_nil_r. cbn. repeat split; auto; try lia.
      * intros _. exists (polled p). split; [lia|exact Hexp].
      * intros Hnever. rewrite Hnever in Hexp. discriminate.
    + unfold probe. cbn [issued polled].
      set (fp := probeOnce Unmarshal SprintV (respond (issued p)) model "tool").
      set (p1 := {| issued := S (issued p); polled := S (polled p) |}).
      destruct (IH (fps ++ [fp]) p1) as (k & new & Hk & Hfps & Hlen & Hall & Hiss & Hpol & Hearly & Hfull).
      exists (S k), (fp :: new). rewrite Hfps, <- app_assoc. cbn [app length].
      split; [lia|]. split; [reflexivity|]. split; [lia|].
      split; [constructor; [apply probeOnce_labels|exact Hall]|].
      split; [rewrite Hiss; cbn; lia|].
      split; [cbn in Hpol; lia|].
      split; [intros Hlt; apply Hearly; lia|].
      intros Hnever. rewrite (Hfull Hnever). reflexivity.
Qed.

Lemma collectSamples_issued n model : forall samples p,
  (issued p <= issued (snd (collectSamples Unmarshal SprintV respond deadlinePassed
                              n model samples p)) <= issued p + n)%nat.
Proof.
  induction n as [|n IH]; intros samples p; cbn [collectSamples]; [cbn; lia|].
  unfold ctxErr. destruct (deadlinePassed (polled p)); [cbn; lia|].
  unfold probe. cbn [issued polled].
  match goal with
  | |- context [collectSamples _ _ _ _ n model ?s ?q] => specialize (IH s q)
  end.
  cbn [issued] in IH. lia.
Qed.

Lemma verifyRatelimitDynamic_shape model shots p :
  In (rlVerdict (fst (verifyRatelimitDynamic Unmarshal SprintV respond deadlinePassed
                        model shots p))) ratelimitVerdicts
  /\ (issued p
      <= issued (snd (verifyRatelimitDynamic Unmarshal SprintV respond deadlinePassed
                        model shots p))
      <= issued p + Z.to_nat (if (shots <=? 0)%Z then 4%Z else shots))%nat.
Proof.
  unfold verifyRatelimitDynamic.
  pose proof (collectSamples_issued (Z.to_nat (if shots <=? 0 then 4 else shots))
                model [] p) as Hc.
  destruct (collectSamples _ _ _ _ _ _ _ _) as [samples p5].
  cbn [fst snd] in *. split; [apply ratelimitDecision_verdict|exact Hc].
Qed.

(** What [DetectSingleModel] does: it analyses the fingerprints of [k]
    tool probes followed by at most one thinking probe, and verifies the
    rate limit when asked to and the context is still live. *)
Lemma DetectSingleModel_shape model rounds verifyRatelimit p r p' :
  DetectSingleModel Unmarshal SprintV respond deadlinePassed
    model rounds verifyRatelimit p = (r, p') ->
  exists k fps,
    (k <= Z.to_nat rounds)%nat
    /\ (map ProbeType fps = repeat "tool" k
        \/ map ProbeType fps = repeat "tool" k ++ ["thinking"])
    /\ Forall (fun fp => ModelRequested fp = model) fps
    /\ (deadlineMonotone deadlinePassed ->
        map ProbeType fps = repeat "tool" k ++ ["thinking"] -> k = Z.to_nat rounds)
    /\ ((forall j, deadlinePassed j = false) ->
        map ProbeType fps = repeat "tool" (Z.to_nat rounds) ++ ["thinking"]
        /\ (verifyRatelimit = true -> DetectResult.RatelimitVerify r <> None))
    /\ (r = analyze fps model
        \/ verifyRatelimit = true
           /\ exists v, r = withRatelimit (analyze fps model) v
                        /\ In (rlVerdict v) ratelimitVerdicts)
    /\ (issued p <= issued p'
        <= issued p + Z.to_nat rounds + 1 + (if verifyRatelimit then 4 else 0))%nat.
Proof.
  unfold DetectSingleModel.
  destruct (toolProbes_shape (Z.to_nat rounds) model [] p)
    as (k & new & Hk & Hfps & Hlen & Hall & Hiss & Hpol & Hearly & Hfull).
  destruct (toolProbes _ _ _ _ _ _ _ _) as [fps0 p1]. cbn [fst snd app] in *.
  subst fps0.
  assert (Htypes : map ProbeType new = repeat "tool" k).
  { clear -Hlen Hall. revert k Hlen.
    induction Hall as [|fp rest [Hfp _] _ IH]; intros k Hlen; cbn in Hlen; subst k;
      [reflexivity|].
    cbn. rewrite Hfp, (IH _ eq_refl). reflexivity. }
  assert (Hmodels : Forall (fun fp => ModelRequested fp = model) new).
  { eapply Forall_impl; [exact Hall|]. intros fp [_ H]. exact H. }
  (* the fingerprints analysed and the progress before the verification *)
  assert (Hmid : exists fps p3,
    (let '(expired, p) := ctxErr deadlinePassed p1 in
     if expired then (new, p)
     else let '(fp, p) := probe Unmarshal SprintV respond model "thinking" p in
          (new ++ [fp], p)) = (fps, p3)
    /\ (map ProbeType fps = repeat "tool" k
        \/ map ProbeType fps = repeat "tool" k ++ ["thinking"])
    /\ Forall (fun fp => ModelRequested fp = model) fps
    /\ (deadlineMonotone deadlinePassed ->
        map ProbeType fps = repeat "tool" k ++ ["thinking"] -> k = Z.to_nat rounds)
    /\ ((forall j, deadlinePassed j = false) ->
        map ProbeType fps = repeat "tool" (Z.to_nat rounds) ++ ["thinking"])
    /\ (issued p1 <= issued p3 <= issued p1 + 1)%nat).
  { unfold ctxErr. destruct (deadlinePassed (polled p1)) eqn:Hexp.
    - eexists new, _. split; [reflexivity|]. split; [left; exact Htypes|].
      split; [exact Hmodels|]. split.
      { intros _ Habs. rewrite Htypes in Habs.
        apply (f_equal (@length string)) in Habs.
        rewrite length_app, !repeat_length in Habs. cbn in Habs. lia. }
      split; [|cbn; lia].
      intros Hnever. rewrite Hnever in Hexp. discriminate.
    - unfold probe. cbn [issued polled].
      set (fp := probeOnce Unmarshal SprintV (respond (issued p1)) model "thinking").
      eexists (new ++ [fp]), _. split; [reflexivity|].
      assert (Htypes' : map ProbeType (new ++ [fp]) = repeat "tool" k ++ ["thinking"]).
      { rewrite map_app, Htypes. cbn. f_equal. f_equal. apply probeOnce_labels. }
      split; [right; exact Htypes'|].
      split.
      { apply Forall_app. split; [exact Hmodels|]. constructor; [|constructor].
        apply probeOnce_labels. }
      split.
      { intros Hmono _. destruct (Nat.eq_dec k (Z.to_nat rounds)) as [|Hne]; [assumption|].
        destruct Hearly as (j & Hj & Hpassed); [lia|].
        rewrite (Hmono j (polled p1)) in Hexp by (lia || assumption). discriminate. }
      split; [|cbn; lia].
      intros Hnever. rewrite (Hfull Hnever) in Htypes'. exact Htypes'. }
  destruct Hmid as (fps & p3 & Heq & Hshape & Hfor & Hmono & Hnever & Hiss3).
  destruct (ctxErr deadlinePassed p1) as [expired p2].
  rewrite Heq. clear Heq.
  intros Hrun. exists k, fps.
  split; [exact Hk|]. split; [exact Hshape|]. split; [exact Hfor|].
  split; [exact Hmono|].
  destruct verifyRatelimit.
  - unfold ctxErr in Hrun. destruct (deadlinePassed (polled p3)) eqn:Hexp.
    + injection Hrun as <- <-. cbn [issued].
      split; [|split; [left; reflexivity|lia]].
      intros Hn. rewrite Hn in Hexp. discriminate.
    + destruct (verifyRatelimitDynamic_shape model 4
                  {| issued := issued p3; polled := S (polled p3) |}) as [Hv Hbudget].
      destruct (verifyRatelimitDynamic _ _ _ _ _ _ _) as [v p5].
      cbn [fst snd issued] in Hv, Hbudget.
      change (Z.to_nat (if 4 <=? 0 then 4 else 4)) with 4%nat in Hbudget.
      injection Hrun as <- <-.
      split; [intros Hn; split; [apply Hnever, Hn|intros _; cbn; discriminate]|].
      split; [right; split; [reflexivity|exists v; split; [reflexivity|exact Hv]]|].
      lia.
  - injection Hrun as <- <-.
    split; [intros Hn; split; [apply Hnever, Hn|discriminate]|].
    split; [left; reflexivity|lia].
Qed.

End Requests.
Lemma analyze_no_verification fps model :
  DetectResult.RatelimitVerify (analyze fps model) = None.
Proof. unfold analyze. destruct (validFingerprints fps); reflexivity. Qed.

Section Detect.

Variable Unmarshal : string -> option (list (string * JSON)).
Variable SprintV : JSON -> string.
Variable respond : nat -> Exchange.
Variable deadlinePassed : nat -> bool.

Lemma firstNonEmpty_cons x l :
  firstNonEmpty (x :: l) = if String.eqb x "" then firstNonEmpty l else x.
Proof. unfold firstNonEmpty, nonEmpty. cbn. destruct (String.eqb x ""); reflexivity. Qed.

Lemma firstNonEmpty_app_nil l : firstNonEmpty (l ++ [""]) = firstNonEmpty l.
Proof.
  induction l as [|x l IH]; [reflexivity|].
  cbn [app]. rewrite !firstNonEmpty_cons, IH. reflexivity.
Qed.

Lemma firstNonEmpty_snoc l x :
  firstNonEmpty (l ++ [x]) = if String.eqb (firstNonEmpty l) "" then x else firstNonEmpty l.
Proof.
  induction l as [|y l IH]; cbn [app].
  - rewrite firstNonEmpty_cons. cbn. destruct (String.eqb_spec x ""); congruence.
  - rewrite !firstNonEmpty_cons, IH.
    destruct (String.eqb_spec y "") as [->|Hy]; [reflexivity|].
    destruct (String.eqb_spec y ""); [contradiction|reflexivity].
Qed.

(** The scan loop: one result per model scanned, in order; every result
    is a stub or an analysis without verification; at most
    [rounds + 2] requests per model. *)
Lemma scanModels_shape models : forall rounds scan p scan' p',
  scanModels Unmarshal SprintV respond deadlinePassed models rounds scan p
  = (scan', p') ->
  exists k new,
    (k <= length models)%nat
    /\ ScanResult.ModelResults scan' = ScanResult.ModelResults scan ++ new
    /\ map DetectResult.Model new = take k models
    /\ Forall (fun r => DetectResult.RatelimitVerify r = None /\ scannedResult rounds r) new
    /\ (issued p <= issued p' <= issued p + k * (Z.to_nat rounds + 2))%nat
    /\ ((forall j, deadlinePassed j = false) -> k = length models)
    /\ ScanResult.BaseURL scan' = ScanResult.BaseURL scan
    /\ ScanResult.ProxyPlatform scan'
       = (if String.eqb (ScanResult.ProxyPlatform scan) ""
          then firstNonEmpty (map DetectResult.ProxyPlatform new)
          else ScanResult.ProxyPlatform scan).
Proof.
  induction models as [|model rest IH]; intros rounds scan p scan' p';
    cbn [scanModels].
  - intros [= <- <-]. exists 0%nat, []. rewrite app_nil_r. cbn [length take map].
    repeat split; auto; try lia.
    destruct (String.eqb_spec (ScanResult.ProxyPlatform scan) ""); auto.
  - unfold ctxErr. destruct (deadlinePassed (polled p)) eqn:Hexp.
    { intros [= <- <-]. exists 0%nat, []. rewrite app_nil_r.
      cbn [length take map issued].
      repeat split; auto; try lia.
      - intros Hnever. rewrite Hnever in Hexp. discriminate.
      - destruct (String.eqb_spec (ScanResult.ProxyPlatform scan) ""); auto. }
    unfold CheckModelAvailable. cbn [issued polled].
    set (p1 := {| issued := S (issued p); polled := S (polled p) |}).
    destruct (match respond (issued p) with
              | Responded _ resp => StatusCode resp =? 200
              | _ => false
              end); cbn [negb].
    + (* detection *)
      pose proof (DetectSingleModel_Model Unmarshal SprintV respond deadlinePassed
                    model rounds false p1) as HModel.
      destruct (DetectSingleModel Unmarshal SprintV respond deadlinePassed
                  model rounds false p1) as [result p2] eqn:Hrun.
      cbn [fst] in HModel.
      destruct (DetectSingleModel_shape Unmarshal SprintV respond deadlinePassed
                  model rounds false p1 result p2 Hrun)
        as (k0 & fps & Hk0 & Htypes & _ & _ & _ & Hres & Hiss).
      destruct Hres as [Hres|[Habs _]]; [|discriminate].
      intros Hrest.
      destruct (IH _ _ _ _ _ Hrest)
        as (k & new & Hk & Hresults & Hmodels & Hall & Hissued & Hfull & Hbase & Hplat).
      cbn [ScanResult.ModelResults ScanResult.BaseURL ScanResult.ProxyPlatform] in *.
      exists (S k), (result :: new).
      split; [cbn; lia|]. split; [rewrite Hresults, <- app_assoc; reflexivity|].
      split; [cbn [map take]; rewrite HModel, Hmodels; reflexivity|].
      split.
      { constructor; [|exact Hall]. split; [rewrite Hres; apply analyze_no_verification|].
        right. exists k0, fps. rewrite HModel. auto. }
      split; [subst p1; cbn [issued] in *; nia|].
      split; [intros Hnever; rewrite (Hfull Hnever); reflexivity|].
      split; [exact Hbase|].
      rewrite Hplat. cbn [map]. rewrite firstNonEmpty_cons.
      destruct (String.eqb_spec (ScanResult.ProxyPlatform scan) "") as [Hcur|Hcur];
        destruct (String.eqb_spec (DetectResult.ProxyPlatform result) "") as [Hr|Hr];
        cbn [negb andb].
      * rewrite Hcur. reflexivity.
      * destruct (String.eqb_spec (DetectResult.ProxyPlatform result) "");
          [contradiction|reflexivity].
      * destruct (String.eqb_spec (ScanResult.ProxyPlatform scan) "");
          [contradiction|reflexivity].
      * destruct (String.eqb_spec (ScanResult.ProxyPlatform scan) "");
          [contradiction|reflexivity].
    + (* the model is unavailable *)
      intros Hrest.
      destruct (IH _ _ _ _ _ Hrest)
        as (k & new & Hk & Hresults & Hmodels & Hall & Hissued & Hfull & Hbase & Hplat).
      cbn [ScanResult.ModelResults ScanResult.BaseURL ScanResult.ProxyPlatform] in *.
      exists (S k), (unavailableResult model :: new).
      split; [cbn; lia|]. split; [rewrite Hresults, <- app_assoc; reflexivity|].
      split; [cbn [map take unavailableResult DetectResult.Model]; rewrite Hmodels;
              reflexivity|].
      split.
      { constructor; [|exact Hall]. split; [reflexivity|]. left. reflexivity. }
      split; [subst p1; cbn [issued] in *; nia|].
      split; [intros Hnever; rewrite (Hfull Hnever); reflexivity|].
      split; [exact Hbase|].
      rewrite Hplat. cbn [map unavailableResult DetectResult.ProxyPlatform].
      rewrite firstNonEmpty_cons. reflexivity.
Qed.

End Detect.
Section Handler.

Variable Unmarshal : string -> option (list (string * JSON)).
Variable SprintV : JSON -> string.
Variable respond : nat -> Exchange.
Variable deadlinePassed : nat -> bool.

Lemma analyze_Fingerprints fps model :
  DetectResult.Fingerprints (analyze fps model) = fps.
Proof. unfold analyze. destruct (validFingerprints fps); reflexivity. Qed.

(** X10. The probes of one detection are issued in a fixed order: at
    most [rounds] tool probes, then at most one thinking probe, all for
    the model under test.  A thinking probe is only ever preceded by the
    full number of tool probes (a context that expired stays expired), and
    when no deadline passes the fingerprints are exactly [rounds] tool
    probes followed by one thinking probe. *)
Theorem detect_probe_order (model : string) (rounds : Z) (verifyRatelimit : bool)
    (p : Progress) :
  let r := fst (DetectSingleModel Unmarshal SprintV respond deadlinePassed
                  model rounds verifyRatelimit p) in
  let types := map ProbeType (DetectResult.Fingerprints r) in
  (exists k, (k <= Z.to_nat rounds)%nat
             /\ (types = repeat "tool" k \/ types = repeat "tool" k ++ ["thinking"]))
  /\ Forall (fun fp => ModelRequested fp = model) (DetectResult.Fingerprints r)
  /\ (deadlineMonotone deadlinePassed -> In "thinking" types ->
      types = repeat "tool" (Z.to_nat rounds) ++ ["thinking"])
  /\ ((forall j, deadlinePassed j = false) ->
      types = repeat "tool" (Z.to_nat rounds) ++ ["thinking"]).
Proof.
  intros r types. subst r types.
  destruct (DetectSingleModel Unmarshal SprintV respond deadlinePassed
              model rounds verifyRatelimit p) as [r p'] eqn:Hrun.
  destruct (DetectSingleModel_shape _ _ _ _ _ _ _ _ _ _ Hrun)
    as (k & fps & Hk & Htypes & Hmodels & Hmono & Hnever & Hres & _).
  cbn [fst].
  assert (Hfps : DetectResult.Fingerprints r = fps).
  { destruct Hres as [->|(_ & v & -> & _)]; [|cbn [withRatelimit DetectResult.Fingerprints]];
      apply analyze_Fingerprints. }
  rewrite Hfps. split; [exists k; auto|]. split; [exact Hmodels|]. split.
  - intros Hm Hin. destruct Htypes as [Ht|Ht].
    + exfalso. rewrite Ht in Hin. apply repeat_spec in Hin. discriminate.
    + rewrite <- (Hmono Hm Ht). exact Ht.
  - intros Hn. apply Hnever, Hn.
Qed.

(** X11. Verifying the rate-limit headers never changes what the
    classifier decided: verdict, verdict text, confidence, scores and
    fingerprints are those of [analyze], and the evidence is that of
    [analyze] followed by exactly one line, the one for the verdict of the
    verifier, which is static, dynamic or unavailable.  Without the flag
    nothing is verified, and with it and no deadline passing something
    always is. *)
Theorem verification_only_adds_evidence (model : string) (rounds : Z)
    (verifyRatelimit : bool) (p : Progress) :
  let r := fst (DetectSingleModel Unmarshal SprintV respond deadlinePassed
                  model rounds verifyRatelimit p) in
  let base := analyze (DetectResult.Fingerprints r) model in
  DetectResult.Verdict r = DetectResult.Verdict base
  /\ DetectResult.VerdictText r = DetectResult.VerdictText base
  /\ DetectResult.Confidence r = DetectResult.Confidence base
  /\ DetectResult.Scores r = DetectResult.Scores base
  /\ match DetectResult.RatelimitVerify r with
     | None => DetectResult.Evidence r = DetectResult.Evidence base
     | Some v =>
         verifyRatelimit = true
         /\ In (rlVerdict v) ratelimitVerdicts
         /\ DetectResult.Evidence r
            = DetectResult.Evidence base ++ [ratelimitLine (rlVerdict v)]
     end
  /\ (verifyRatelimit = false -> DetectResult.RatelimitVerify r = None)
  /\ (verifyRatelimit = true -> (forall j, deadlinePassed j = false) ->
      DetectResult.RatelimitVerify r <> None).
Proof.
  intros r base. subst r base.
  destruct (DetectSingleModel Unmarshal SprintV respond deadlinePassed
              model rounds verifyRatelimit p) as [r p'] eqn:Hrun.
  destruct (DetectSingleModel_shape _ _ _ _ _ _ _ _ _ _ Hrun)
    as (k & fps & _ & _ & _ & _ & Hnever & Hres & _).
  cbn [fst].
  destruct Hres as [->|(Hflag & v & -> & Hv)].
  - rewrite analyze_Fingerprints, analyze_no_verification.
    repeat (split; [reflexivity|]).
    intros Hflag Hn. destruct (Hnever Hn) as [_ Hsome].
    rewrite analyze_no_verification in Hsome. exact (Hsome Hflag).
  - cbn [withRatelimit DetectResult.Fingerprints DetectResult.Verdict
         DetectResult.VerdictText DetectResult.Confidence DetectResult.Scores
         DetectResult.Evidence DetectResult.RatelimitVerify].
    rewrite analyze_Fingerprints.
    repeat (split; [reflexivity|]).
    split.
    { split; [exact Hflag|]. split; [exact Hv|]. f_equal.
      unfold ratelimitLine. unfold ratelimitVerdicts in Hv. cbn [In] in Hv.
      destruct Hv as [<-|[<-|[<-|[]]]]; reflexivity. }
    split; [congruence|discriminate].
Qed.

(** The five ways a detect request can go. *)
Lemma ProxyDetect_cases (req : ProxyDetectRequest) (resolved : string * bool * string)
    (p : Progress) :
  let run := ProxyDetect Unmarshal SprintV respond deadlinePassed req resolved p in
  let models := take 6 (Models req) in
  (APIKey req = "" /\ run = (Failure "API Key 不能为空", p))
  \/ (APIKey req <> "" /\ Models req = []
      /\ run = (Failure "请选择要检测的模型", p))
  \/ (APIKey req <> "" /\ Models req <> [] /\ snd resolved <> ""
      /\ run = (Failure (snd resolved), p))
  \/ (APIKey req <> "" /\ snd resolved = ""
      /\ exists model, models = [model] /\ Models req = [model]
         /\ run =
            (let '(detectResult, p') :=
               DetectSingleModel Unmarshal SprintV respond deadlinePassed
                 model (effectiveRounds req) (VerifyRatelimit req) p in
             (Success {| ScanResult.BaseURL := fst (fst resolved);
                         ScanResult.ProxyPlatform := DetectResult.ProxyPlatform detectResult;
                         ScanResult.ModelResults := [detectResult];
                         ScanResult.Summary :=
                           {[ DetectResult.Model detectResult
                              := DetectResult.Verdict detectResult ]};
                         ScanResult.IsMixed := false |}, p')))
  \/ (APIKey req <> "" /\ snd resolved = "" /\ (2 <= length models)%nat
      /\ run =
         (let '(scan, p') :=
            ScanMultipleModels Unmarshal SprintV respond deadlinePassed
              (fst (fst resolved)) models (effectiveRounds req) p in
          (Success scan, p'))).
Proof.
  intros run models. subst run models. unfold ProxyDetect, effectiveRounds.
  destruct (String.eqb_spec (APIKey req) "") as [Hkey|Hkey]; [left; auto|right].
  destruct (Models req) as [|m1 rest] eqn:Hmodels;
    [cbn [length Nat.eqb]; left; auto|right].
  change (length (m1 :: rest) =? 0)%nat with false. cbv iota.
  assert (Htake : (if (6 <? length (m1 :: rest))%nat then take 6 (m1 :: rest)
                   else m1 :: rest) = take 6 (m1 :: rest)).
  { destruct (Nat.ltb_spec 6 (length (m1 :: rest))); [reflexivity|].
    symmetry. apply firstn_all2. lia. }
  rewrite Htake. clear Htake.
  destruct resolved as [[baseURL isAdmin] errMsg]. cbn [fst snd].
  destruct (String.eqb_spec errMsg "") as [Herr|Herr]; cbn [negb].
  - right. destruct rest as [|m2 rest].
    + left. split; [exact Hkey|]. split; [exact Herr|].
      exists m1. cbn [take]. repeat split.
    + right. split; [exact Hkey|]. split; [exact Herr|].
      split; [cbn; lia|]. reflexivity.
  - left. split; [exact Hkey|]. split; [discriminate|]. split; [exact Herr|reflexivity].
Qed.

(** X12. A detect request is refused, without a single probe being sent
    or a deadline being looked at, exactly when the API key is empty, no
    model is named or the target address is invalid; the message is the
    one of the first of these checks that fails. *)
Theorem detect_rejects_without_probing (req : ProxyDetectRequest)
    (resolved : string * bool * string) (p : Progress) :
  let reply := fst (ProxyDetect Unmarshal SprintV respond deadlinePassed req resolved p) in
  let p' := snd (ProxyDetect Unmarshal SprintV respond deadlinePassed req resolved p) in
  (scanOf reply = None <->
   APIKey req = "" \/ Models req = [] \/ snd resolved <> "")
  /\ (forall msg, reply = Failure msg ->
      p' = p
      /\ msg = (if String.eqb (APIKey req) "" then "API Key 不能为空"
                else if (length (Models req) =? 0)%nat then "请选择要检测的模型"
                else snd resolved)).
Proof.
  intros reply p'. subst reply p'.
  destruct (ProxyDetect_cases req resolved p)
    as [(Hkey & ->)|[(Hkey & Hmodels & ->)|[(Hkey & Hmodels & Herr & ->)
       |[(Hkey & Herr & model & _ & Hmodels & ->)|(Hkey & Herr & Hlen & ->)]]]];
    cbn [fst snd scanOf].
  - split; [tauto|]. intros msg [= <-]. rewrite Hkey. auto.
  - split; [tauto|]. intros msg [= <-]. rewrite Hmodels.
    destruct (String.eqb_spec (APIKey req) ""); [contradiction|]. auto.
  - split; [tauto|]. intros msg [= <-].
    destruct (String.eqb_spec (APIKey req) ""); [contradiction|].
    destruct (Models req); [contradiction|]. auto.
  - destruct (DetectSingleModel _ _ _ _ _ _ _ _) as [r p']. cbn [fst snd scanOf].
    split; [|discriminate]. split; [discriminate|].
    rewrite Hmodels. intros [?|[?|?]]; [contradiction|discriminate|contradiction].
  - destruct (ScanMultipleModels _ _ _ _ _ _ _ _) as [scan p']. cbn [fst snd scanOf].
    split; [|discriminate]. split; [discriminate|].
    intros [?|[Hnil|?]]; [contradiction| |contradiction].
    rewrite Hnil in Hlen. cbn in Hlen. lia.
Qed.

End Handler.
Section HandlerResults.

Variable Unmarshal : string -> option (list (string * JSON)).
Variable SprintV : JSON -> string.
Variable respond : nat -> Exchange.
Variable deadlinePassed : nat -> bool.

Lemma ScanMultipleModels_shape baseURL models rounds p scan p' :
  models <> [] ->
  ScanMultipleModels Unmarshal SprintV respond deadlinePassed baseURL models rounds p
  = (scan, p') ->
  exists k,
    (k <= length models)%nat
    /\ map DetectResult.Model (ScanResult.ModelResults scan) = take k models
    /\ Forall (fun r => DetectResult.RatelimitVerify r = None /\ scannedResult rounds r)
              (ScanResult.ModelResults scan)
    /\ (issued p <= issued p' <= issued p + k * (Z.to_nat rounds + 2))%nat
    /\ ((forall j, deadlinePassed j = false) -> k = length models)
    /\ ScanResult.BaseURL scan = baseURL
    /\ ScanResult.ProxyPlatform scan
       = firstNonEmpty (map DetectResult.ProxyPlatform (ScanResult.ModelResults scan)).
Proof.
  intros Hne. unfold ScanMultipleModels.
  destruct models as [|m rest]; [contradiction|].
  destruct (scanModels _ _ _ _ (m :: rest) rounds _ p) as [scan0 p0] eqn:Hrun.
  intros [= <- <-].
  destruct (scanModels_shape _ _ _ _ _ _ _ _ _ _ Hrun)
    as (k & new & Hk & Hresults & Hmodels & Hall & Hissued & Hfull & Hbase & Hplat).
  cbn [ScanResult.ModelResults ScanResult.BaseURL ScanResult.ProxyPlatform app
       String.eqb] in *.
  exists k. rewrite Hresults. auto 10.
Qed.

Lemma effectiveRounds_range req : 1 <= effectiveRounds req <= 3.
Proof.
  unfold effectiveRounds.
  destruct (Z.leb_spec (Rounds req) 0); [cbn; lia|].
  destruct (Z.ltb_spec 3 (Rounds req)); lia.
Qed.

Lemma take_6_length (models : list string) : (length (take 6 models) <= 6)%nat.
Proof. rewrite length_take. lia. Qed.

(** X13. What a successful detect reply holds: the base URL that was
    resolved; one result per requested model, in the order of the request
    and for the first six models only; the scan stops early only when a
    deadline passes, and a request for a single model is always answered
    with exactly one result; the platform of the scan is the first
    non-empty platform among the results. *)
Theorem detect_results_follow_request (req : ProxyDetectRequest)
    (resolved : string * bool * string) (p : Progress) (scan : ScanResult.t) :
  scanOf (fst (ProxyDetect Unmarshal SprintV respond deadlinePassed req resolved p))
  = Some scan ->
  let models := take 6 (Models req) in
  let named := map DetectResult.Model (ScanResult.ModelResults scan) in
  ScanResult.BaseURL scan = fst (fst resolved)
  /\ (exists k, (k <= length models)%nat /\ named = take k models)
  /\ (length models = 1%nat -> named = models)
  /\ ((forall j, deadlinePassed j = false) -> named = models)
  /\ (length (ScanResult.ModelResults scan) <= 6)%nat
  /\ ScanResult.ProxyPlatform scan
     = firstNonEmpty (map DetectResult.ProxyPlatform (ScanResult.ModelResults scan)).
Proof.
  intros Hscan models named. subst models named.
  destruct (ProxyDetect_cases Unmarshal SprintV respond deadlinePassed req resolved p)
    as [(Hkey & Hrun)|[(Hkey & Hmodels & Hrun)|[(Hkey & Hmodels & Herr & Hrun)
       |[(Hkey & Herr & model & Htake & Hmodels & Hrun)|(Hkey & Herr & Hlen & Hrun)]]]];
    rewrite Hrun in Hscan; try discriminate.
  - pose proof (DetectSingleModel_Model Unmarshal SprintV respond deadlinePassed model
                  (effectiveRounds req) (VerifyRatelimit req) p) as HModel.
    destruct (DetectSingleModel _ _ _ _ _ _ _ _) as [r p']. cbn [fst scanOf] in *.
    injection Hscan as <-.
    cbn [ScanResult.BaseURL ScanResult.ModelResults ScanResult.ProxyPlatform map length].
    rewrite Htake, HModel. split; [reflexivity|].
    split; [exists 1%nat; split; [cbn; lia|reflexivity]|].
    split; [reflexivity|]. split; [reflexivity|]. split; [lia|].
    rewrite firstNonEmpty_cons. unfold firstNonEmpty. cbn.
    destruct (String.eqb_spec (DetectResult.ProxyPlatform r) ""); congruence.
  - destruct (ScanMultipleModels _ _ _ _ _ _ _ _) as [scan0 p'] eqn:Hmulti.
    cbn [fst scanOf] in Hscan. injection Hscan as ->.
    assert (Hne' : take 6 (Models req) <> [])
      by (intros Hnil; rewrite Hnil in Hlen; cbn in Hlen; lia).
    destruct (ScanMultipleModels_shape _ _ _ _ _ _ Hne' Hmulti)
      as (k & Hk & Hnamed & _ & _ & Hfull & Hbase & Hplat).
    split; [exact Hbase|]. split; [exists k; auto|].
    split; [intros H1; lia|].
    split; [intros Hn; rewrite Hnamed, (Hfull Hn); apply firstn_all|].
    split; [|exact Hplat].
    apply (f_equal (@length string)) in Hnamed.
    rewrite length_map, length_take in Hnamed.
    pose proof (take_6_length (Models req)). lia.
Qed.


(** X14. A detect request costs the probed endpoint a bounded number of
    HTTP requests: for one model at most [rounds + 1], plus 4 when the
    rate limit is verified; for several models at most [rounds + 2] each
    (the availability check included); [rounds] being at most 3 and the
    models at most 6, never more than 30 in all. *)
Theorem detect_request_budget (req : ProxyDetectRequest)
    (resolved : string * bool * string) (p : Progress) :
  let p' := snd (ProxyDetect Unmarshal SprintV respond deadlinePassed req resolved p) in
  let n := length (take 6 (Models req)) in
  let rounds := Z.to_nat (effectiveRounds req) in
  (issued p <= issued p')%nat
  /\ (issued p' <= issued p
                   + (if (n =? 1)%nat
                      then rounds + 1 + (if VerifyRatelimit req then 4 else 0)
                      else n * (rounds + 2)))%nat
  /\ (issued p' <= issued p + 30)%nat.
Proof.
  intros p' n rounds. subst p' n rounds.
  pose proof (effectiveRounds_range req) as Hr.
  pose proof (take_6_length (Models req)) as H6.
  assert (Hr3 : (Z.to_nat (effectiveRounds req) <= 3)%nat) by lia.
  destruct (ProxyDetect_cases Unmarshal SprintV respond deadlinePassed req resolved p)
    as [(Hkey & ->)|[(Hkey & Hmodels & ->)|[(Hkey & Hmodels & Herr & ->)
       |[(Hkey & Herr & model & Htake & Hmodels & ->)|(Hkey & Herr & Hlen & ->)]]]];
    cbn [snd].
  - split; [lia|]. split; [|lia].
    destruct (length (take 6 (Models req)) =? 1)%nat; lia.
  - split; [lia|]. split; [|lia].
    destruct (length (take 6 (Models req)) =? 1)%nat; lia.
  - split; [lia|]. split; [|lia].
    destruct (length (take 6 (Models req)) =? 1)%nat; lia.
  - destruct (DetectSingleModel _ _ _ _ _ _ _ _) as [r p'] eqn:Hrun.
    destruct (DetectSingleModel_shape _ _ _ _ _ _ _ _ _ _ Hrun)
      as (_ & _ & _ & _ & _ & _ & _ & _ & Hiss).
    cbn [snd]. rewrite Htake. cbn [length Nat.eqb].
    destruct (VerifyRatelimit req); lia.
  - destruct (ScanMultipleModels _ _ _ _ _ _ _ _) as [scan p'] eqn:Hmulti.
    assert (Hne' : take 6 (Models req) <> [])
      by (intros Hnil; rewrite Hnil in Hlen; cbn in Hlen; lia).
    destruct (ScanMultipleModels_shape _ _ _ _ _ _ Hne' Hmulti)
      as (k & Hk & _ & _ & Hiss & _).
    cbn [snd].
    destruct (Nat.eqb_spec (length (take 6 (Models req))) 1) as [H1|_]; [lia|].
    split; [lia|]. split; nia.
Qed.


(** X15. The entries of [model_results]: a result carries a rate-limit
    verification only when the request named a single model and asked for
    it; a result marked unavailable is the stub for its model, with zero
    scores and no fingerprints; and no result holds more than four
    fingerprints. *)
Theorem detect_result_entries (req : ProxyDetectRequest)
    (resolved : string * bool * string) (p : Progress) (scan : ScanResult.t) :
  scanOf (fst (ProxyDetect Unmarshal SprintV respond deadlinePassed req resolved p))
  = Some scan ->
  Forall (fun r =>
            (DetectResult.RatelimitVerify r <> None ->
             length (take 6 (Models req)) = 1%nat /\ VerifyRatelimit req = true)
            /\ (DetectResult.Verdict r = "unavailable" ->
                r = unavailableResult (DetectResult.Model r))
            /\ (DetectResult.Verdict r <> "unavailable" ->
                In (DetectResult.Verdict r) analyzeVerdicts)
            /\ (length (DetectResult.Fingerprints r) <= 4)%nat)
         (ScanResult.ModelResults scan).
Proof.
  intros Hscan.
  pose proof (effectiveRounds_range req) as Hr.
  assert (Hanalysis : forall k fps model,
            (k <= Z.to_nat (effectiveRounds req))%nat ->
            (map ProbeType fps = repeat "tool" k
             \/ map ProbeType fps = repeat "tool" k ++ ["thinking"]) ->
            DetectResult.Verdict (analyze fps model) <> "unavailable"
            /\ In (DetectResult.Verdict (analyze fps model)) analyzeVerdicts
            /\ (length (DetectResult.Fingerprints (analyze fps model)) <= 4)%nat).
  { intros k fps model Hk Htypes.
    pose proof (analyze_verdict_in fps model) as Hin.
    split; [|split; [exact Hin|]].
    - intros Habs. rewrite Habs in Hin. unfold analyzeVerdicts in Hin. cbn [In] in Hin.
      intuition discriminate.
    - rewrite analyze_Fingerprints.
      assert (Hl : length (map ProbeType fps) = length fps) by apply length_map.
      destruct Htypes as [Ht|Ht]; rewrite Ht in Hl;
        rewrite ?length_app, ?repeat_length in Hl; cbn [length] in Hl; lia. }
  destruct (ProxyDetect_cases Unmarshal SprintV respond deadlinePassed req resolved p)
    as [(Hkey & Hrun)|[(Hkey & Hmodels & Hrun)|[(Hkey & Hmodels & Herr & Hrun)
       |[(Hkey & Herr & model & Htake & Hmodels & Hrun)|(Hkey & Herr & Hlen & Hrun)]]]];
    rewrite Hrun in Hscan; try discriminate.
  - destruct (DetectSingleModel _ _ _ _ _ _ _ _) as [r p'] eqn:Hsingle.
    cbn [fst scanOf] in Hscan. injection Hscan as <-.
    cbn [ScanResult.ModelResults]. constructor; [|constructor].
    destruct (DetectSingleModel_shape _ _ _ _ _ _ _ _ _ _ Hsingle)
      as (k & fps & Hk & Htypes & _ & _ & _ & Hres & _).
    destruct (Hanalysis k fps model Hk Htypes) as (Hnot & Hin & Hfour).
    rewrite Htake. destruct Hres as [->|(Hflag & v & -> & _)].
    + rewrite analyze_no_verification.
      split; [intros H; contradiction|]. split; [intros H; contradiction|]. auto.
    + cbn [withRatelimit DetectResult.RatelimitVerify DetectResult.Verdict
           DetectResult.Fingerprints].
      split; [auto|]. split; [intros H; contradiction|]. auto.
  - destruct (ScanMultipleModels _ _ _ _ _ _ _ _) as [scan0 p'] eqn:Hmulti.
    cbn [fst scanOf] in Hscan. injection Hscan as ->.
    assert (Hne' : take 6 (Models req) <> [])
      by (intros Hnil; rewrite Hnil in Hlen; cbn in Hlen; lia).
    destruct (ScanMultipleModels_shape _ _ _ _ _ _ Hne' Hmulti)
      as (k & _ & _ & Hall & _).
    eapply Forall_impl; [exact Hall|]. cbv beta.
    intros r [Hnone [Hstub|(k0 & fps & Hk0 & Htypes & Hres)]].
    + split; [intros H; contradiction|]. split; [intros _; exact Hstub|].
      rewrite Hstub. cbn [unavailableResult DetectResult.Verdict DetectResult.Fingerprints
                          length].
      split; [intros H; contradiction|lia].
    + destruct (Hanalysis k0 fps (DetectResult.Model r) Hk0 Htypes) as (Hnot & Hin & Hfour).
      rewrite <- Hres in Hnot, Hin, Hfour.
      split; [intros H; contradiction|]. split; [intros H; contradiction|]. auto.
Qed.

End HandlerResults.

Lemma detect_results_follow_request_witness :
  map DetectResult.Model (ScanResult.ModelResults twoModelScan)
  = ["claude-3-haiku-20240307"; "claude-3-5-sonnet-20241022"].
Proof.
  destruct (detect_results_follow_request decodeTwo sprintSample switchingRelay noDeadline
              twoModelRequest resolvedForAdmin start
              twoModelScan) as (_ & _ & _ & Hall & _).
  - vm_compute. reflexivity.
  - apply Hall. reflexivity.
Defined.

Lemma detect_result_entries_witness :
  Forall (fun r => DetectResult.RatelimitVerify r = None)
         (ScanResult.ModelResults twoModelScan).
Proof.
  pose proof (detect_result_entries decodeTwo sprintSample switchingRelay noDeadline
                twoModelRequest resolvedForAdmin start twoModelScan)
    as Hall.
  eapply Forall_impl; [apply Hall; vm_compute; reflexivity|].
  cbv beta. intros r (Hverify & _).
  destruct (DetectResult.RatelimitVerify r); [|reflexivity].
  destruct Hverify as [Hone _]; [discriminate|]. discriminate Hone.
Defined.
(** ** The target address *)

Section TargetProperties.

Variable urlParse : string -> result URL.
Variable ServerAddress : string.
Variable RoleAdminUser : Z.

Lemma ValidateProxyDetectURL_ok rawURL :
  ValidateProxyDetectURL urlParse rawURL = None <->
  exists parsed, urlParse rawURL = Ok parsed
                 /\ (Scheme parsed = "http" \/ Scheme parsed = "https")
                 /\ Hostname parsed <> "".
Proof.
  unfold ValidateProxyDetectURL. destruct (urlParse rawURL) as [parsed|e].
  - destruct (String.eqb_spec (Scheme parsed) "http") as [Hh|Hh];
      destruct (String.eqb_spec (Scheme parsed) "https") as [Hs|Hs];
      destruct (String.eqb_spec (Hostname parsed) "") as [Hn|Hn]; cbn [negb andb];
      split; try discriminate; try (intros _; exists parsed; tauto);
      intros (parsed' & [= <-] & Hscheme & Hhost); tauto.
  - split; [discriminate|]. intros (parsed & Habs & _). discriminate.
Qed.

(** X16. The address a detection is aimed at.  The admin flag is set for
    a role of [RoleAdminUser] or more.  A caller who is not an
    administrator cannot choose the target: the base URL of the request
    is ignored and the server address is used; an administrator's empty
    base URL falls back to the server address too.  Whenever no error is
    reported the address returned parses, its scheme is http or https and
    its host name is not empty; otherwise the address returned is empty
    and the message is the fixed one. *)
Theorem resolved_target (role : Z) (baseURL : string) :
  let resolved := resolveProxyDetectBaseURL urlParse ServerAddress RoleAdminUser
                    role baseURL in
  let url := fst (fst resolved) in
  let isAdmin := snd (fst resolved) in
  let errMsg := snd resolved in
  isAdmin = (RoleAdminUser <=? role)
  /\ (role < RoleAdminUser ->
      resolved = resolveProxyDetectBaseURL urlParse ServerAddress RoleAdminUser role "")
  /\ (errMsg = "" ->
      (exists parsed, urlParse url = Ok parsed
                      /\ (Scheme parsed = "http" \/ Scheme parsed = "https")
                      /\ Hostname parsed <> "")
      /\ url = (if isAdmin && negb (String.eqb baseURL "") then baseURL
                else ServerAddress))
  /\ (errMsg <> "" -> errMsg = "无效的目标地址" /\ url = "").
Proof.
  cbv zeta. unfold resolveProxyDetectBaseURL.
  split.
  { destruct (ValidateProxyDetectURL _ _); reflexivity. }
  split.
  { intros Hrole. destruct (Z.leb_spec RoleAdminUser role) as [|_]; [lia|]. reflexivity. }
  set (target := if String.eqb (if negb (RoleAdminUser <=? role) then ServerAddress
                                else baseURL) ""
                 then ServerAddress
                 else if negb (RoleAdminUser <=? role) then ServerAddress else baseURL).
  assert (Htarget : target = if (RoleAdminUser <=? role) && negb (String.eqb baseURL "")
                             then baseURL else ServerAddress).
  { unfold target. destruct (RoleAdminUser <=? role); cbn [negb andb].
    - destruct (String.eqb baseURL ""); reflexivity.
    - destruct (String.eqb ServerAddress ""); reflexivity. }
  destruct (ValidateProxyDetectURL urlParse target) as [e|] eqn:Hvalid; cbn [fst snd].
  - split; [discriminate|]. intros _. split; reflexivity.
  - split; [|intros H; contradiction]. intros _.
    apply ValidateProxyDetectURL_ok in Hvalid. split; [exact Hvalid|exact Htarget].
Qed.

End TargetProperties.

(** ** Finding a model that works *)

Section DiscoveryProperties.

Variable respond : nat -> Exchange.
Variable deadlinePassed : nat -> bool.

Lemma firstWorking_spec models : forall p,
  let found := fst (firstWorking respond deadlinePassed models p) in
  let p' := snd (firstWorking respond deadlinePassed models p) in
  (issued p <= issued p' <= issued p + length models)%nat
  /\ (forall model, found = Some model ->
        In model models
        /\ (0 < issued p')%nat /\ answersOK (respond (issued p' - 1)) = true)
  /\ ((forall j, deadlinePassed j = false) ->
      found = (fun i => nth i models "") <$> firstOK respond (issued p) (length models)).
Proof.
  induction models as [|model rest IH]; intros p; cbn [firstWorking length firstOK].
  - cbn. split; [lia|]. split; [discriminate|reflexivity].
  - unfold ctxErr. destruct (deadlinePassed (polled p)) eqn:Hexp.
    { cbn [fst snd issued]. split; [lia|]. split; [discriminate|].
      intros Hn. rewrite Hn in Hexp. discriminate. }
    unfold CheckModelAvailable. cbn [issued polled].
    fold (answersOK (respond (issued p))).
    destruct (answersOK (respond (issued p))) eqn:Hok.
    + cbn [fst snd issued]. split; [lia|]. split.
      * intros m [= <-]. split; [left; reflexivity|]. split; [lia|].
        replace (S (issued p) - 1)%nat with (issued p) by lia. exact Hok.
      * intros _. reflexivity.
    + set (p1 := {| issued := S (issued p); polled := S (polled p) |}).
      destruct (IH p1) as (Hiss & Hfound & Hnever). cbv zeta in *.
      destruct (firstWorking respond deadlinePassed rest p1) as [found p'].
      cbn [fst snd] in *. subst p1. cbn [issued] in *.
      split; [lia|]. split.
      * intros m Hm. destruct (Hfound m Hm) as (Hin & Hpos & Hans).
        split; [right; exact Hin|]. auto.
      * intros Hn. rewrite (Hnever Hn).
        destruct (firstOK respond (S (issued p)) (length rest)); reflexivity.
Qed.

(** X17. [FindWorkingModel] always returns one of its four candidate
    models (none of them an Opus model) and spends at most four requests.
    A model other than the first candidate is returned only when the last
    request sent was answered with status 200; and when no deadline
    passes the model returned is the first candidate whose check is
    answered with status 200, the first candidate of all when none is. *)
Theorem find_working_model (p : Progress) :
  let model := fst (FindWorkingModel respond deadlinePassed p) in
  let p' := snd (FindWorkingModel respond deadlinePassed p) in
  In model probeModels
  /\ (issued p <= issued p' <= issued p + 4)%nat
  /\ (model <> "claude-sonnet-4-5-20250929" ->
      (0 < issued p')%nat /\ answersOK (respond (issued p' - 1)) = true)
  /\ ((forall j, deadlinePassed j = false) ->
      model = match firstOK respond (issued p) 4 with
              | Some i => nth i probeModels ""
              | None => "claude-sonnet-4-5-20250929"
              end).
Proof.
  cbv zeta. unfold FindWorkingModel.
  destruct (firstWorking_spec probeModels p) as (Hiss & Hfound & Hnever).
  cbv zeta in *.
  destruct (firstWorking respond deadlinePassed probeModels p) as [found p'].
  cbn [fst snd] in *. change (length probeModels) with 4%nat in *.
  destruct found as [model|].
  - destruct (Hfound model eq_refl) as (Hin & Hpos & Hans).
    split; [exact Hin|]. split; [exact Hiss|]. split; [auto|].
    intros Hn. specialize (Hnever Hn).
    destruct (firstOK respond (issued p) 4); [|discriminate].
    injection Hnever as ->. reflexivity.
  - split; [left; reflexivity|]. split; [exact Hiss|].
    split; [intros H; contradiction H; reflexivity|].
    intros Hn. specialize (Hnever Hn).
    destruct (firstOK respond (issued p) 4); [discriminate|reflexivity].
Qed.

End DiscoveryProperties.
(** ** Groups *)

Section GroupProperties.

Variable groupRatio : gmap string float.
Variable userUsableGroups : gmap string string.
Variable GetUserGroupRatio : string -> float.
Variable autoDescription : string.

(** The loop of [GetUserGroups] over the ratio map. *)
Lemma usable_loop (ratios : gmap string float) (g : string) :
  map_fold (fun groupName (_ : float) (usableGroups : gmap string UsableGroup) =>
      match userUsableGroups !! groupName with
      | Some desc =>
          <[groupName := {| ugRatio := RatioNumber (GetUserGroupRatio groupName);
                            ugDesc := desc |}]> usableGroups
      | None => usableGroups
      end) ∅ ratios !! g
  = match ratios !! g, userUsableGroups !! g with
    | Some _, Some desc =>
        Some {| ugRatio := RatioNumber (GetUserGroupRatio g); ugDesc := desc |}
    | _, _ => None
    end.
Proof.
  apply (map_fold_weak_ind (fun (r : gmap string UsableGroup) (m : gmap string float) =>
           r !! g = match m !! g, userUsableGroups !! g with
                    | Some _, Some desc =>
                        Some {| ugRatio := RatioNumber (GetUserGroupRatio g);
                                ugDesc := desc |}
                    | _, _ => None
                    end)).
  - rewrite !lookup_empty. reflexivity.
  - intros i x m r Hfresh IH.
    destruct (decide (i = g)) as [->|Hne].
    + rewrite lookup_insert_eq.
      destruct (userUsableGroups !! g) as [desc|] eqn:Hdesc.
      * rewrite lookup_insert_eq. reflexivity.
      * rewrite IH, Hfresh. reflexivity.
    + rewrite (lookup_insert_ne m) by exact Hne.
      destruct (userUsableGroups !! i) as [desc|].
      * rewrite lookup_insert_ne by exact Hne. exact IH.
      * exact IH.
Qed.

(** X18. The groups [GetUserGroups] lists.  A group other than auto is
    listed exactly when it has a ratio and the user may use it, with the
    user's ratio for it and the description from the user's usable
    groups.  The group auto is listed exactly when the user may use it,
    whether or not it has a ratio, and always with the text 自动 in place
    of a ratio.  So no group is ever listed that the user may not use. *)
Theorem user_groups_listed (g : string) :
  let listed := GetUserGroups groupRatio userUsableGroups GetUserGroupRatio
                  autoDescription in
  (g <> "auto" ->
   listed !! g = match groupRatio !! g, userUsableGroups !! g with
                 | Some _, Some desc =>
                     Some {| ugRatio := RatioNumber (GetUserGroupRatio g);
                             ugDesc := desc |}
                 | _, _ => None
                 end)
  /\ (listed !! "auto"
      = match userUsableGroups !! "auto" with
        | Some _ => Some {| ugRatio := RatioText "自动"; ugDesc := autoDescription |}
        | None => None
        end)
  /\ (is_Some (listed !! g) -> is_Some (userUsableGroups !! g)).
Proof.
  cbv zeta. unfold GetUserGroups.
  assert (Hauto : forall h, h = "auto" ->
            userUsableGroups !! h = None ->
            match groupRatio !! h, userUsableGroups !! h with
            | Some _, Some desc =>
                Some {| ugRatio := RatioNumber (GetUserGroupRatio h); ugDesc := desc |}
            | _, _ => None
            end = None).
  { intros h _ ->. destruct (groupRatio !! h); reflexivity. }
  split; [|split].
  - intros Hne. destruct (userUsableGroups !! "auto").
    + rewrite lookup_insert_ne by congruence. apply usable_loop.
    + apply usable_loop.
  - destruct (userUsableGroups !! "auto") eqn:Hu.
    + apply lookup_insert_eq.
    + rewrite usable_loop. apply Hauto; auto.
  - destruct (decide (g = "auto")) as [->|Hne].
    + destruct (userUsableGroups !! "auto") eqn:Hu; [eauto|].
      rewrite usable_loop, Hu. destruct (groupRatio !! "auto"); intros [? ?]; discriminate.
    + destruct (userUsableGroups !! "auto") eqn:Hu;
        [rewrite lookup_insert_ne by congruence|]; rewrite usable_loop;
        destruct (groupRatio !! g), (userUsableGroups !! g); intros [? ?];
        try discriminate; eauto.
Qed.

End GroupProperties.

(** *** Sorting *)

Lemma insertSorted_perm s l : Permutation (insertSorted s l) (s :: l).
Proof.
  induction l as [|x rest IH]; cbn [insertSorted]; [reflexivity|].
  destruct (String.leb s x); [reflexivity|].
  rewrite IH. apply perm_swap.
Qed.

Lemma sortStrings_perm l : Permutation (sortStrings l) l.
Proof.
  unfold sortStrings. induction l as [|x rest IH]; cbn [fold_right]; [reflexivity|].
  rewrite insertSorted_perm, IH. reflexivity.
Qed.

Lemma insertSorted_increasing s l :
  increasing l = true -> increasing (insertSorted s l) = true.
Proof.
  induction l as [|x rest IH]; cbn [insertSorted]; [reflexivity|].
  intros Hinc. destruct (String.leb s x) eqn:Hle.
  - cbn [increasing]. rewrite Hle. exact Hinc.
  - assert (Hxs : String.leb x s = true).
    { destruct (String.leb_total s x) as [H|H]; congruence. }
    destruct rest as [|y rest']; cbn [insertSorted].
    + cbn [increasing]. rewrite Hxs. reflexivity.
    + cbn [increasing] in Hinc. apply andb_true_iff in Hinc as [Hxy Hrest].
      specialize (IH Hrest). cbn [insertSorted] in IH.
      destruct (String.leb s y) eqn:Hsy.
      * cbn [increasing]. rewrite Hxs, Hsy. exact Hrest.
      * change (increasing (x :: y :: insertSorted s rest') = true).
        cbn [increasing]. rewrite Hxy. exact IH.
Qed.

Lemma sortStrings_increasing l : increasing (sortStrings l) = true.
Proof.
  unfold sortStrings. induction l as [|x rest IH]; cbn [fold_right]; [reflexivity|].
  apply insertSorted_increasing, IH.
Qed.

(** X19. The preview [GetGroupPreview] builds has an entry for exactly
    the groups that have a ratio, whether or not they have models (models
    of a group without a ratio are not shown).  The models of an entry are
    those of the group, each as often as it is listed, in increasing
    order; the count is their number, 0 with the empty list for a group
    without models. *)
Theorem group_preview_entries (groupModels : gmap string (list string))
    (groupRatios : gmap string float) (g : string) :
  let preview := GetGroupPreview groupModels groupRatios in
  (is_Some (preview !! g) <-> is_Some (groupRatios !! g))
  /\ (forall info, preview !! g = Some info ->
        Permutation (GroupModels info) (default [] (groupModels !! g))
        /\ increasing (GroupModels info) = true
        /\ ModelCount info = Z.of_nat (length (default [] (groupModels !! g)))
        /\ ModelCount info = Z.of_nat (length (GroupModels info))).
Proof.
  cbv zeta.
  assert (Hlookup : GetGroupPreview groupModels groupRatios !! g
            = match groupRatios !! g with
              | Some _ =>
                  Some {| ModelCount :=
                            Z.of_nat (length (sortStrings (default [] (groupModels !! g))));
                          GroupModels := sortStrings (default [] (groupModels !! g)) |}
              | None => None
              end).
  { unfold GetGroupPreview.
    apply (map_fold_weak_ind (fun (r : gmap string GroupInfo) (m : gmap string float) =>
             r !! g = match m !! g with
                      | Some _ =>
                          Some {| ModelCount :=
                                    Z.of_nat (length (sortStrings
                                                        (default [] (groupModels !! g))));
                                  GroupModels :=
                                    sortStrings (default [] (groupModels !! g)) |}
                      | None => None
                      end)).
    - rewrite !lookup_empty. reflexivity.
    - intros i x m r Hfresh IH. cbv zeta.
      destruct (decide (i = g)) as [->|Hne].
      + rewrite !lookup_insert_eq. reflexivity.
      + rewrite !lookup_insert_ne by exact Hne. exact IH. }
  rewrite Hlookup. destruct (groupRatios !! g) as [ratio|].
  - split; [split; eauto|]. intros info [= <-]. cbn [GroupModels ModelCount].
    pose proof (sortStrings_perm (default [] (groupModels !! g))) as Hperm.
    split; [exact Hperm|]. split; [apply sortStrings_increasing|].
    split; [|reflexivity]. f_equal. apply Permutation_length. exact Hperm.
  - split; [split; intros [? ?]; discriminate|]. discriminate.
Qed.
(** ** The detector page *)

Lemma page_label_of_analysis fps model :
  exists c,
    Page.renderVerdictTag (DetectResult.Verdict (analyze fps model))
    = (Some c, Some (DetectResult.VerdictText (analyze fps model))).
Proof.
  pose proof (analyze_verdict_in fps model) as Hd.
  rewrite analyze_VerdictText.
  revert Hd. generalize (DetectResult.Verdict (analyze fps model)). intros v Hd.
  unfold analyzeVerdicts in Hd. cbn [In] in Hd.
  destruct Hd as [<-|[<-|[<-|[<-|[<-|[]]]]]]; eexists; vm_compute; reflexivity.
Qed.

Lemma take_twice {A} n (l : list A) : take n (take n l) = take n l.
Proof. rewrite take_take, Nat.min_id. reflexivity. Qed.

Section PageAndHandler.

Variable Unmarshal : string -> option (list (string * JSON)).
Variable SprintV : JSON -> string.
Variable respond : nat -> Exchange.
Variable deadlinePassed : nat -> bool.

(** Where the entries of [model_results] come from. *)
Lemma ProxyDetect_results_origin (req : ProxyDetectRequest)
    (resolved : string * bool * string) (p : Progress) (scan : ScanResult.t) :
  scanOf (fst (ProxyDetect Unmarshal SprintV respond deadlinePassed req resolved p))
  = Some scan ->
  Forall (fun r =>
            r = unavailableResult (DetectResult.Model r)
            \/ exists fps model,
                 DetectResult.Verdict r = DetectResult.Verdict (analyze fps model)
                 /\ DetectResult.VerdictText r
                    = DetectResult.VerdictText (analyze fps model))
         (ScanResult.ModelResults scan).
Proof.
  intros Hscan.
  destruct (ProxyDetect_cases Unmarshal SprintV respond deadlinePassed req resolved p)
    as [(Hkey & Hrun)|[(Hkey & Hmodels & Hrun)|[(Hkey & Hmodels & Herr & Hrun)
       |[(Hkey & Herr & model & Htake & Hmodels & Hrun)|(Hkey & Herr & Hlen & Hrun)]]]];
    rewrite Hrun in Hscan; try discriminate.
  - destruct (DetectSingleModel _ _ _ _ _ _ _ _) as [r p'] eqn:Hsingle.
    cbn [fst scanOf] in Hscan. injection Hscan as <-.
    cbn [ScanResult.ModelResults]. constructor; [|constructor].
    destruct (DetectSingleModel_shape _ _ _ _ _ _ _ _ _ _ Hsingle)
      as (k & fps & _ & _ & _ & _ & _ & Hres & _).
    right. exists fps, model.
    destruct Hres as [->|(_ & v & -> & _)]; split; reflexivity.
  - destruct (ScanMultipleModels _ _ _ _ _ _ _ _) as [scan0 p'] eqn:Hmulti.
    cbn [fst scanOf] in Hscan. injection Hscan as ->.
    assert (Hne' : take 6 (Models req) <> [])
      by (intros Hnil; rewrite Hnil in Hlen; cbn in Hlen; lia).
    destruct (ScanMultipleModels_shape _ _ _ _ _ _ _ _ _ _ Hne' Hmulti)
      as (k & _ & _ & Hall & _).
    eapply Forall_impl; [exact Hall|]. cbv beta.
    intros r [_ [Hstub|(k0 & fps & _ & _ & Hres)]]; [left; exact Hstub|].
    right. exists fps, (DetectResult.Model r). rewrite <- Hres. split; reflexivity.
Qed.

(** X20. The page and the service agree on how a verdict reads: for
    every result of a detect reply, the tag the page renders for its
    verdict has a colour and carries exactly the verdict text the service
    sent, the unavailable stub included. *)
Theorem page_tag_is_verdict_text (req : ProxyDetectRequest)
    (resolved : string * bool * string) (p : Progress) (scan : ScanResult.t) :
  scanOf (fst (ProxyDetect Unmarshal SprintV respond deadlinePassed req resolved p))
  = Some scan ->
  Forall (fun r =>
            exists c, Page.renderVerdictTag (DetectResult.Verdict r)
                      = (Some c, Some (DetectResult.VerdictText r)))
         (ScanResult.ModelResults scan).
Proof.
  intros Hscan.
  eapply Forall_impl; [exact (ProxyDetect_results_origin _ _ _ _ Hscan)|]. cbv beta.
  intros r [->|(fps & model & -> & ->)].
  - cbn [unavailableResult DetectResult.Verdict DetectResult.VerdictText].
    eexists. vm_compute. reflexivity.
  - apply page_label_of_analysis.
Qed.

(** X21. What the page posts is what the handler accepts: [handleDetect]
    shows a message instead of posting exactly when the API key is empty
    or no model is selected, and a request it posts has a key, between
    one and six models (so the handler truncates nothing), asks for the
    rate-limit verification only for a single model, and for a user who
    is not an administrator names the server address; such a request is
    refused by the handler only for an invalid address. *)
Theorem page_request_is_accepted (st : Page.State) :
  (forall msg, Page.handleDetect st = Err msg <->
     (Page.apiKey st = "" /\ msg = "请输入 API Key")
     \/ (Page.apiKey st <> "" /\ Page.selectedModels st = []
         /\ msg = "请选择要检测的模型"))
  /\ (forall req, Page.handleDetect st = Ok req ->
        APIKey req <> "" /\ Models req <> []
        /\ take 6 (Models req) = Models req
        /\ (VerifyRatelimit req = true -> length (Models req) = 1%nat)
        /\ (Page.admin st = false -> ReqBaseURL req = Page.serverAddress st)
        /\ forall resolved p,
             snd resolved = "" ->
             scanOf (fst (ProxyDetect Unmarshal SprintV respond deadlinePassed
                            req resolved p)) <> None).
Proof.
  unfold Page.handleDetect.
  destruct (String.eqb_spec (Page.apiKey st) "") as [Hkey|Hkey].
  { split; [|discriminate]. intros msg. split.
    - intros [= <-]. left. auto.
    - intros [[_ ->]|[Habs _]]; [reflexivity|contradiction]. }
  destruct (Page.selectedModels st) as [|m rest] eqn:Hsel.
  { cbn [length Nat.eqb]. split; [|discriminate]. intros msg. split.
    - intros [= <-]. right. auto.
    - intros [[Habs _]|(_ & _ & ->)]; [contradiction|reflexivity]. }
  change (length (m :: rest) =? 0)%nat with false. cbv iota.
  split.
  { intros msg. split; [discriminate|].
    intros [[Habs _]|(_ & Habs & _)]; [contradiction|discriminate]. }
  intros req [= <-]. cbn [APIKey Models VerifyRatelimit ReqBaseURL].
  split; [exact Hkey|]. split; [discriminate|].
  split; [exact (take_twice 6 (m :: rest))|]. split.
  { destruct rest as [|m2 rest]; [reflexivity|]. cbn [length Nat.eqb]. discriminate. }
  split.
  { unfold Page.effectiveBaseURL. intros ->. reflexivity. }
  intros resolved p Herr.
  match goal with
  | |- context [ProxyDetect _ _ _ _ ?r resolved p] =>
      destruct (ProxyDetect_cases Unmarshal SprintV respond deadlinePassed r resolved p)
        as [(Hk & Hrun)|[(Hk & Hm & Hrun)|[(Hk & Hm & He & Hrun)
           |[(Hk & He & model & Htake & Hm & Hrun)|(Hk & He & Hlen & Hrun)]]]];
        cbn [APIKey Models] in *; rewrite Hrun
  end.
  - contradiction.
  - discriminate.
  - contradiction.
  - destruct (DetectSingleModel _ _ _ _ _ _ _ _). discriminate.
  - destruct (ScanMultipleModels _ _ _ _ _ _ _ _). discriminate.
Qed.

End PageAndHandler.

Lemma page_tag_is_verdict_text_witness :
  Forall (fun r =>
            exists c, Page.renderVerdictTag (DetectResult.Verdict r)
                      = (Some c, Some (DetectResult.VerdictText r)))
         (ScanResult.ModelResults twoModelScan).
Proof.
  apply (page_tag_is_verdict_text decodeTwo sprintSample switchingRelay noDeadline
           twoModelRequest resolvedForAdmin start twoModelScan).
  vm_compute. reflexivity.
Defined.

(** ** The summary of a scan *)

(** X22. The summary of a detect reply agrees with its results: a model
    has an entry exactly when some result is for it, and the entry is the
    verdict of the last result for that model; for a request that names
    each model once, the summary lists every result. *)
Theorem summary_matches_results
    (Unmarshal : string -> option (list (string * JSON))) (SprintV : JSON -> string)
    (respond : nat -> Exchange) (deadlinePassed : nat -> bool)
    (req : ProxyDetectRequest) (resolved : string * bool * string)
    (p : Progress) (scan : ScanResult.t) :
  scanOf (fst (ProxyDetect Unmarshal SprintV respond deadlinePassed req resolved p))
  = Some scan ->
  (forall m, ScanResult.Summary scan !! m
             = lastVerdictOf (ScanResult.ModelResults scan) m)
  /\ (forall m, is_Some (ScanResult.Summary scan !! m) <->
                In m (map DetectResult.Model (ScanResult.ModelResults scan)))
  /\ (NoDup (take 6 (Models req)) ->
      Forall (fun r => ScanResult.Summary scan !! DetectResult.Model r
                       = Some (DetectResult.Verdict r))
             (ScanResult.ModelResults scan)).
Proof.
  intros Hscan.
  assert (Hsummary : forall m, ScanResult.Summary scan !! m
                               = lastVerdictOf (ScanResult.ModelResults scan) m).
  { destruct (ProxyDetect_cases Unmarshal SprintV respond deadlinePassed req resolved p)
      as [(Hkey & Hrun)|[(Hkey & Hmodels & Hrun)|[(Hkey & Hmodels & Herr & Hrun)
         |[(Hkey & Herr & model & Htake & Hmodels & Hrun)|(Hkey & Herr & Hlen & Hrun)]]]];
      rewrite Hrun in Hscan; try discriminate.
    - destruct (DetectSingleModel _ _ _ _ _ _ _ _) as [r p'].
      cbn [fst scanOf] in Hscan. injection Hscan as <-.
      cbn [ScanResult.Summary ScanResult.ModelResults]. intros m.
      unfold lastVerdictOf. cbn [List.filter].
      destruct (String.eqb_spec (DetectResult.Model r) m) as [->|Hne].
      + rewrite lookup_singleton_eq. reflexivity.
      + rewrite lookup_singleton_ne by exact Hne. reflexivity.
    - unfold ScanMultipleModels in Hscan.
      match type of Hscan with
      | context [scanModels _ _ _ _ ?ms ?r ?s p] =>
          pose proof (scanModels_summary Unmarshal SprintV respond deadlinePassed
                        ms r s p) as Hloop;
          destruct (scanModels Unmarshal SprintV respond deadlinePassed ms r s p)
            as [scan0 p']
      end.
      cbn [fst scanOf] in Hscan, Hloop. injection Hscan as <-.
      cbn [ScanResult.Summary ScanResult.ModelResults].
      apply Hloop. intros m. apply lookup_empty. }
  split; [exact Hsummary|]. split.
  - intros m. rewrite Hsummary. unfold lastVerdictOf. split.
    + intros [v Hv]. apply fmap_Some in Hv as (r & Hlast & _).
      apply last_Some_elem_of, list_elem_of_In, filter_In in Hlast as [Hin Hm].
      apply String.eqb_eq in Hm. subst m. apply in_map. exact Hin.
    + intros Hin. apply in_map_iff in Hin as (r & <- & Hin).
      destruct (last (List.filter (fun r' => String.eqb (DetectResult.Model r')
                                                (DetectResult.Model r))
                                  (ScanResult.ModelResults scan))) as [r'|] eqn:Hlast.
      * eexists. reflexivity.
      * exfalso. apply last_None in Hlast.
        assert (Hin' : In r (List.filter (fun r' => String.eqb (DetectResult.Model r')
                                                     (DetectResult.Model r))
                                         (ScanResult.ModelResults scan))).
        { apply filter_In. split; [exact Hin|]. apply String.eqb_refl. }
        rewrite Hlast in Hin'. contradiction.
  - intros Hnd.
    assert (Hnames : NoDup (map DetectResult.Model (ScanResult.ModelResults scan))).
    { destruct (ProxyDetect_cases Unmarshal SprintV respond deadlinePassed req resolved p)
        as [(Hkey & Hrun)|[(Hkey & Hmodels & Hrun)|[(Hkey & Hmodels & Herr & Hrun)
           |[(Hkey & Herr & model & Htake & Hmodels & Hrun)|(Hkey & Herr & Hlen & Hrun)]]]];
        rewrite Hrun in Hscan; try discriminate.
      - destruct (DetectSingleModel _ _ _ _ _ _ _ _) as [r p'].
        cbn [fst scanOf] in Hscan. injection Hscan as <-.
        cbn [ScanResult.ModelResults map]. apply NoDup_singleton.
      - destruct (ScanMultipleModels _ _ _ _ _ _ _ _) as [scan0 p'] eqn:Hmulti.
        cbn [fst scanOf] in Hscan. injection Hscan as ->.
        assert (Hne' : take 6 (Models req) <> [])
          by (intros Hnil; rewrite Hnil in Hlen; cbn in Hlen; lia).
        destruct (ScanMultipleModels_shape _ _ _ _ _ _ _ _ _ _ Hne' Hmulti)
          as (k & _ & Hnamed & _).
        rewrite Hnamed. eapply sublist_NoDup; [exact Hnd|apply sublist_take]. }
    apply Forall_forall. intros r Hin. rewrite Hsummary.
    apply lastVerdictOf_unique; [exact Hnames|apply list_elem_of_In; exact Hin].
Qed.

Lemma summary_matches_results_witness :
  ScanResult.Summary twoModelScan !! "claude-3-5-sonnet-20241022" = Some "bedrock".
Proof.
  destruct (summary_matches_results decodeTwo sprintSample switchingRelay noDeadline
              twoModelRequest resolvedForAdmin start twoModelScan) as (Hsummary & _).
  - vm_compute. reflexivity.
  - rewrite Hsummary. vm_compute. reflexivity.
Defined.

(** ** The confidence on the page *)

(** The confidence is a number of hundredths. *)
Lemma confidenceOf_hundredth maxScore total :
  0 <= maxScore <= total -> 0 < total < 2 ^ 53 ->
  exists k, 0 <= k <= 100
    /\ confidenceOf maxScore total
       = (SF2Prim (binary_normalize prec emax k 0 false) / 100)%float.
Proof.
  intros [Hmax Hle] [Hpos Hlt].
  unfold confidenceOf, GoFloat.Round.
  set (q := (GoFloat.ofInt maxScore / GoFloat.ofInt total)%float).
  set (y := (q * 100)%float).
  destruct (binary_normalize_int total ltac:(lia)) as (mB & eB & HB & HeB & HmB).
  assert (Hq : atMostInt (Prim2SF q) 1).
  { unfold q. rewrite FloatAxioms.div_spec, !ofInt_decoded by lia. rewrite HB.
    destruct (Z.eq_dec maxScore 0) as [->|Hnz].
    - left. reflexivity.
    - destruct (binary_normalize_int maxScore ltac:(lia)) as (mA & eA & -> & HeA & HmA).
      apply (SFdiv_at_most_one mA eA mB eB maxScore total); auto; lia. }
  assert (Hy : exists E, E <= 0 /\ atMost (Prim2SF y) (100 * 2 ^ (- E)) E).
  { unfold y. rewrite FloatAxioms.mul_spec, hundred_decoded.
    destruct Hq as [->|(mq & eq & -> & Heq & Hmq)].
    - exists 0. split; [lia|]. left. reflexivity.
    - apply SFmul_at_most_hundred; [exact Heq|lia]. }
  destruct Hy as (E & HE & Hy).
  destruct (roundSF_hundred (Prim2SF y) E (Prim2SF_valid y) HE Hy) as (k & Hk & ->).
  exists k. split; [exact Hk|reflexivity].
Qed.

Lemma analyze_confidence_hundredth fps model :
  Z.of_nat (length fps) <= fingerprintLimit ->
  exists k, 0 <= k <= 100
    /\ DetectResult.Confidence (analyze fps model)
       = (SF2Prim (binary_normalize prec emax k 0 false) / 100)%float.
Proof.
  intros Hlen.
  destruct (validFingerprints fps) as [|fp v] eqn:Hv.
  - exists 0. split; [lia|]. unfold analyze. rewrite Hv. reflexivity.
  - assert (Hne : validFingerprints fps <> []) by congruence.
    pose proof (analyze_confidence fps model Hne) as Hc. cbv zeta in Hc.
    destruct (analyze_total fps model Hlen Hne) as (Hsum & Ha & Hb & Hg).
    pose proof (validFingerprints_length fps) as Hvl.
    assert (Hlim : Z.of_nat (length (validFingerprints fps)) <= fingerprintLimit) by lia.
    pose proof (findings_ranged _ Hlim) as (Hra & Hrb & Hrg).
    destruct (analyze_verdict fps model Hne) as [Hs _].
    rewrite <- Hs in Hra, Hrb, Hrg.
    pose proof (fingerprintLimit_exact (Z.of_nat (length (validFingerprints fps)))
                  ltac:(lia)) as Hexact.
    rewrite pickWinner_max, Hsum in Hc. rewrite Hc.
    clear Hc Hs Hsum Hv Hne.
    revert Ha Hb Hg Hra Hrb Hrg.
    generalize (DetectResult.Scores (analyze fps model)). intros s Ha Hb Hg Hra Hrb Hrg.
    destruct (Z.eqb_spec (anthropic s + bedrock s + antigravity s) 0) as [Hzero|Hnz].
    + exists 0. split; [lia|]. reflexivity.
    + apply confidenceOf_hundredth; lia.
Qed.

(** X23. What the page shows for a confidence the service computed: the
    number before the percent sign is a whole number from 0 to 100,
    dividing it by 100 gives back the confidence exactly (nothing is lost
    between the two roundings), and the colour is the danger colour below
    30, the warning colour from 30 to 59 and the success colour from 60
    on. *)
Theorem page_percentage fps model :
  Z.of_nat (length fps) <= fingerprintLimit ->
  let confidence := DetectResult.Confidence (analyze fps model) in
  exists k,
    0 <= k <= 100
    /\ snd (PageConfidence.renderConfidence confidence) = GoFloat.ofInt k
    /\ confidence = (GoFloat.ofInt k / 100)%float
    /\ fst (PageConfidence.renderConfidence confidence)
       = (if k <? 30 then "var(--semi-color-danger)"
          else if k <? 60 then "var(--semi-color-warning)"
          else "var(--semi-color-success)").
Proof.
  intros Hlen confidence. subst confidence.
  destruct (analyze_confidence_hundredth fps model Hlen) as (k & Hk & ->).
  exists k. split; [exact Hk|].
  assert (Hint : SF2Prim (binary_normalize prec emax k 0 false) = GoFloat.ofInt k).
  { rewrite <- (SF2Prim_Prim2SF (GoFloat.ofInt k)), ofInt_decoded by lia. reflexivity. }
  rewrite <- Hint.
  assert (Hall : List.Forall (fun n =>
            let whole := SF2Prim (binary_normalize prec emax (Z.of_nat n) 0 false) in
            snd (PageConfidence.renderConfidence (whole / 100)) = whole
            /\ fst (PageConfidence.renderConfidence (whole / 100))
               = (if Z.of_nat n <? 30 then "var(--semi-color-danger)"
                  else if Z.of_nat n <? 60 then "var(--semi-color-warning)"
                  else "var(--semi-color-success)"))
            (seq 0 101)).
  { cbv [seq].
    repeat (apply List.Forall_cons; [vm_compute; split; reflexivity|]).
    apply List.Forall_nil. }
  rewrite List.Forall_forall in Hall.
  specialize (Hall (Z.to_nat k) ltac:(apply in_seq; lia)). cbv zeta in Hall.
  rewrite Z2Nat.id in Hall by lia. destruct Hall as [Hshown Hcolor].
  split; [exact Hshown|]. split; [reflexivity|exact Hcolor].
Qed.

Lemma page_percentage_witness :
  exists k,
    0 <= k <= 100
    /\ snd (PageConfidence.renderConfidence
              (DetectResult.Confidence
                 (analyze disguisedAnthropic "claude-sonnet-4-5-20250929")))
       = GoFloat.ofInt k
    /\ DetectResult.Confidence (analyze disguisedAnthropic "claude-sonnet-4-5-20250929")
       = (GoFloat.ofInt k / 100)%float
    /\ fst (PageConfidence.renderConfidence
              (DetectResult.Confidence
                 (analyze disguisedAnthropic "claude-sonnet-4-5-20250929")))
       = (if k <? 30 then "var(--semi-color-danger)"
          else if k <? 60 then "var(--semi-color-warning)"
          else "var(--semi-color-success)").
Proof.
  apply (page_percentage disguisedAnthropic "claude-sonnet-4-5-20250929").
  vm_compute. discriminate.
Defined.

(** ** Classifier: the order of the evidence *)

Lemma prefix_append tag rest : String.prefix tag (tag +:+ rest) = true.
Proof.
  induction tag as [|c tag IH]; [apply prefix_empty|].
  change (String.prefix (String c tag) (String c (tag +:+ rest)) = true).
  cbn [String.prefix]. destruct (ascii_dec c c); [exact IH|contradiction].
Qed.

Lemma appendsLines_keep tag : appendsLines tag 0 (fun t => t).
Proof. intros t. exists []. rewrite app_nil_r. repeat split; [constructor|cbn; lia]. Qed.

Lemma appendsLines_weaken tag a b g :
  (a <= b)%nat -> appendsLines tag a g -> appendsLines tag b g.
Proof.
  intros Hab Hg t. destruct (Hg t) as (new & He & Hp & Hl).
  exists new. repeat split; auto. lia.
Qed.

Lemma appendsLines_compose tag a b g h :
  appendsLines tag a g -> appendsLines tag b h ->
  appendsLines tag (a + b) (fun t => h (g t)).
Proof.
  intros Hg Hh t. destruct (Hg t) as (n1 & He1 & Hp1 & Hl1).
  destruct (Hh (g t)) as (n2 & He2 & Hp2 & Hl2).
  exists (n1 ++ n2). rewrite He2, He1, <- app_assoc.
  split; [reflexivity|]. split; [apply Forall_app; auto|].
  rewrite length_app. lia.
Qed.

(** One numbered step of the scoring loop appends at most one line, and
    the line starts with the tag. *)
Ltac one_line :=
  intros t;
  repeat match goal with
         | |- context [if ?c then _ else _] => destruct c
         end;
  unfold credit, note; cbn [evidence];
  first
    [ exists []; rewrite app_nil_r; split; [reflexivity|];
      split; [constructor|cbn; lia]
    | eexists [_]; split; [reflexivity|];
      split; [constructor; [apply prefix_append|constructor]|cbn; lia] ].

Lemma toolIDSignal_line tag fp : appendsLines tag 1 (toolIDSignal tag fp).
Proof. unfold toolIDSignal. one_line. Qed.

Lemma thinkingSignal_line tag fp : appendsLines tag 1 (thinkingSignal tag fp).
Proof. unfold thinkingSignal. one_line. Qed.

Lemma msgIDSignal_line tag fp : appendsLines tag 1 (msgIDSignal tag fp).
Proof. unfold msgIDSignal. one_line. Qed.

Lemma modelSignal_line tag fp : appendsLines tag 1 (modelSignal tag fp).
Proof. unfold modelSignal. one_line. Qed.

Lemma serviceTierSignal_line tag fp : appendsLines tag 1 (serviceTierSignal tag fp).
Proof. unfold serviceTierSignal. one_line. Qed.

Lemma inferenceGeoSignal_line tag fp : appendsLines tag 1 (inferenceGeoSignal tag fp).
Proof. unfold inferenceGeoSignal. one_line. Qed.

Lemma cacheCreationSignal_line tag fp : appendsLines tag 1 (cacheCreationSignal tag fp).
Proof. unfold cacheCreationSignal. one_line. Qed.

Lemma usageSignal_line tag fp : appendsLines tag 1 (usageSignal tag fp).
Proof. unfold usageSignal. one_line. Qed.

Lemma awsHeaderSignal_line tag fp : appendsLines tag 1 (awsHeaderSignal tag fp).
Proof. unfold awsHeaderSignal. one_line. Qed.

Lemma anthropicHeaderSignal_line tag fp : appendsLines tag 1 (anthropicHeaderSignal tag fp).
Proof. unfold anthropicHeaderSignal. one_line. Qed.

Lemma scoreFingerprint_lines i fp : appendsLines (roundTag i) 10 (scoreFingerprint i fp).
Proof.
  unfold scoreFingerprint. fold (roundTag i).
  change 10%nat with (1 + 1 + 1 + 1 + 1 + 1 + 1 + 1 + 1 + 1)%nat.
  repeat (apply (appendsLines_compose (roundTag i)); [|
            first [ apply anthropicHeaderSignal_line | apply awsHeaderSignal_line
                  | apply usageSignal_line | apply cacheCreationSignal_line
                  | apply inferenceGeoSignal_line | apply serviceTierSignal_line
                  | apply modelSignal_line | apply msgIDSignal_line
                  | apply thinkingSignal_line ] ]).
  apply toolIDSignal_line.
Qed.

(** The scoring loop appends one group of lines per fingerprint, in
    order, each group under the tag of its fingerprint. *)
Lemma scoreAll_groups validFPs : forall i t,
  exists groups,
    evidence (scoreAll i validFPs t) = evidence t ++ concat groups
    /\ length groups = length validFPs
    /\ forall j group, groups !! j = Some group ->
         (length group <= 10)%nat
         /\ Forall (fun line => Strings.HasPrefix line (roundTag (i + j)) = true) group.
Proof.
  induction validFPs as [|fp rest IH]; intros i t; cbn [scoreAll].
  - exists []. cbn [concat length]. rewrite app_nil_r.
    split; [reflexivity|]. split; [reflexivity|].
    intros k group Hk. rewrite lookup_nil in Hk. discriminate.
  - destruct (scoreFingerprint_lines i fp t) as (new & He & Hp & Hl).
    destruct (IH (S i) (scoreFingerprint i fp t)) as (groups & Hg & Hlen & Hall).
    exists (new :: groups). rewrite Hg, He, <- app_assoc. cbn [concat length].
    split; [reflexivity|]. split; [lia|].
    intros [|k] group Hj; cbn in Hj.
    + injection Hj as <-. rewrite Nat.add_0_r. auto.
    + replace (i + S k)%nat with (S i + k)%nat by lia. apply Hall, Hj.
Qed.

(** The verdict block appends nothing, the line of an empty total, or
    lines that start with an exclamation mark in brackets. *)
Lemma verdict_lines missing s ev :
  exists summary,
    dEvidence (markSuspicious missing (decide_verdict s missing ev)) = ev ++ summary
    /\ (summary = [] \/ summary = ["未获取到有效指纹信号"]
        \/ Forall (fun line => Strings.HasPrefix line "[!" = true) summary).
Proof.
  unfold markSuspicious, decide_verdict.
  destruct (totalScore s =? 0).
  - destruct (0 <? length missing)%nat; cbn [dSuspicious dEvidence].
    + rewrite <- app_assoc. eexists. split; [reflexivity|]. right. right.
      cbn [app]. repeat (constructor; [reflexivity|]). constructor.
    + eexists. split; [reflexivity|]. right. left. reflexivity.
  - destruct (pickWinner s) as [winner maxScore].
    cbn [dSuspicious].
    destruct winner; [destruct (2 <=? length missing)%nat| |];
      cbn [dEvidence].
    + eexists. split; [reflexivity|]. right. right.
      repeat (constructor; [reflexivity|]). constructor.
    + exists []. rewrite app_nil_r. auto.
    + exists []. rewrite app_nil_r. auto.
    + exists []. rewrite app_nil_r. auto.
Qed.

(** X24. The order of the evidence, for a list with a valid fingerprint:
    first the platform line, if a platform was detected; then, for each
    valid fingerprint in the order of the probes, at most ten lines that
    start with its tag [R1], [R2], ...; then at most one correction line;
    then one line per missing flag; then the lines of the verdict, if
    any. *)
Theorem evidence_order fps model :
  validFingerprints fps <> [] ->
  let r := analyze fps model in
  exists groups corrections missing summary,
    DetectResult.Evidence r
    = (if String.eqb (DetectResult.ProxyPlatform r) "" then []
       else ["中转平台: " +:+ DetectResult.ProxyPlatform r])
      ++ concat groups ++ corrections ++ missing ++ summary
    /\ length groups = length (validFingerprints fps)
    /\ (forall i group, groups !! i = Some group ->
          (length group <= 10)%nat
          /\ Forall (fun line => Strings.HasPrefix line (roundTag i) = true) group)
    /\ (length corrections <= 1)%nat
    /\ Forall (fun line => Strings.HasPrefix line "[修正]" = true) corrections
    /\ length missing = length (missingFlags (findings (validFingerprints fps)))
    /\ Forall (fun line => Strings.HasPrefix line "[缺失]" = true) missing
    /\ (summary = [] \/ summary = ["未获取到有效指纹信号"]
        \/ Forall (fun line => Strings.HasPrefix line "[!" = true) summary).
Proof.
  intros Hne. cbv zeta. unfold analyze.
  destruct (validFingerprints fps) as [|fp v] eqn:Hv; [contradiction|].
  cbv zeta. cbn [DetectResult.Evidence DetectResult.ProxyPlatform].
  set (validFPs := fp :: v).
  (* the scoring loop *)
  destruct (scoreAll_groups validFPs 0
              {| scores := zeroScores;
                 evidence := if negb (String.eqb (fst (firstPlatform validFPs)) "")
                             then ["中转平台: " +:+ fst (firstPlatform validFPs)] else [] |})
    as (groups & Hscoring & Hlen & Hgroups).
  cbn [evidence] in Hscoring. fold (afterScoring validFPs) in Hscoring.
  (* the second pass *)
  assert (Hcorr : exists corrections,
    evidence (afterCorrection validFPs) = evidence (afterScoring validFPs) ++ corrections
    /\ (length corrections <= 1)%nat
    /\ Forall (fun line => Strings.HasPrefix line "[修正]" = true) corrections).
  { unfold afterCorrection, kiroRewriteNote, attributionCorrection.
    destruct (hasKiroModel validFPs); cbn [negb andb].
    - destruct (0 <? msgUUIDCount validFPs).
      + eexists [_]. unfold note. cbn [evidence]. split; [reflexivity|].
        split; [cbn; lia|]. constructor; [reflexivity|constructor].
      + exists []. rewrite app_nil_r. repeat split; [cbn; lia|constructor].
    - destruct ((0 <? antigravity (scores (afterScoring validFPs)))
                && (0 <? bedrock (scores (afterScoring validFPs))));
        [destruct (4 <=? antigravity (scores (afterScoring validFPs)))|].
      + eexists [_]. cbn [evidence]. split; [reflexivity|].
        split; [cbn; lia|]. constructor; [reflexivity|constructor].
      + exists []. rewrite app_nil_r. repeat split; [cbn; lia|constructor].
      + exists []. rewrite app_nil_r. repeat split; [cbn; lia|constructor]. }
  destruct Hcorr as (corrections & Hcorr & Hcl & Hcp).
  (* the third pass *)
  assert (Hmiss : exists missing,
    evidence (tally (beforeClamp validFPs)) = evidence (afterCorrection validFPs) ++ missing
    /\ length missing = length (missingFlags (beforeClamp validFPs))
    /\ Forall (fun line => Strings.HasPrefix line "[缺失]" = true) missing).
  { unfold beforeClamp, negativeEvidence.
    destruct (_ && _ && _).
    - destruct (negb (anyInferenceGeo validFPs)), (negb (anyCacheObj validFPs)),
        (hasThinkingProbe validFPs), (negb (anyThinkingSig validFPs));
        unfold raise, debit; cbn [tally evidence missingFlags];
        rewrite <- ?app_assoc; cbn [app];
        first [ exists []; rewrite app_nil_r; split; [reflexivity|];
                split; [reflexivity|constructor]
              | eexists; split; [reflexivity|]; split; [reflexivity|];
                repeat (constructor; [reflexivity|]); constructor ].
    - exists []. cbn [tally missingFlags]. rewrite app_nil_r.
      split; [reflexivity|]. split; [reflexivity|constructor]. }
  destruct Hmiss as (missing & Hmiss & Hml & Hmp).
  assert (Hev : evidence (tally (findings validFPs))
                = (if String.eqb (fst (firstPlatform validFPs)) "" then []
                   else ["中转平台: " +:+ fst (firstPlatform validFPs)])
                  ++ concat groups ++ corrections ++ missing).
  { unfold findings. cbn [tally evidence]. rewrite Hmiss, Hcorr, Hscoring.
    rewrite <- !app_assoc.
    destruct (String.eqb (fst (firstPlatform validFPs)) ""); reflexivity. }
  assert (Hflags : missingFlags (findings validFPs) = missingFlags (beforeClamp validFPs))
    by reflexivity.
  destruct (verdict_lines (missingFlags (findings validFPs))
              (scores (tally (findings validFPs)))
              (evidence (tally (findings validFPs)))) as (summary & Hsum & Hshape).
  exists groups, corrections, missing, summary.
  rewrite Hsum, Hev, Hflags, <- !app_assoc.
  split; [reflexivity|]. split; [exact Hlen|].
  split; [intros i group Hi; apply (Hgroups i group Hi)|].
  auto 10.
Qed.

Lemma evidence_order_witness :
  exists groups corrections missing summary,
    DetectResult.Evidence (analyze disguisedAnthropic "claude-sonnet-4-5-20250929")
    = concat groups ++ corrections ++ missing ++ summary
    /\ length groups = 2%nat /\ length corrections = 0%nat /\ length missing = 3%nat.
Proof.
  destruct (evidence_order disguisedAnthropic "claude-sonnet-4-5-20250929")
    as (groups & corrections & missing & summary & Hev & Hlen & _ & Hcl & Hcp & Hml & _).
  - discriminate.
  - exists groups, corrections, missing, summary.
    split; [exact Hev|]. split; [exact Hlen|]. split; [|exact Hml].
    destruct corrections as [|line rest]; [reflexivity|exfalso].
    assert (Hin : In line (DetectResult.Evidence
                             (analyze disguisedAnthropic "claude-sonnet-4-5-20250929"))).
    { rewrite Hev. apply in_or_app. right. apply in_or_app. right.
      apply in_or_app. left. left. reflexivity. }
    apply Forall_cons_1 in Hcp as [Hline _].
    revert Hin Hline. vm_compute. intuition (subst; discriminate).
Defined.

(** ** Groups: the list of names *)

(** X25. [GetGroups] lists every group that has a ratio, each exactly
    once, and nothing else. *)
Theorem groups_listed_once (groupRatio : gmap string float) :
  NoDup (GetGroups groupRatio)
  /\ forall g, In g (GetGroups groupRatio) <-> is_Some (groupRatio !! g).
Proof.
  unfold GetGroups.
  apply (map_fold_weak_ind (fun (names : list string) (m : gmap string float) =>
           NoDup names /\ forall g, In g names <-> is_Some (m !! g))).
  - split; [constructor|]. intros g. rewrite lookup_empty. split.
    + intros [].
    + intros [x Hx]. discriminate.
  - intros i x m names Hfresh [Hnd Hin]. split.
    + apply NoDup_app. split; [exact Hnd|]. split; [|apply NoDup_singleton].
      intros g Hg Hi. apply list_elem_of_In in Hg.
      apply list_elem_of_singleton in Hi. subst g.
      apply Hin in Hg. rewrite Hfresh in Hg. destruct Hg as [? Hg]. discriminate.
    + intros g. rewrite in_app_iff, Hin. cbn [In].
      destruct (decide (i = g)) as [->|Hne].
      * rewrite lookup_insert_eq. split; [eauto|auto].
      * rewrite lookup_insert_ne by exact Hne. split; [|auto].
        intros [Hg|[Hg|[]]]; [exact Hg|contradiction].
Qed.
